(** * aspyre-core: a shallow embedding of the dispatch core

    The development follows the Python sources module by module:
    - [Py]          the fragment of the Python runtime the sources rely on
                    (text, values, exceptions, the object store);
    - [Error]       error.py: the status table and the generated error classes;
    - [Dictionary]  dictionary.py: AspyreDictImmutable, AspyreDict and
                    AspyreDictHistory;
    - [Resource]    handler classes and their hooks;
    - [UrlClass]    url_class.py: Regex.add_route, Regex.find and Regex.group
                    over the compiled route list;
    - [Core]        aspyre.py: Aspyre.find, Aspyre.handle, Aspyre.__call__,
                    the finders of Find and AspyreGroup;
    - [Samples]     handlers, routes and applications used in the examples;
    - [DictionaryFacts], [UrlClassFacts], [CoreFacts]: what is proved;
    - [DictionaryExtras], [UrlClassExtras], [CoreExtras], [ErrorExtras]:
                    further properties of the same modules.

    Conventions.  Text is a sequence of Latin-1 code points ([string]) and the
    keys of every mapping are text.  Instances of the dictionary classes live
    in an object store and are referred to by address, because the history of
    a context refers back to the context itself; lists are kept by value.
    Coroutine functions are embedded as the functions they compute; a call
    that the source awaits runs the callee, and a call that the source does
    not await yields a coroutine object, whose body does not run.  Compiled
    patterns,
    [urllib.parse.parse_qs], the codec and the interpreter's builtins
    namespace belong to the environment: they are parameters, with samples to
    compute with. *)

From Stdlib Require Import ZArith Ascii String List Lia Bool DecimalString.
From stdpp Require Import base option list strings gmap.

Local Open Scope string_scope.
Local Open Scope list_scope.

(* ===================================================================== *)
(** * The Python runtime fragment *)
(* ===================================================================== *)
Module Py.

(** ** Characters and text *)

Definition code (c : ascii) : nat := nat_of_ascii c.

Definition between (lo hi n : nat) : bool := (lo <=? n)%nat && (n <=? hi)%nat.

(** Membership in [string.ascii_lowercase]. *)
Definition in_ascii_lowercase (c : ascii) : bool := between 97 122 (code c).

(** One character of [str.lower()] on Latin-1 text. *)
Definition lower_char (c : ascii) : ascii :=
  let n := code c in
  if between 65 90 n || between 192 214 n || between 216 222 n
  then ascii_of_nat (n + 32) else c.

(** One character of [str.upper()], on ASCII text. *)
Definition upper_char (c : ascii) : ascii :=
  let n := code c in
  if between 97 122 n then ascii_of_nat (n - 32) else c.

(** [c.isalpha()] on Latin-1 text. *)
Definition isalpha (c : ascii) : bool :=
  let n := code c in
  between 65 90 n || between 97 122 n || (n =? 170)%nat || (n =? 181)%nat
  || (n =? 186)%nat || between 192 214 n || between 216 246 n
  || between 248 255 n.

Fixpoint smap (f : ascii -> ascii) (s : string) : string :=
  match s with
  | EmptyString => EmptyString
  | String c s' => String (f c) (smap f s')
  end.

Fixpoint sfilter (p : ascii -> bool) (s : string) : string :=
  match s with
  | EmptyString => EmptyString
  | String c s' => if p c then String c (sfilter p s') else sfilter p s'
  end.

(** [s.lower()] *)
Definition lower (s : string) : string := smap lower_char s.

(** [s.capitalize()], on ASCII text. *)
Definition capitalize (s : string) : string :=
  match s with
  | EmptyString => EmptyString
  | String c s' => String (upper_char c) (lower s')
  end.

(** [''.join(parts)] *)
Definition join (parts : list string) : string :=
  fold_right String.append EmptyString parts.

(** [s.split(sep)] for a non-empty separator: a left-to-right scan for
    non-overlapping occurrences.  [skip] counts the characters of an
    occurrence that are still to be dropped, [cur] is the piece being read. *)
Fixpoint split_scan (sep : string) (skip : nat) (cur : string) (s : string)
  : list string :=
  match s with
  | EmptyString => [cur]
  | String c s' =>
      match skip with
      | S k => split_scan sep k cur s'
      | O =>
          if String.prefix sep s
          then cur :: split_scan sep (String.length sep - 1) EmptyString s'
          else split_scan sep 0 (cur ++ String c EmptyString)%string s'
      end
  end.

Definition split (sep s : string) : list string := split_scan sep 0 EmptyString s.

(** ** Values *)

(** The values that flow through a request.  [VRef r] is the address of an
    instance of one of the dictionary classes.  Lists are kept by value. *)
#[warnings="-register-all"]
Inductive value : Type :=
| VNone
| VBool (b : bool)
| VInt (n : Z)
| VStr (s : string)
| VList (l : list value)
| VDict (d : list (string * value))
| VRef (r : nat).

(** A Python [dict] with text keys: insertion ordered, one entry per key. *)
Definition pydict := list (string * value).

Section Dict.
Context {V : Type}.

Fixpoint dict_get (d : list (string * V)) (k : string) : option V :=
  match d with
  | [] => None
  | (k', v) :: d' => if String.eqb k' k then Some v else dict_get d' k
  end.

Definition dict_has (d : list (string * V)) (k : string) : bool :=
  match dict_get d k with Some _ => true | None => false end.

(** [d[k] = v]: an existing entry keeps its position, a new one goes last. *)
Fixpoint dict_set (d : list (string * V)) (k : string) (v : V) : list (string * V) :=
  match d with
  | [] => [(k, v)]
  | (k', v') :: d' =>
      if String.eqb k' k then (k', v) :: d' else (k', v') :: dict_set d' k v
  end.

(** [del d[k]] for a key that is present. *)
Fixpoint dict_del (d : list (string * V)) (k : string) : list (string * V) :=
  match d with
  | [] => []
  | (k', v') :: d' =>
      if String.eqb k' k then d' else (k', v') :: dict_del d' k
  end.

(** [d.update(src)] *)
Definition dict_update (d src : list (string * V)) : list (string * V) :=
  fold_left (fun acc kv => dict_set acc (fst kv) (snd kv)) src d.

Definition keys (d : list (string * V)) : list string := map fst d.

End Dict.

Fixpoint unique (ks : list string) : bool :=
  match ks with
  | [] => true
  | k :: ks' => negb (existsb (String.eqb k) ks') && unique ks'
  end.

(** The invariant of a Python dict: one entry per key. *)
Definition unique_keys (d : pydict) : bool := unique (keys d).

(** The entries of a dict under keys other than [k]. *)
Definition without (k : string) (d : pydict) : pydict :=
  List.filter (fun kv => negb (String.eqb (fst kv) k)) d.

(** ** Exceptions *)

(** The attributes of an instance of [error.Error]. *)
Record Error : Type := mkError {
  http_code : Z;
  error_code : value;
  message : value;
  short_name : value;
  reraise : bool
}.

Inductive exc : Type :=
| DomainError (e : Error)          (* error.Error and its subclasses *)
| TypeError
| ValueError
| KeyError (k : string)
| IndexError
| AttributeError (name : string)
| UnboundLocalError (name : string)
| OtherException (name : string).  (* any other subclass of Exception *)

(** The outcome of a computation that may raise. *)
Inductive res (A : Type) : Type :=
| Ok (a : A)
| Raise (e : exc).
Arguments Ok {A} a.
Arguments Raise {A} e.

Definition bind_res {A B} (m : res A) (k : A -> res B) : res B :=
  match m with
  | Ok a => k a
  | Raise e => Raise e
  end.

(** ** The object store *)

Inductive cls : Type := AspyreDictImmutable | AspyreDict | AspyreDictHistory.

(** An instance: its class and its [__dict__]. *)
Record obj : Type := mkObj { ocls : cls; odict : pydict }.

Abbreviation heap := (list obj).

(** Computations over the store. *)
Definition M (A : Type) : Type := heap -> res (A * heap).

Definition ret {A} (a : A) : M A := fun h => Ok (a, h).

Definition raise {A} (e : exc) : M A := fun _ => Raise e.

Definition bind {A B} (m : M A) (k : A -> M B) : M B :=
  fun h =>
    match m h with
    | Ok (a, h') => k a h'
    | Raise e => Raise e
    end.

Definition lift {A} (m : res A) : M A :=
  fun h => match m with Ok a => Ok (a, h) | Raise e => Raise e end.

(** Allocation of a bare instance (what [object.__new__] returns). *)
Definition alloc (c : cls) : M nat :=
  fun h => Ok (length h, h ++ [mkObj c []]).

(** [self.__class__] and [self.__dict__]. *)
Definition class_of (r : nat) : M cls :=
  fun h =>
    match h !! r with
    | Some o => Ok (ocls o, h)
    | None => Raise (AttributeError "__class__")
    end.

Definition get_dict (r : nat) : M pydict :=
  fun h =>
    match h !! r with
    | Some o => Ok (odict o, h)
    | None => Raise (AttributeError "__dict__")
    end.

(** In-place change of [self.__dict__]. *)
Definition put_dict (r : nat) (d : pydict) : M unit :=
  fun h =>
    match h !! r with
    | Some o => Ok (tt, <[r := mkObj (ocls o) d]> h)
    | None => Raise (AttributeError "__dict__")
    end.

(** [h'] differs from [h] at most in the instance at address [r]. *)
Definition touches_only (r : nat) (h h' : heap) : Prop :=
  length h' = length h /\ forall r', r' <> r -> h' !! r' = h !! r'.

End Py.

Export Py.

Notation "'let?' x ':=' c 'in' k" := (bind_res c (fun x => k))
  (at level 10, x pattern, c at level 100, k at level 200).
Notation "'let*' x ':=' c 'in' k" := (bind c (fun x => k))
  (at level 10, x pattern, c at level 100, k at level 200).

(* ===================================================================== *)
(** * error.py *)
(* ===================================================================== *)
Module Error.

(** The status table, in source order. *)
Definition HTTPResponses : list (Z * string) :=
  [ (100, "100 Continue"); (101, "101 Switching Protocols");
    (200, "200 OK"); (201, "201 Created"); (202, "202 Accepted");
    (203, "203 Non-Authoritative Information"); (204, "204 No Content");
    (205, "205 Reset Content"); (206, "206 Partial Content");
    (300, "300 Multiple Choices"); (301, "307 Temporary Redirect");
    (302, "307 Temporary Redirect"); (303, "307 Temporary Redirect");
    (304, "304 Not Modified"); (305, "305 Use Proxy");
    (307, "306 Temporary Redirect");
    (400, "400 Bad Request"); (401, "401 Unauthorized");
    (402, "402 Payment Required"); (403, "403 Forbidden");
    (404, "404 Not Found"); (405, "405 Method Not Allowed");
    (406, "406 Not Acceptable"); (407, "407 Proxy Authentication Required");
    (408, "408 Request Timeout"); (409, "409 Conflict"); (410, "410 Gone");
    (411, "411 Length Request"); (412, "412 Precondition Failed");
    (413, "413 Request Entity Too Large"); (414, "414 Request-URI Too Long");
    (415, "415 Unsupported Media Type"); (416, "416 Range Not Satisfiable");
    (417, "417 Expectation Failed"); (418, "418 I'm a teapot");
    (500, "500 Internal Server Error"); (501, "501 Not Implemented");
    (502, "502 Bad Gateway"); (503, "503 Service Unavailable");
    (504, "504 Gateway Timeout"); (505, "505 HTTP Version Not Supported");
    (555, "555 Running Aspyre") ]%Z.

(** A class made by [_return_error_class(http_code)], called with the keyword
    arguments of its [__init__] (whose [reraise] defaults to [False]). *)
Definition _return_error_class (http_code : Z)
    (error_code message short_name : value) (reraise : bool) : Error :=
  mkError http_code error_code message short_name reraise.

(** The name under which the class for one table row is stored. *)
Definition class_name (text : string) : string :=
  join (map capitalize
          (split " " (sfilter (fun c => isalpha c || Ascii.eqb c " "%char) text))).

(** The module namespace after the loop over the table has run: class name to
    the status code its class was made for.  Rows below 300 are skipped and a
    later row replaces an earlier one of the same name. *)
Definition module_classes : list (string * Z) :=
  fold_left
    (fun globals row =>
       if (fst row <? 300)%Z then globals
       else
         let name := class_name (snd row) in
         let fix store (g : list (string * Z)) :=
           match g with
           | [] => [(name, fst row)]
           | (n, c) :: g' =>
               if String.eqb n name then (n, fst row) :: g' else (n, c) :: store g'
           end in
         store globals)
    HTTPResponses [].

(** [error.<name>]: attribute lookup on the module. *)
Fixpoint lookup_class (g : list (string * Z)) (name : string) : option Z :=
  match g with
  | [] => None
  | (n, c) :: g' => if String.eqb n name then Some c else lookup_class g' name
  end.

(** [error.<name>(message=msg)] as an expression: the instance, or the
    AttributeError of a name the module does not define. *)
Definition instantiate (name : string) (msg : string) : res Error :=
  match lookup_class module_classes name with
  | Some c => Ok (_return_error_class c VNone (VStr msg) VNone false)
  | None => Raise (AttributeError name)
  end.

(** Text made of letters only, and text within ASCII. *)
Definition letters (s : string) : bool :=
  forallb isalpha (list_ascii_of_string s).

Definition ascii_only (s : string) : bool :=
  forallb (fun c => (code c <? 128)%nat) (list_ascii_of_string s).

End Error.

(* ===================================================================== *)
(** * dictionary.py *)
(* ===================================================================== *)
Module Dictionary.

(** The reduction both [__find_key__] methods apply to the requested key:
    [''.join(char for char in str(key).lower() if char in string.ascii_lowercase)]. *)
Definition normalize (key : string) : string :=
  sfilter in_ascii_lowercase (lower key).

(** ** __find_key__ *)

(** The loop of [AspyreDictImmutable.__find_key__] over [self.__dict__.keys()]. *)
Fixpoint scan_immutable (key_f : string) (cls_keys : list string) : option string :=
  match cls_keys with
  | [] => None
  | cls_key :: rest =>
      if String.eqb key_f (normalize cls_key) then Some cls_key
      else scan_immutable key_f rest
  end.

Definition AspyreDictImmutable_find_key (d : pydict) (key : string) : bool * string :=
  match scan_immutable (normalize key) (keys d) with
  | Some cls_key => (true, cls_key)
  | None => (false, key)
  end.

(** The loop of [AspyreDictHistory.__find_key__]: the history slot is skipped
    and the reduced key is compared with the stored key as it stands. *)
Fixpoint scan_history (key_f : string) (cls_keys : list string) : option string :=
  match cls_keys with
  | [] => None
  | cls_key :: rest =>
      if String.eqb cls_key "__history" then scan_history key_f rest
      else if String.eqb key_f cls_key then Some cls_key
      else scan_history key_f rest
  end.

Definition AspyreDictHistory_find_key (d : pydict) (key : string) : bool * string :=
  match scan_history (normalize key) (keys d) with
  | Some cls_key => (true, cls_key)
  | None => (false, key)
  end.

(** [self.__class__.__find_key__(self, key)] *)
Definition class_find_key (c : cls) : pydict -> string -> bool * string :=
  match c with
  | AspyreDictHistory => AspyreDictHistory_find_key
  | _ => AspyreDictImmutable_find_key
  end.

(** ** Construction *)

(** [list(x)] and [len(x)] on the values of the model. *)
Definition py_list (x : value) : M value :=
  match x with
  | VList l => ret (VList l)
  | VStr s => ret (VList (map (fun c => VStr (String c EmptyString)) (list_ascii_of_string s)))
  | VDict d => ret (VList (map VStr (keys d)))
  | VRef r => let* d := get_dict r in ret (VList (map VStr (keys d)))
  | _ => raise TypeError
  end.

Definition py_len (x : value) : M Z :=
  match x with
  | VList l => ret (Z.of_nat (length l))
  | VStr s => ret (Z.of_nat (String.length s))
  | VDict d => ret (Z.of_nat (length d))
  | VRef r => let* d := get_dict r in ret (Z.of_nat (length d))
  | _ => raise TypeError
  end.

(** [self.__dict__[k] = v] and [self.__dict__[k]]. *)
Definition store (self : nat) (k : string) (v : value) : M unit :=
  let* d := get_dict self in put_dict self (dict_set d k v).

Definition fetch (self : nat) (k : string) : M value :=
  let* d := get_dict self in
  match dict_get d k with
  | Some v => ret v
  | None => raise (KeyError k)
  end.

(** [AspyreDictImmutable.__init__] *)
Definition AspyreDictImmutable_init (self : nat) (old_dict : value) : M unit :=
  match old_dict with
  | VRef o =>
      let* od := get_dict o in
      let* d := get_dict self in
      let* _ := put_dict self (dict_update d od) in
      let* d := get_dict self in
      if dict_has d "__history" then put_dict self (dict_del d "__history")
      else ret tt
  | VDict m =>
      let* d := get_dict self in put_dict self (dict_update d m)
  | VNone => store self "__history" (VList [])
  | _ => raise TypeError
  end.

(** [AspyreDictHistory.__init__] *)
Definition AspyreDictHistory_init (self : nat) (old_dict : value) : M unit :=
  let* _ := AspyreDictImmutable_init self old_dict in
  let fresh := store self "__history" (VList [VRef self]) in
  match old_dict with
  | VRef o =>
      let* c := class_of o in
      match c with
      | AspyreDictHistory =>
          let* hv := fetch o "__history" in
          let* l := py_list hv in
          store self "__history" l
      | _ => fresh
      end
  | _ => fresh
  end.

(** [c(old_dict)]: allocation followed by the [__init__] of the class. *)
Definition new (c : cls) (old_dict : value) : M nat :=
  let* self := alloc c in
  let* _ := match c with
            | AspyreDictHistory => AspyreDictHistory_init self old_dict
            | _ => AspyreDictImmutable_init self old_dict
            end in
  ret self.

(** ** Item access *)

(** [AspyreDictImmutable.__getitem__], inherited by [AspyreDict]. *)
Definition AspyreDictImmutable_getitem (self : nat) (key : string) : M value :=
  let* c := class_of self in
  let* d := get_dict self in
  let '(found, key) := class_find_key c d key in
  if found : bool then fetch self key else ret VNone.

Definition AspyreDictImmutable_setitem (self : nat) (key : string) (v : value) : M unit :=
  raise TypeError.

Definition AspyreDictImmutable_delitem (self : nat) (key : string) : M unit :=
  raise TypeError.

(** [AspyreDict.__delitem__] and [AspyreDict.__setitem__]: [super()] is
    [AspyreDictImmutable], whatever the class of [self]. *)
Definition AspyreDict_delitem (self : nat) (key : string) : M unit :=
  let* d := get_dict self in
  let '(found, key) := AspyreDictImmutable_find_key d key in
  if found : bool then put_dict self (dict_del d key) else ret tt.

Definition AspyreDict_setitem (self : nat) (key : string) (v : value) : M unit :=
  let* d := get_dict self in
  let '(_, key) := AspyreDictImmutable_find_key d key in
  match v with
  | VRef _ => store self key v
  | VDict _ =>
      let* c := class_of self in
      let* r := new c v in
      store self key (VRef r)
  | _ => store self key v
  end.

(** The methods of [AspyreDictHistory]. *)
Definition AspyreDictHistory_getitem (self : nat) (key : string) : M value :=
  let key_l := lower key in
  if String.eqb key_l "__history" then ret VNone
  else AspyreDictImmutable_getitem self key.

Definition AspyreDictHistory_setitem (self : nat) (key : string) (v : value) : M unit :=
  let key_l := lower key in
  if String.eqb key_l "__history" then raise (AttributeError "__history")
  else AspyreDict_setitem self key v.

Definition AspyreDictHistory_delitem (self : nat) (key : string) : M unit :=
  let key_l := lower key in
  if String.eqb key_l "__history" then raise (AttributeError "__history")
  else AspyreDict_delitem self key.

(** [self[key]], [self[key] = v] and [del self[key]], resolved on the class. *)
Definition getitem (self : nat) (key : string) : M value :=
  let* c := class_of self in
  match c with
  | AspyreDictHistory => AspyreDictHistory_getitem self key
  | _ => AspyreDictImmutable_getitem self key
  end.

Definition setitem (self : nat) (key : string) (v : value) : M unit :=
  let* c := class_of self in
  match c with
  | AspyreDictImmutable => AspyreDictImmutable_setitem self key v
  | AspyreDict => AspyreDict_setitem self key v
  | AspyreDictHistory => AspyreDictHistory_setitem self key v
  end.

Definition delitem (self : nat) (key : string) : M unit :=
  let* c := class_of self in
  match c with
  | AspyreDictImmutable => AspyreDictImmutable_delitem self key
  | AspyreDict => AspyreDict_delitem self key
  | AspyreDictHistory => AspyreDictHistory_delitem self key
  end.

(** [instance.name] for a name the class does not define: the entry of
    [__dict__] under that very name, or else [__getattr__], which is
    [__getitem__]. *)
Definition getattr_instance (self : nat) (name : string) : M value :=
  let* d := get_dict self in
  match dict_get d name with
  | Some v => ret v
  | None => getitem self name
  end.

(** ** Versions *)

(** [str(i)] for an integer. *)
Definition str_of_int (i : Z) : string := NilEmpty.string_of_int (Z.to_int i).

(** [l[i]] on a list. *)
Definition py_index (l : list value) (i : Z) : res value :=
  let n := Z.of_nat (length l) in
  let pos := if (i <? 0)%Z then (n + i)%Z else i in
  if ((0 <=? pos) && (pos <? n))%Z
  then match l !! Z.to_nat pos with
       | Some v => Ok v
       | None => Raise IndexError
       end
  else Raise IndexError.

(** [AspyreDictHistory.get_current_version] *)
Definition get_current_version (self : nat) : M Z :=
  let* hv := fetch self "__history" in
  py_len hv.

(** [AspyreDictHistory.save].  The attribute [append] of the history slot is
    looked up first, then the copy [self.__class__(self)] is built, then the
    call is made.  Of the values a slot can hold, a list has [append]; an
    instance of a dictionary class answers the lookup through its [__dict__]
    or [__getattr__] with a value that cannot be called; the others have no
    such attribute. *)
Definition save (self : nat) : M Z :=
  let* hv := fetch self "__history" in
  match hv with
  | VList l =>
      let* c := class_of self in
      let* snapshot := new c (VRef self) in
      let* _ := store self "__history" (VList (l ++ [VRef snapshot])) in
      get_current_version self
  | VRef r =>
      let* _ := getattr_instance r "append" in
      let* c := class_of self in
      let* _ := new c (VRef self) in
      raise TypeError
  | _ => raise (AttributeError "append")
  end.

(** [slot[version]] for the value of a history slot and an integer: a list
    and a text are indexed; a plain dict has text keys only; an instance of
    a dictionary class answers through its [__getitem__], which for the
    versioned class starts with [key.lower()] and for the others looks for
    the reduction of [str(key)]; the other values cannot be subscripted. *)
Definition subscript (slot : value) (version : Z) : M value :=
  match slot with
  | VList l => lift (py_index l version)
  | VStr s =>
      lift (py_index (map (fun c => VStr (String c EmptyString)) (list_ascii_of_string s))
              version)
  | VDict _ => raise (KeyError (str_of_int version))
  | VRef r =>
      let* c := class_of r in
      match c with
      | AspyreDictHistory => raise (AttributeError "lower")
      | _ => AspyreDictImmutable_getitem r (str_of_int version)
      end
  | _ => raise TypeError
  end.

(** [AspyreDictHistory.rollback].  Every statement reads the store anew, so a
    history entry that is the context itself is handled as Python handles it.
    A history entry that is no instance of a dictionary class has no
    [__dict__]. *)
Definition rollback (self : nat) (version : Z) : M unit :=
  let* hv := fetch self "__history" in
  let* state := subscript hv version in
  match state with
  | VRef state =>
      let* history := fetch state "__history" in
      let* sd := get_dict state in
      let* _ := put_dict state (dict_del sd "__history") in
      let* _ := put_dict self [] in
      let* sd := get_dict state in
      let* d := get_dict self in
      let* _ := put_dict self (dict_update d sd) in
      let* l' := py_list history in
      store self "__history" l'
  | _ => raise (AttributeError "__dict__")
  end.

(** The entries of a [__dict__] outside the reserved history slot. *)
Definition state_of (d : pydict) : pydict := without "__history" d.

(** The value a computation returns, without the store it leaves. *)
Definition result {A} (m : M A) (h : heap) : res A :=
  match m h with
  | Ok (a, _) => Ok a
  | Raise e => Raise e
  end.

(** [n] calls of [save()] in a row, with the values they return. *)
Fixpoint save_times (n : nat) (self : nat) : M (list Z) :=
  match n with
  | O => ret []
  | S k =>
      let* v := save self in
      let* vs := save_times k self in
      ret (v :: vs)
  end.

(** ** Constructor arguments *)

(** The arguments with which the constructor of a versioned context returns:
    nothing, a plain mapping, or an instance of one of the three classes;
    when that instance is a versioned context, its history slot holds a
    list. *)
Definition constructor_argument (h : heap) (old_dict : value) : Prop :=
  match old_dict with
  | VNone | VDict _ => True
  | VRef src =>
      exists o, h !! src = Some o
                /\ unique_keys (odict o) = true
                /\ (ocls o = AspyreDictHistory ->
                    exists l, dict_get (odict o) "__history" = Some (VList l))
  | _ => False
  end.

(** Whether the argument is a versioned context. *)
Definition is_versioned (h : heap) (old_dict : value) : bool :=
  match old_dict with
  | VRef src =>
      match h !! src with
      | Some (mkObj AspyreDictHistory _) => true
      | _ => false
      end
  | _ => false
  end.

(** The history slot of the argument, when it is an instance. *)
Definition history_of (h : heap) (old_dict : value) : option value :=
  match old_dict with
  | VRef src =>
      match h !! src with
      | Some o => dict_get (odict o) "__history"
      | None => None
      end
  | _ => None
  end.

(** ** Membership, edits, sums and differences *)

(** [AspyreDictImmutable.__contains__]: [key in self]. *)
Definition contains (self : nat) (key : string) : M bool :=
  let* c := class_of self in
  let* d := get_dict self in
  ret (fst (class_find_key c d key)).

(** The key under which [AspyreDict.__setitem__] and [__delitem__] work. *)
Definition slot (d : pydict) (key : string) : string :=
  snd (AspyreDictImmutable_find_key d key).

(** An item assignment or an item deletion on a mapping. *)
Inductive edit : Type :=
| Assign (key : string) (v : value)
| Delete (key : string).

Definition apply_edit (self : nat) (e : edit) : M unit :=
  match e with
  | Assign key v => setitem self key v
  | Delete key => delitem self key
  end.

(** A sequence of statements [self[k] = v] and [del self[k]]. *)
Fixpoint apply_edits (self : nat) (es : list edit) : M unit :=
  match es with
  | [] => ret tt
  | e :: rest => let* _ := apply_edit self e in apply_edits self rest
  end.


(** No two stored keys have the same reduction. *)
Definition distinct_reductions (d : pydict) : bool :=
  unique (map normalize (keys d)).

(** Every stored key is the history slot or is its own reduction. *)
Definition reduced_keys (d : pydict) : bool :=
  forallb (fun k => String.eqb k "__history" || String.eqb (normalize k) k) (keys d).

(** [MutableMapping.update(other)] for a mapping [other]: one item assignment
    per key of [other], with the value [other[key]]. *)
Fixpoint assign_all (self : nat) (items : pydict) : M unit :=
  match items with
  | [] => ret tt
  | (k, v) :: rest => let* _ := setitem self k v in assign_all self rest
  end.

Fixpoint assign_from (self other : nat) (ks : list string) : M unit :=
  match ks with
  | [] => ret tt
  | k :: rest =>
      let* v := getitem other k in
      let* _ := setitem self k v in
      assign_from self other rest
  end.

Definition update (self : nat) (other : value) : M unit :=
  match other with
  | VDict m => assign_all self m
  | VRef o => let* od := get_dict o in assign_from self o (keys od)
  | _ => raise TypeError
  end.

(** The loop of [__add__] over a list: the test is on the list [other] itself,
    which is no mapping, so the first item ends the loop. *)
Definition add_list_loop (result : nat) (items : list value) : M unit :=
  match items with
  | [] => ret tt
  | _ :: _ => raise TypeError
  end.

(** [AspyreDictImmutable.__add__] *)
Definition add (self : nat) (other : value) : M nat :=
  match other with
  | VDict _ | VRef _ =>
      let* c := class_of self in
      let* result := new c (VRef self) in
      let* _ := update result other in
      ret result
  | VList items =>
      let* c := class_of self in
      let* result := new c (VRef self) in
      let* _ := add_list_loop result items in
      ret result
  | _ => raise TypeError
  end.

(** The loop of [__sub__] over a list of keys. *)
Fixpoint sub_list_loop (result : nat) (items : list value) : M unit :=
  match items with
  | [] => ret tt
  | VStr item :: rest =>
      let* _ := delitem result item in sub_list_loop result rest
  | _ :: _ => raise TypeError
  end.

(** [AspyreDictImmutable.__sub__]: for a text key the membership test goes
    through [__find_key__] and the deletion through [__dict__] with the key as
    given. *)
Definition sub (self : nat) (other : value) : M nat :=
  match other with
  | VStr key =>
      let* c := class_of self in
      let* result := new c (VRef self) in
      let* found := contains result key in
      let* _ :=
        if found : bool then
          let* d := get_dict result in
          match dict_get d key with
          | Some _ => put_dict result (dict_del d key)
          | None => raise (KeyError key)
          end
        else ret tt in
      ret result
  | VList items =>
      let* c := class_of self in
      let* result := new c (VRef self) in
      let* _ := sub_list_loop result items in
      ret result
  | _ => raise TypeError
  end.

End Dictionary.

(* ===================================================================== *)
(** * Handlers *)
(* ===================================================================== *)
Module Resource.

(** What a call of a hook does: it returns or raises, and it may have changed
    the instances it was handed. *)
Inductive outcome : Type :=
| Returned (v : value)
| Raised (e : exc).

Definition hookfn := list value -> heap -> outcome * heap.

(** An attribute of a handler class. *)
Inductive attribute : Type :=
| Callable (f : hookfn)
| NotCallable (v : value).

(** A handler class: its identity and its attributes. *)
Record handler : Type := mkHandler {
  hid : nat;
  hattrs : list (string * attribute)
}.

(** [getattr(handler, name, None)] *)
Definition getattr (c : handler) (name : string) : option attribute :=
  dict_get (hattrs c) name.

(** [callable(getattr(handler, name, None))] *)
Definition has_callable (c : handler) (name : string) : bool :=
  match getattr c name with
  | Some (Callable _) => true
  | _ => false
  end.

(** The object [getattr(handler, name)] evaluates to, with where it came from. *)
Record bound : Type := mkBound {
  owner : nat;
  attr : string;
  target : attribute
}.

Definition getattr_strict (c : handler) (name : string) : res bound :=
  match getattr c name with
  | Some a => Ok (mkBound (hid c) name a)
  | None => Raise (AttributeError name)
  end.

End Resource.

Export Resource.

(* ===================================================================== *)
(** * url_class.py *)
(* ===================================================================== *)
Module UrlClass.

(** ** Compiled patterns *)

(** [m.groupdict()]: the named groups in pattern order with the text each one
    captured. *)
Definition groupdict := list (string * string).

(** A compiled pattern is used through [re.fullmatch] alone: the group
    dictionary of the match of the whole text, or nothing. *)
Record pattern : Type := Compiled { fullmatch : string -> option groupdict }.

(** [Regex.__separator__] *)
Definition __separator__ : string := "0_d_collis_1".

(** The patterns that [Simple.add_route] and [Regex.group] build: literal
    characters and named groups [(?P<name>[^\/]+)]. *)
Inductive token : Type :=
| Lit (c : ascii)
| Seg (name : string).

(** A named group [[^\/]+] followed by the rest of the pattern [k]: the group
    takes as many characters as the rest allows (greedy, with backtracking). *)
Fixpoint match_seg (k : string -> option groupdict) (s : string)
  : option (string * groupdict) :=
  match s with
  | EmptyString => None
  | String c s' =>
      if Ascii.eqb c "/"%char then None
      else
        match match_seg k s' with
        | Some (w, g) => Some (String c w, g)
        | None =>
            match k s' with
            | Some g => Some (String c EmptyString, g)
            | None => None
            end
        end
  end.

Fixpoint match_tokens (p : list token) (s : string) : option groupdict :=
  match p with
  | [] => match s with EmptyString => Some [] | _ => None end
  | Lit c :: p' =>
      match s with
      | String c' s' => if Ascii.eqb c c' then match_tokens p' s' else None
      | EmptyString => None
      end
  | Seg name :: p' =>
      match match_seg (match_tokens p') s with
      | Some (w, g) => Some ((name, w) :: g)
      | None => None
      end
  end.

Definition lits (s : string) : list token := map Lit (list_ascii_of_string s).

(** The text a token pattern stands for under a group dictionary. *)
Fixpoint render (p : list token) (g : groupdict) : string :=
  match p with
  | [] => EmptyString
  | Lit c :: p' => String c (render p' g)
  | Seg name :: p' =>
      match g with
      | (_, w) :: g' => (w ++ render p' g')%string
      | [] => EmptyString
      end
  end.

(** [Regex.group(type, name)] *)
Definition group (type name : string) : token :=
  Seg (type ++ __separator__ ++ name)%string.

Definition compile (p : list token) : pattern := Compiled (match_tokens p).

(** ** Type conversion *)

Abbreviation converter := (string -> res value).

(** An entry of the interpreter's builtins namespace. *)
Inductive builtin : Type :=
| BuiltinCallable (f : converter)
| BuiltinOther (truthy : bool).

(** [__default_types__]: the tags the module lists as defaults.  The
    conversions are library functions; only the tags matter here. *)
Definition __default_types__ : list string :=
  ["str"; "strl"; "stru"; "int"; "float"; "date"; "timestamp"; "uuid"; "base64"].

(** ** The route list *)

Definition route : Type := (option pattern * option pattern) * handler.

Record Regex : Type := mkRegex {
  url_list : list route;              (* self.__url_list *)
  types : gmap string converter       (* self.__types *)
}.

(** [Regex.__init__(types)] *)
Definition Regex_init (types : option (gmap string converter)) : Regex :=
  mkRegex [] (match types with Some t => t | None => ∅ end).

(** [cls == entry] for a handler class and one of the tuples [(cls, ret_args)]
    that [find] collects: a class is equal to itself alone, and a tuple is
    equal to tuples alone. *)
Definition class_eq_tuple (c : handler) (entry : handler * pydict) : bool := false.

(** [cls in handlers] *)
Definition py_in (c : handler) (handlers : list (handler * pydict)) : bool :=
  existsb (class_eq_tuple c) handlers.

Section Find.

(** [globals()['__builtins__']] *)
Variable builtins : string -> option builtin.

(** The conversion of one captured value under the type tag [t]. *)
Definition convert (types : gmap string converter) (t : string) (raw : string)
  : res value :=
  match types !! t with
  | Some f => f raw
  | None =>
      match builtins t with
      | None => Raise (KeyError t)
      | Some func =>
          match func with
          | BuiltinCallable f => f raw
          | BuiltinOther true => Raise TypeError
          | BuiltinOther false => Raise (AttributeError t)
          end
      end
  end.

(** The loop over [args.items()] that fills [ret_args]. *)
Fixpoint convert_args (types : gmap string converter) (args : groupdict)
    (ret_args : pydict) : res pydict :=
  match args with
  | [] => Ok ret_args
  | (key, raw) :: rest =>
      match split __separator__ key with
      | [t; name] =>
          let? v := convert types t raw in
          convert_args types rest (dict_set ret_args name v)
      | _ => Raise ValueError
      end
  end.

(** [re.fullmatch(u, text)] for an optional matcher [u]; the text of a request
    may be [None], which [re.fullmatch] rejects. *)
Definition try_match (u : option pattern) (text : option string)
  : res (option groupdict) :=
  match u with
  | None => Ok None
  | Some p =>
      match text with
      | Some s => Ok (fullmatch p s)
      | None => Raise TypeError
      end
  end.

Definition matched (m : option groupdict) : bool :=
  match m with Some _ => true | None => false end.

Definition groups (m : option groupdict) : groupdict :=
  match m with Some g => g | None => [] end.

(** The guard [if m1 or m2] of one route, for a request. *)
Definition route_matches (host path : option string) (u : route) : bool :=
  match try_match (fst (fst u)) host, try_match (snd (fst u)) path with
  | Ok m1, Ok m2 => matched m1 || matched m2
  | _, _ => false
  end.

(** One iteration of the loop of [Regex.find]. *)
Definition find_step (types : gmap string converter) (host path : option string)
    (u : route) (handlers : list (handler * pydict))
  : res (list (handler * pydict)) :=
  let cls := snd u in
  let u := fst u in
  let? m1 := try_match (fst u) host in
  let args := dict_update [] (groups m1) in
  let? m2 := try_match (snd u) path in
  let args := dict_update args (groups m2) in
  if matched m1 || matched m2 then
    let? ret_args := convert_args types args [] in
    if negb (py_in cls handlers) then Ok (handlers ++ [(cls, ret_args)])
    else Ok handlers
  else Ok handlers.

Fixpoint find_loop (types : gmap string converter) (host path : option string)
    (urls : list route) (handlers : list (handler * pydict))
  : res (list (handler * pydict)) :=
  match urls with
  | [] => Ok handlers
  | u :: rest =>
      let? handlers := find_step types host path u handlers in
      find_loop types host path rest handlers
  end.

(** [Regex.find(host, path)] *)
Definition find (self : Regex) (host path : option string)
  : res (list (handler * pydict)) :=
  find_loop (types self) host path (url_list self) [].

End Find.

(** ** Registration *)

(** One element of [*urls]: a tuple of two items, a text, or anything else. *)
Inductive url : Type :=
| UrlPair (host path : value)
| UrlText (s : string)
| UrlOther.

Section AddRoute.

(** [Regex.__re_group_match.sub(Regex.__replacement_strategy__, text)] and
    [re.compile(text)]: library calls, each of which may raise. *)
Variable re_sub : string -> res string.
Variable re_compile : string -> res pattern.

(** [item is not None and not isinstance(item, str)] *)
Definition bad_item (item : value) : bool :=
  match item with
  | VNone | VStr _ => false
  | _ => true
  end.

(** The body of the loop of [Regex.add_route] up to the [append]: the pair
    [(host, path)] for one url.  In the tuple branch the rewritten text is
    assigned to an item of the tuple, which a tuple does not support; the
    right-hand side is evaluated first. *)
Definition add_route_step (u : url) : res (option pattern * option pattern) :=
  match u with
  | UrlPair u0 u1 =>
      if bad_item u0 then Raise ValueError
      else if bad_item u1 then Raise ValueError
      else
        let? host :=
          match u0 with
          | VStr (String c s) =>
              let? _ := re_sub (String c s) in Raise TypeError
          | _ => Ok None
          end in
        let? path :=
          match u1 with
          | VStr (String c s) =>
              if Ascii.eqb c "/"%char
              then let? _ := re_sub s in Raise TypeError
              else Raise ValueError
          | _ => Ok None
          end in
        Ok (host, path)
  | UrlText EmptyString => Raise IndexError
  | UrlText (String c s) =>
      if Ascii.eqb c "/"%char then
        let? text := re_sub s in
        let? path := re_compile text in
        Ok (None, Some path)
      else Raise ValueError
  | UrlOther => Raise ValueError
  end.

(** The loop of [Regex.add_route] over [urls]: the route list it leaves, and
    the exception that ended it, if any.  What was appended before an
    exception stays appended. *)
Fixpoint add_route_loop (cls : handler) (urls : list url) (url_list : list route)
  : list route * option exc :=
  match urls with
  | [] => (url_list, None)
  | u :: rest =>
      match add_route_step u with
      | Ok hp => add_route_loop cls rest (url_list ++ [(hp, cls)])
      | Raise e => (url_list, Some e)
      end
  end.

(** [Regex.add_route(cls, *urls)] *)
Definition add_route (self : Regex) (cls : handler) (urls : list url)
  : Regex * option exc :=
  let '(l, e) := add_route_loop cls urls (url_list self) in
  (mkRegex l (types self), e).

(** The registry after a sequence of calls of [add_route], whether or not the
    caller let their exceptions pass. *)
Definition registered (calls : list (handler * list url)) (self : Regex) : Regex :=
  fold_left (fun s call => fst (add_route s (fst call) (snd call))) calls self.

End AddRoute.

(** No route of the list has a host matcher. *)
Definition no_host_matcher (l : list route) : Prop :=
  Forall (fun u : route => fst (fst u) = None) l.

(** Text without the character [c]. *)
Definition free_of (c : ascii) (s : string) : bool :=
  forallb (fun x => negb (Ascii.eqb x c)) (list_ascii_of_string s).

End UrlClass.

(* ===================================================================== *)
(** * aspyre.py *)
(* ===================================================================== *)
Module Core.
Import Dictionary.

(** [Methods['http_methods']] *)
Definition http_methods : list string := ["get"; "post"; "put"; "patch"; "delete"].

Definition in_http_methods (method : string) : bool :=
  existsb (String.eqb method) http_methods.

(** What is handed to [codec.encode]. *)
Inductive encodable : Type :=
| EValue (v : value)
| EExc (e : exc).

(** The codec, as far as the core uses it. *)
Record Codec : Type := mkCodec {
  encode : encodable -> heap -> string;
  get_class : M value
}.

(** The attributes of an [Aspyre] instance that the methods below read.
    [dict_class] is read by [handle]; [None] stands for an instance without
    that attribute. *)
Record Aspyre : Type := mkAspyre {
  url_class : UrlClass.Regex;
  codec : Codec;
  dict_class : option cls
}.

(** [Aspyre.__init__]: the [dict_class] argument is accepted and not stored. *)
Definition Aspyre_init (url_class : option UrlClass.Regex) (codec : option Codec)
    (dict_class : option cls) : res Aspyre :=
  match url_class with
  | None => Raise ValueError
  | Some u =>
      match codec with
      | None => Raise ValueError
      | Some c => Ok (mkAspyre u c None)
      end
  end.

(** One entry of a stage: the hook and the arguments of its handler. *)
Definition entry : Type := bound * pydict.

(** The [OrderedDict] that [find] returns: stage name to entries. *)
Definition stages : Type := list (string * list entry).

(** [handlers[k].append(x)] and [handlers[k].insert(0, x)] *)
Definition stage_append (handlers : stages) (k : string) (x : entry) : res stages :=
  match dict_get handlers k with
  | Some l => Ok (dict_set handlers k (l ++ [x]))
  | None => Raise (KeyError k)
  end.

Definition stage_insert0 (handlers : stages) (k : string) (x : entry) : res stages :=
  match dict_get handlers k with
  | Some l => Ok (dict_set handlers k (x :: l))
  | None => Raise (KeyError k)
  end.

(** The body of the loop of [Aspyre.find] for one found handler. *)
Definition find_step (method before after : string)
    (found : handler * pydict) (handlers : stages) : res stages :=
  let arguments := snd found in
  let handler := fst found in
  let? handlers :=
    if has_callable handler "before" then
      let? f := getattr_strict handler "before" in
      stage_append handlers "before" (f, arguments)
    else Ok handlers in
  let? handlers :=
    if has_callable handler before then
      let? f := getattr_strict handler before in
      stage_append handlers before (f, arguments)
    else Ok handlers in
  let? handlers :=
    if has_callable handler method then
      let? f := getattr_strict handler method in
      stage_append handlers method (f, arguments)
    else Ok handlers in
  let? handlers :=
    if has_callable handler after then
      let? f := getattr_strict handler method in
      stage_insert0 handlers after (f, arguments)
    else Ok handlers in
  if has_callable handler "after" then
    let? f := getattr_strict handler "after" in
    stage_insert0 handlers "after" (f, arguments)
  else Ok handlers.

Fixpoint find_loop (method before after : string)
    (found_handlers : list (handler * pydict)) (handlers : stages) : res stages :=
  match found_handlers with
  | [] => Ok handlers
  | found :: rest =>
      let? handlers := find_step method before after found handlers in
      find_loop method before after rest handlers
  end.

(** The entries a stage gathers, in match order: for every found handler whose
    attribute [tested] is callable, the attribute [fetched] with the handler's
    arguments. *)
Definition collect (tested fetched : string) (found_handlers : list (handler * pydict))
  : list entry :=
  flat_map
    (fun found =>
       if has_callable (fst found) tested then
         match getattr (fst found) fetched with
         | Some a => [(mkBound (hid (fst found)) fetched a, snd found)]
         | None => []
         end
       else [])
    found_handlers.

(** The mapping of the five stages: the two global ones around the three
    that are named after the method. *)
Definition five (k2 k3 k4 : string) (l1 l2 l3 l4 l5 : list entry) : stages :=
  [("before", l1); (k2, l2); (k3, l3); (k4, l4); ("after", l5)].

(** ** Coroutine objects *)

(** What the call of a coroutine function gives when it is not awaited: an
    object that holds the body, which has not run. *)
Inductive coroutine (A : Type) : Type := Coroutine (body : A).

Arguments Coroutine {A} body.

(** [bool(c)], [len(c)] and the unpacking [a, b = c] of a coroutine object:
    its class defines neither [__bool__] nor [__len__] nor [__iter__]. *)
Definition coroutine_bool {A} (c : coroutine A) : bool := true.

Definition coroutine_len {A} (c : coroutine A) : res Z := Raise TypeError.

Definition coroutine_unpack {A B} (c : coroutine A) : res B := Raise TypeError.

Section Dispatch.

Variable builtins : string -> option UrlClass.builtin.

(** [urllib.parse.parse_qs] *)
Variable parse_qs : string -> value.

(** [Aspyre.find] *)
Definition find (self : Aspyre) (host path : option string) (method : string)
  : res (option stages) :=
  let? found_handlers := UrlClass.find builtins (url_class self) host path in
  match found_handlers with
  | _ :: _ =>
      let before := ("before_" ++ method)%string in
      let after := ("after_" ++ method)%string in
      let handlers : stages := [] in
      let handlers := dict_set handlers "before" [] in
      let handlers := dict_set handlers before [] in
      let handlers := dict_set handlers method [] in
      let handlers := dict_set handlers after [] in
      let handlers := dict_set handlers "after" [] in
      let? handlers := find_loop method before after found_handlers handlers in
      Ok (Some handlers)
  | [] => Ok None
  end.

(** Truth value of what [find] returns: [None] and an empty mapping are false. *)
Definition truthy (handlers : option stages) : bool :=
  match handlers with
  | Some (_ :: _) => true
  | _ => false
  end.

(** What [handle] returns: the encoded bytes alone, or the pair of the encoded
    response and the context. *)
Inductive handled : Type :=
| Encoded (body : string)
| EncodedWithContext (body : string) (context : nat).

(** The classes an [except] clause can name. *)
Inductive exc_class : Type := Error_class.

Definition isinstance (x : exc) (c : exc_class) : option Error :=
  match x, c with
  | DomainError e, Error_class => Some e
  | _, _ => None
  end.

(** The local variables of [handle] that the loop uses.  [error] is one of
    them, because the function assigns to it; it is unbound until then. *)
Record locals : Type := mkLocals {
  context : nat;
  in_headers : nat;
  response : value;
  error : option nat
}.

(** [self.dict_class()] *)
Definition construct (self : Aspyre) : M nat :=
  match dict_class self with
  | Some c => new c VNone
  | None => raise (AttributeError "dict_class")
  end.

(** The expression [error.Error] that heads the first except clause.  Inside
    [handle] the name [error] is the local variable.  Unbound, it cannot be
    read.  Bound, it is a dict_class instance and [error.Error] is one of the
    values it holds or [None]; no value of the model is an exception class,
    and Python rejects such a clause with a TypeError. *)
Definition eval_error_Error (lc : locals) : M exc_class :=
  match error lc with
  | None => raise (UnboundLocalError "error")
  | Some d =>
      let* _ := getattr_instance d "Error" in
      raise TypeError
  end.

(** The except clauses of the loop body, entered with the exception [x]. *)
Definition except_clauses (self : Aspyre) (x : exc) (lc : locals)
  : M (locals + handled) :=
  let* c := eval_error_Error lc in
  match isinstance x c with
  | Some e =>
      if reraise e then
        fun h => Ok (inr (Encoded (encode (codec self) (EExc x) h)), h)
      else
        let* error := construct self in
        let* _ :=
          match error_code e with
          | VNone => setitem error "code" (VInt (http_code e))
          | c => setitem error "code" c
          end in
        let* _ :=
          match message e with
          | VNone => setitem error "message" (VStr "An error has occured.")
          | m => setitem error "message" m
          end in
        let* _ :=
          match short_name e with
          | VNone => ret tt
          | n => setitem error "name" n
          end in
        let* _ := setitem (context lc) "error" (VRef error) in
        let* _ := setitem (context lc) "http_code" (VInt (http_code e)) in
        ret (inl (mkLocals (context lc) (in_headers lc) (response lc) (Some error)))
  | None =>
      fun h => Ok (inr (Encoded (encode (codec self) (EExc x) h)), h)
  end.

(** [handler(context, in_headers, input, response, *arguments)]: unpacking a
    dict with [*] passes its keys. *)
Definition call_hook (f : bound) (arguments : pydict) (input : value) (lc : locals)
    (h : heap) : outcome * heap :=
  match target f with
  | Callable fn =>
      fn ([VRef (context lc); VRef (in_headers lc); input; response lc]
          ++ map VStr (keys arguments)) h
  | NotCallable _ => (Raised TypeError, h)
  end.

Definition is_int (v : value) : bool :=
  match v with
  | VInt _ | VBool _ => true
  | _ => false
  end.

(** The two nested loops of [handle], over the entries of all stages in order. *)
Fixpoint run (self : Aspyre) (input : value) (chain : list entry) (lc : locals)
  : M (locals + handled) :=
  match chain with
  | [] => ret (inl lc)
  | (handler, arguments) :: rest =>
      fun h =>
        let continue (r : res ((locals + handled) * heap)) :=
          match r with
          | Ok (inl lc', h') => run self input rest lc' h'
          | other => other
          end in
        match call_hook handler arguments input lc h with
        | (Returned result, h1) =>
            if is_int result then
              match setitem (context lc) "http_code" result h1 with
              | Ok (_, h2) => run self input rest lc h2
              | Raise x => continue (except_clauses self x lc h1)
              end
            else run self input rest lc h1
        | (Raised x, h1) => continue (except_clauses self x lc h1)
        end
  end.

(** [Aspyre.handle] *)
Definition handle (self : Aspyre) (handlers : option stages)
    (input headers : value) (query_string : option string) : M handled :=
  if negb (truthy handlers) then raise (UnboundLocalError "error")
  else
    let* context := construct self in
    let* _ := setitem context "arguments"
                (match query_string with
                 | Some (String c q) => parse_qs (String c q)
                 | _ => VNone
                 end) in
    let* _ := setitem context "headers" headers in
    let* response := get_class (codec self) in
    let* in_headers := construct self in
    let chain := concat (map snd (match handlers with Some s => s | None => [] end)) in
    let* r := run self input chain (mkLocals context in_headers response None) in
    match r with
    | inr out => ret out
    | inl _ =>
        fun h => Ok (EncodedWithContext (encode (codec self) (EValue response) h) context, h)
    end.

(** [Aspyre.__call__].  [self.find(...)] is the call of a coroutine function
    without [await]: [handlers] is the coroutine object and the body of
    [find] does not run.  The call of [handle] passes three arguments where
    the method takes four; Python rejects it before the body runs. *)
Definition __call__ (self : Aspyre) (host path : option string) (method : string)
    (input headers : value) (query_string : option string) : res handled :=
  if negb (in_http_methods method) then
    let? e := Error.instantiate "NotImplemented"
                "The server does not support this HTTP method." in
    Raise (DomainError e)
  else
    let handlers := Coroutine (find self host path method) in
    if coroutine_bool handlers then Raise TypeError
    else
      let? e := Error.instantiate "NotFound" "No matching handler for URL found." in
      Raise (DomainError e).

End Dispatch.

(** [Aspyre.__fix_params__], for the keyword arguments [method] and [path]. *)
Definition __fix_params__ (method path : option string) : res (list (string * value)) :=
  let result : list (string * value) := [] in
  let result :=
    match method with
    | Some m =>
        if String.eqb m "head"
        then dict_set (dict_set result "ignore_response" (VBool true)) "method" (VStr "get")
        else dict_set result "ignore_response" (VBool false)
    | None => result
    end in
  match path with
  | Some p =>
      let result := dict_set result "path" (VStr p) in
      match p with
      | EmptyString => Ok result
      | String c0 rest =>
          let result :=
            if Ascii.eqb c0 "/"%char then dict_set result "path" (VStr rest) else result in
          match rest with
          | EmptyString => Raise IndexError
          | String c1 _ =>
              if Ascii.eqb c1 "/"%char then
                match dict_get result "path" with
                | Some (VStr cur) =>
                    Ok (dict_set result "path"
                          (VStr (substring 0 (String.length cur - 1) cur)))
                | _ => Raise (KeyError "path")
                end
              else Ok result
          end
      end
  | None => Ok result
  end.

(** A chain whose first stage is [before]. *)
Definition headed (s : stages) : Prop := exists l rest, s = ("before", l) :: rest.

(** ** Groups of applications *)

(** The two finders of the class [Find]. *)
Inductive finder : Type := First | Best.

(** The attributes of an [AspyreGroup]. *)
Record AspyreGroup : Type := mkAspyreGroup {
  instances : list Aspyre;      (* self.__instances__ *)
  group_find : finder;          (* self.find *)
  group_codec : Codec           (* self.codec *)
}.

(** [AspyreGroup.__init__(codec, find)] *)
Definition AspyreGroup_init (codec : option Codec) (find : finder) : res AspyreGroup :=
  match codec with
  | None => Raise ValueError
  | Some c => Ok (mkAspyreGroup [] find c)
  end.

(** [AspyreGroup.add_instance], for an argument that is an [Aspyre]. *)
Definition add_instance (self : AspyreGroup) (instance : Aspyre) : AspyreGroup :=
  mkAspyreGroup (instances self ++ [instance]) (group_find self) (group_codec self).

Section Group.

Variable builtins : string -> option UrlClass.builtin.
Variable parse_qs : string -> value.

(** [Find.first].  [instance.find(...)] is not awaited: [handlers] is a
    coroutine object, which is true, so the loop returns at its first
    instance. *)
Fixpoint Find_first (host path : option string) (method : string)
    (instances : list Aspyre)
  : option (coroutine (res (option stages)) * Aspyre) :=
  match instances with
  | [] => None
  | instance :: rest =>
      let handlers := Coroutine (find builtins instance host path method) in
      if coroutine_bool handlers then Some (handlers, instance)
      else Find_first host path method rest
  end.

(** The loop of [Find.best].  [max_handlers] starts as the empty list, here
    [None]; [len(handlers)] is asked of the coroutine object. *)
Fixpoint best_loop (host path : option string) (method : string)
    (instances : list Aspyre) (maximum : Z)
    (max_handlers : option (coroutine (res (option stages))))
  : res (option (coroutine (res (option stages)))) :=
  match instances with
  | [] => Ok max_handlers
  | instance :: rest =>
      let handlers := Coroutine (find builtins instance host path method) in
      let? n := coroutine_len handlers in
      if (maximum <? n)%Z
      then best_loop host path method rest n (Some handlers)
      else best_loop host path method rest maximum max_handlers
  end.

(** [Find.best]: it returns the chain alone. *)
Definition Find_best (host path : option string) (method : string)
    (instances : list Aspyre) : res (option (coroutine (res (option stages)))) :=
  best_loop host path method instances (-1) None.

(** The answer of the last branch of [AspyreGroup.__call__]. *)
Definition encoded_not_found (self : AspyreGroup) : M handled :=
  match Error.instantiate "NotFound" "No matching handler for URL found." with
  | Ok e => fun h => Ok (Encoded (encode (group_codec self) (EExc (DomainError e)) h), h)
  | Raise x => raise x
  end.

(** [AspyreGroup.__call__].  Both finders are coroutine functions and the
    call [self.find(...)] is not awaited: what is unpacked into [handlers]
    and [instance] is the coroutine object. *)
Definition group_call (self : AspyreGroup) (host path : option string)
    (method : string) (input headers : value) (query_string : option string)
  : M handled :=
  let found :=
    match group_find self with
    | First => Coroutine (inl (Find_first host path method (instances self)))
    | Best => Coroutine (inr (Find_best host path method (instances self)))
    end in
  let* unpacked := lift (coroutine_unpack found) in
  let handlers : option stages := fst unpacked in
  let instance : Aspyre := snd unpacked in
  if truthy handlers
  then handle parse_qs instance handlers input headers query_string
  else encoded_not_found self.

End Group.

End Core.

(* ===================================================================== *)
(** * Sample handlers, routes and applications *)
(* ===================================================================== *)
Module Samples.
Import UrlClass Core.

(** A fragment of the builtins namespace of CPython, enough for the samples:
    [str], [bool] and [len] applied to text, and three names that are not
    callable. *)
Definition builtins_fragment (t : string) : option builtin :=
  if String.eqb t "str" then Some (BuiltinCallable (fun s => Ok (VStr s)))
  else if String.eqb t "bool" then
    Some (BuiltinCallable (fun s => Ok (VBool (negb (String.eqb s "")))))
  else if String.eqb t "len" then
    Some (BuiltinCallable (fun s => Ok (VInt (Z.of_nat (String.length s)))))
  else if String.eqb t "None" then Some (BuiltinOther false)
  else if String.eqb t "False" then Some (BuiltinOther false)
  else if String.eqb t "True" then Some (BuiltinOther true)
  else None.

(** A hook that returns [None] and changes nothing. *)
Definition quiet : hookfn := fun _ h => (Returned VNone, h).

(** A hook that returns a status code. *)
Definition created : hookfn := fun _ h => (Returned (VInt 201), h).

(** A hook that raises [error.Forbidden(reraise=...)]. *)
Definition forbidden (reraise : bool) : hookfn :=
  fun _ h =>
    (Raised (DomainError (Error._return_error_class 403 VNone VNone VNone reraise)), h).

(** A handler class that defines every hook of the get family. *)
Definition get_family (id : nat) : handler :=
  mkHandler id
    [ ("before", Callable quiet); ("before_get", Callable quiet);
      ("get", Callable quiet); ("after_get", Callable quiet);
      ("after", Callable quiet) ].

Definition A : handler := get_family 0.
Definition B : handler := get_family 1.

(** [A] under [/items], [B] under [/<str:name>]: both match the path [items]. *)
Definition two_handlers : Regex :=
  mkRegex [ ((None, Some (compile (lits "items"))), A);
            ((None, Some (compile [group "str" "name"])), B) ] ∅.

(** One handler under two templates, [/items] and [/<str:name>]. *)
Definition one_handler_twice : Regex :=
  mkRegex [ ((None, Some (compile (lits "items"))), A);
            ((None, Some (compile [group "str" "name"])), A) ] ∅.

(** A route with a host matcher and a path matcher. *)
Definition host_and_path : Regex :=
  mkRegex [ ((Some (compile (lits "api.example.com")),
              Some (compile (lits "users"))), A) ] ∅.

(** A route with a placeholder of type [date], and no caller-supplied types. *)
Definition dated : Regex :=
  mkRegex [ ((None, Some (compile (lits "on/" ++ [group "date" "day"]))), A) ] ∅.

(** A codec in the manner of AspyreJSONCodec: [encode] returns empty bytes and
    [get_class] a new AspyreDictHistory. *)
Definition json_codec : Codec :=
  mkCodec (fun _ _ => "")
          (let* r := Dictionary.new AspyreDictHistory VNone in ret (VRef r)).

(** A handler whose [before] hook raises Forbidden and whose [get] hook
    returns 201. *)
Definition guarded (reraise : bool) : handler :=
  mkHandler 0 [ ("before", Callable (forbidden reraise)); ("get", Callable created) ].

Definition guarded_routes (reraise : bool) : Regex :=
  mkRegex [ ((None, Some (compile (lits "items"))), guarded reraise) ] ∅.

(** The stage names of a chain with, for each entry, the handler it belongs to
    and the attribute that was fetched from it. *)
Definition stage_names (s : stages) : list (string * list (nat * string)) :=
  map (fun kv => (fst kv, map (fun e => (owner (fst e), attr (fst e))) (snd kv))) s.

End Samples.

(* ===================================================================== *)
(** * Properties of dictionary.py *)
(* ===================================================================== *)
Module DictionaryFacts.
Import Dictionary.

(** ** Store primitives *)

Lemma get_dict_ok (h : heap) (r : nat) (o : obj) :
  h !! r = Some o -> get_dict r h = Ok (odict o, h).
Proof. intros H. unfold get_dict. now rewrite H. Qed.

Lemma class_of_ok (h : heap) (r : nat) (o : obj) :
  h !! r = Some o -> class_of r h = Ok (ocls o, h).
Proof. intros H. unfold class_of. now rewrite H. Qed.

Lemma put_dict_ok (h : heap) (r : nat) (o : obj) (d : pydict) :
  h !! r = Some o -> put_dict r d h = Ok (tt, <[r := mkObj (ocls o) d]> h).
Proof. intros H. unfold put_dict. now rewrite H. Qed.

Lemma fetch_ok (h : heap) (r : nat) (o : obj) (k : string) (v : value) :
  h !! r = Some o -> dict_get (odict o) k = Some v -> fetch r k h = Ok (v, h).
Proof.
  intros H Hk. unfold fetch, bind. rewrite (get_dict_ok _ _ _ H), Hk. reflexivity.
Qed.

Lemma store_ok (h : heap) (r : nat) (o : obj) (k : string) (v : value) :
  h !! r = Some o ->
  store r k v h = Ok (tt, <[r := mkObj (ocls o) (dict_set (odict o) k v)]> h).
Proof.
  intros H. unfold store, bind. rewrite (get_dict_ok _ _ _ H).
  apply put_dict_ok, H.
Qed.

(** ** Python dicts as association lists *)

Lemma dict_get_set_same (d : pydict) (k : string) (v : value) :
  dict_get (dict_set d k v) k = Some v.
Proof.
  induction d as [|[k' v'] d IH]; simpl.
  - now rewrite String.eqb_refl.
  - destruct (String.eqb k' k) eqn:E; simpl; rewrite E; auto.
Qed.

Lemma dict_get_absent (d : pydict) (k : string) :
  existsb (String.eqb k) (keys d) = false -> dict_get d k = None.
Proof.
  induction d as [|[k' v'] d IH]; simpl; [reflexivity|].
  intros H. apply orb_false_iff in H as [H1 H2].
  rewrite String.eqb_sym, H1. auto.
Qed.

Lemma dict_set_absent (d : pydict) (k : string) (v : value) :
  existsb (String.eqb k) (keys d) = false -> dict_set d k v = d ++ [(k, v)].
Proof.
  induction d as [|[k' v'] d IH]; simpl; [reflexivity|].
  intros H. apply orb_false_iff in H as [H1 H2].
  rewrite String.eqb_sym, H1, IH; auto.
Qed.

Lemma existsb_keys_app (k : string) (d1 d2 : pydict) :
  existsb (String.eqb k) (keys (d1 ++ d2))
  = existsb (String.eqb k) (keys d1) || existsb (String.eqb k) (keys d2).
Proof. unfold keys. now rewrite map_app, existsb_app. Qed.

(** Updating a dict with entries under new, pairwise different keys appends
    them in order. *)
Lemma dict_update_fresh (src acc : pydict) :
  unique_keys src = true ->
  forallb (fun k => negb (existsb (String.eqb k) (keys acc))) (keys src) = true ->
  dict_update acc src = acc ++ src.
Proof.
  unfold dict_update, unique_keys.
  revert acc. induction src as [|[k v] src IH]; intros acc Hu Hd; simpl in *.
  - now rewrite app_nil_r.
  - apply andb_true_iff in Hu as [Hk Hu]. apply andb_true_iff in Hd as [Hka Hd].
    apply negb_true_iff in Hk, Hka.
    rewrite (dict_set_absent _ _ _ Hka), IH; auto.
    + now rewrite <- app_assoc.
    + apply forallb_forall. intros x Hx.
      rewrite forallb_forall in Hd. specialize (Hd x Hx).
      apply negb_true_iff in Hd. rewrite existsb_keys_app, Hd. simpl.
      rewrite orb_false_r. apply negb_true_iff.
      destruct (String.eqb x k) eqn:E; [|reflexivity].
      apply String.eqb_eq in E. subst x.
      assert (existsb (String.eqb k) (keys src) = true) as Hc.
      { apply existsb_exists. exists k. split; [exact Hx | apply String.eqb_refl]. }
      unfold keys in *. congruence.
Qed.

Lemma dict_update_empty (src : pydict) :
  unique_keys src = true -> dict_update [] src = src.
Proof.
  intros Hu. rewrite dict_update_fresh; auto.
  apply forallb_forall. reflexivity.
Qed.


Lemma without_del (k : string) (d : pydict) :
  without k (dict_del d k) = without k d.
Proof.
  unfold without.
  induction d as [|[k' v'] d IH]; simpl; [reflexivity|].
  destruct (String.eqb k' k) eqn:E; simpl; rewrite ?E; simpl; congruence.
Qed.

Lemma without_absent (k : string) (d : pydict) :
  existsb (String.eqb k) (keys d) = false -> without k d = d.
Proof.
  unfold without.
  induction d as [|[k' v'] d IH]; simpl; [reflexivity|].
  intros H. apply orb_false_iff in H as [H1 H2].
  rewrite String.eqb_sym, H1. simpl. now rewrite IH.
Qed.


Lemma state_of_del_history (d : pydict) :
  state_of (dict_del d "__history") = state_of d.
Proof. apply without_del. Qed.

Lemma state_of_absent (d : pydict) :
  existsb (String.eqb "__history") (keys d) = false -> state_of d = d.
Proof. apply without_absent. Qed.

(** Deleting the one entry of a key leaves the dict without that key. *)
Lemma dict_del_unique (d : pydict) (k : string) :
  unique_keys d = true ->
  existsb (String.eqb k) (keys (dict_del d k)) = false
  /\ unique_keys (dict_del d k) = true.
Proof.
  unfold unique_keys.
  induction d as [|[k' v'] d IH]; simpl; [auto|].
  intros H. apply andb_true_iff in H as [H1 H2]. apply negb_true_iff in H1.
  destruct (String.eqb k' k) eqn:E.
  - apply String.eqb_eq in E. subst k'. auto.
  - destruct (IH H2) as [IH1 IH2]. simpl.
    rewrite String.eqb_sym, E, IH1, IH2. simpl. split; [reflexivity|].
    rewrite andb_true_r. apply negb_true_iff.
    destruct (existsb (String.eqb k') (keys (dict_del d k))) eqn:Ex; [|reflexivity].
    apply existsb_exists in Ex as [x [Hx Hxe]]. apply String.eqb_eq in Hxe. subst x.
    assert (existsb (String.eqb k') (map fst d) = true) as Hc; [|unfold keys in *; congruence].
    apply existsb_exists. exists k'. split; [|apply String.eqb_refl].
    clear -Hx. induction d as [|[a b] d IHd]; simpl in *; [contradiction|].
    destruct (String.eqb a k); simpl in *; tauto.
Qed.

Lemma dict_has_get (d : pydict) (k : string) (v : value) :
  dict_get d k = Some v -> dict_has d k = true.
Proof. unfold dict_has. now intros ->. Qed.


(** With one entry per key, the state outside the history slot is what is
    left when that slot is deleted. *)
Lemma state_of_is_del (d : pydict) :
  unique_keys d = true -> state_of d = dict_del d "__history".
Proof.
  intros Hu. destruct (dict_del_unique d "__history" Hu) as [Ha _].
  now rewrite <- state_of_del_history, (state_of_absent _ Ha).
Qed.

Lemma state_of_unique (d : pydict) :
  unique_keys d = true ->
  existsb (String.eqb "__history") (keys (state_of d)) = false
  /\ unique_keys (state_of d) = true.
Proof.
  intros Hu. rewrite (state_of_is_del d Hu). now apply dict_del_unique.
Qed.

(** ** The store after an allocation *)

Lemma snoc_lookup_old (h : heap) (x o : obj) (r : nat) :
  h !! r = Some o -> (h ++ [x]) !! r = Some o.
Proof. apply lookup_app_l_Some. Qed.

Lemma snoc_lookup_new (h : heap) (x : obj) :
  (h ++ [x]) !! length h = Some x.
Proof. now apply list_lookup_middle. Qed.

Lemma snoc_insert_new (h : heap) (x y : obj) :
  <[length h := y]> (h ++ [x]) = h ++ [y].
Proof.
  rewrite insert_app_r_alt by lia. now rewrite Nat.sub_diag.
Qed.

Lemma snoc_insert_old (h : heap) (x y o : obj) (r : nat) :
  h !! r = Some o -> <[r := y]> (h ++ [x]) = <[r := y]> h ++ [x].
Proof.
  intros H. apply insert_app_l. now apply lookup_lt_Some in H.
Qed.


Create HintDb store.
#[local] Hint Resolve snoc_lookup_old snoc_lookup_new : store.

(** ** Construction of a snapshot *)

(** [AspyreDictHistory(self)] for a context whose history slot holds a list:
    the copy is a new instance holding the entries of [self] outside the
    history slot, followed by a history slot with a copy of the list. *)
Lemma new_snapshot (h : heap) (self : nat) (o : obj) (l : list value) :
  h !! self = Some o ->
  ocls o = AspyreDictHistory ->
  unique_keys (odict o) = true ->
  dict_get (odict o) "__history" = Some (VList l) ->
  new AspyreDictHistory (VRef self) h
  = Ok (length h,
        h ++ [mkObj AspyreDictHistory (state_of (odict o) ++ [("__history", VList l)])]).
Proof.
  intros Hs Hc Hu Hh.
  unfold new, AspyreDictHistory_init, AspyreDictImmutable_init, store, fetch.
  unfold bind at 1. unfold alloc. cbv beta iota.
  set (h1 := h ++ [mkObj AspyreDictHistory []]).
  assert (h1 !! self = Some o) as Hs1 by (subst h1; auto with store).
  assert (h1 !! length h = Some (mkObj AspyreDictHistory [])) as Hn1
    by (subst h1; auto with store).
  unfold bind.
  rewrite (get_dict_ok _ _ _ Hs1). cbv beta iota.
  rewrite (get_dict_ok _ _ _ Hn1). cbv beta iota.
  rewrite (put_dict_ok _ _ _ _ Hn1). cbv beta iota.
  subst h1. rewrite snoc_insert_new.
  cbn [odict ocls]. rewrite (dict_update_empty _ Hu).
  match goal with |- context [get_dict (length h) (h ++ [?x])] =>
    rewrite (get_dict_ok (h ++ [x]) (length h) x (snoc_lookup_new h x)) end.
  cbv beta iota. cbn [odict ocls].
  rewrite (dict_has_get _ _ _ Hh).
  match goal with |- context [put_dict (length h) ?d (h ++ [?x])] =>
    rewrite (put_dict_ok (h ++ [x]) (length h) x d (snoc_lookup_new h x)) end.
  cbv beta iota. rewrite snoc_insert_new. cbn [odict ocls].
  match goal with |- context [class_of self (h ++ [?x])] =>
    rewrite (class_of_ok (h ++ [x]) self o (snoc_lookup_old h x o self Hs)) end.
  cbv beta iota. rewrite Hc.
  match goal with |- context [get_dict self (h ++ [?x])] =>
    rewrite (get_dict_ok (h ++ [x]) self o (snoc_lookup_old h x o self Hs)) end.
  cbv beta iota. rewrite Hh. unfold ret, py_list. unfold ret.
  match goal with |- context [get_dict (length h) (h ++ [?x])] =>
    rewrite (get_dict_ok (h ++ [x]) (length h) x (snoc_lookup_new h x)) end.
  cbv beta iota. cbn [odict ocls].
  match goal with |- context [put_dict (length h) ?d (h ++ [?x])] =>
    rewrite (put_dict_ok (h ++ [x]) (length h) x d (snoc_lookup_new h x)) end.
  rewrite snoc_insert_new. cbn [odict ocls].
  rewrite <- (state_of_is_del _ Hu).
  destruct (state_of_unique _ Hu) as [Ha _].
  now rewrite (dict_set_absent _ _ _ Ha).
Qed.

(** ** save and rollback *)

Lemma insert_lookup_same (h : heap) (r : nat) (x o : obj) :
  h !! r = Some o -> <[r := x]> h !! r = Some x.
Proof. intros H%lookup_lt_Some. now apply list_lookup_insert_eq. Qed.

Lemma insert_lookup_other (h : heap) (r r' : nat) (x o : obj) :
  h !! r' = Some o -> r <> r' -> <[r := x]> h !! r' = Some o.
Proof. intros H Hne. now rewrite list_lookup_insert_ne. Qed.

Lemma py_index_last (l : list value) (x : value) :
  py_index (l ++ [x]) (-1) = Ok x.
Proof.
  unfold py_index. rewrite length_app. simpl length.
  replace (-1 <? 0)%Z with true by reflexivity.
  replace (Z.of_nat (length l + 1) + -1)%Z with (Z.of_nat (length l)) by lia.
  replace (0 <=? Z.of_nat (length l))%Z with true by (symmetry; apply Z.leb_le; lia).
  replace (Z.of_nat (length l) <? Z.of_nat (length l + 1))%Z with true
    by (symmetry; apply Z.ltb_lt; lia).
  simpl andb. rewrite Nat2Z.id.
  now rewrite list_lookup_middle.
Qed.

(** What [save] does to a context whose history slot holds the list [l]. *)
Lemma save_ok (h : heap) (self : nat) (o : obj) (l : list value) :
  h !! self = Some o ->
  ocls o = AspyreDictHistory ->
  unique_keys (odict o) = true ->
  dict_get (odict o) "__history" = Some (VList l) ->
  save self h
  = Ok ((Z.of_nat (length l) + 1)%Z,
        <[self := mkObj AspyreDictHistory
                    (dict_set (odict o) "__history" (VList (l ++ [VRef (length h)])))]> h
        ++ [mkObj AspyreDictHistory (state_of (odict o) ++ [("__history", VList l)])]).
Proof.
  intros Hs Hc Hu Hh. unfold save.
  unfold bind at 1. rewrite (fetch_ok _ _ _ _ _ Hs Hh). cbv beta iota.
  unfold bind at 1. rewrite (class_of_ok _ _ _ Hs), Hc. cbv beta iota.
  unfold bind at 1. rewrite (new_snapshot _ _ _ _ Hs Hc Hu Hh). cbv beta iota.
  unfold bind at 1.
  erewrite store_ok by (apply snoc_lookup_old, Hs). cbv beta iota.
  rewrite (snoc_insert_old _ _ _ _ _ Hs), Hc.
  unfold get_current_version, bind.
  erewrite fetch_ok; cycle 1.
  { apply snoc_lookup_old. eapply insert_lookup_same, Hs. }
  { cbn [odict]. apply dict_get_set_same. }
  cbv beta iota. unfold py_len, ret.
  rewrite length_app. simpl length. do 2 f_equal. lia.
Qed.


Lemma dict_set_keys_present (d : pydict) (k : string) (v0 v : value) :
  dict_get d k = Some v0 -> keys (dict_set d k v) = keys d.
Proof.
  induction d as [|[k' v'] d IH]; simpl; [discriminate|].
  destruct (String.eqb k' k) eqn:E; simpl; [reflexivity|].
  intros H. now rewrite IH.
Qed.

(** A new context: one instance whose history slot lists the instance itself. *)
Lemma new_context (h : heap) :
  new AspyreDictHistory VNone h
  = Ok (length h, h ++ [mkObj AspyreDictHistory [("__history", VList [VRef (length h)])]]).
Proof.
  unfold new, AspyreDictHistory_init, AspyreDictImmutable_init.
  unfold bind at 1. unfold alloc. cbv beta iota.
  unfold bind at 1. unfold bind at 1.
  erewrite store_ok by apply snoc_lookup_new. cbv beta iota.
  rewrite snoc_insert_new. cbn [odict ocls].
  erewrite store_ok by apply snoc_lookup_new. cbv beta iota.
  rewrite snoc_insert_new. reflexivity.
Qed.

(** [n] saves in a row on a context whose history holds [length l] entries
    return the counts [length l + 1], ..., [length l + n] and leave a history
    of [length l + n] entries. *)
Lemma save_times_ok (n : nat) :
  forall (h : heap) (self : nat) (o : obj) (l : list value),
    h !! self = Some o ->
    ocls o = AspyreDictHistory ->
    unique_keys (odict o) = true ->
    dict_get (odict o) "__history" = Some (VList l) ->
    exists (hn : heap) (on : obj) (ln : list value),
      save_times n self h
      = Ok (map (fun k => Z.of_nat (length l) + Z.of_nat k + 1)%Z (seq 0 n), hn)
      /\ hn !! self = Some on
      /\ ocls on = AspyreDictHistory
      /\ unique_keys (odict on) = true
      /\ dict_get (odict on) "__history" = Some (VList ln)
      /\ length ln = (length l + n)%nat.
Proof.
  induction n as [|n IH]; intros h self o l Hs Hc Hu Hh.
  - exists h, o, l. simpl. unfold ret. repeat split; auto.
  - cbn [save_times]. unfold bind at 1.
    rewrite (save_ok _ _ _ _ Hs Hc Hu Hh). cbv beta iota.
    set (o1 := mkObj AspyreDictHistory
                 (dict_set (odict o) "__history" (VList (l ++ [VRef (length h)])))).
    set (h1 := <[self := o1]> h ++ _).
    assert (h1 !! self = Some o1) as Hs1.
    { subst h1. apply snoc_lookup_old. eapply insert_lookup_same, Hs. }
    assert (unique_keys (odict o1) = true) as Hu1.
    { unfold unique_keys. subst o1. cbn [odict].
      now rewrite (dict_set_keys_present _ _ _ _ Hh). }
    assert (dict_get (odict o1) "__history" = Some (VList (l ++ [VRef (length h)]))) as Hh1
      by (subst o1; cbn [odict]; apply dict_get_set_same).
    destruct (IH h1 self o1 _ Hs1 eq_refl Hu1 Hh1)
      as (hn & on & ln & Hrun & Hsn & Hcn & Hun & Hhn & Hlen).
    exists hn, on, ln. unfold bind. rewrite Hrun. unfold ret.
    repeat split; auto.
    + do 2 f_equal. cbn [seq map]. f_equal; [lia|].
      rewrite <- seq_shift, map_map. apply map_ext. intros k.
      rewrite length_app. simpl length. lia.
    + rewrite Hlen, length_app. simpl. lia.
Qed.

(** ** Updates leave other instances alone *)

Lemma touches_only_refl r h : touches_only r h h.
Proof. split; auto. Qed.

















(** The constructor without an argument: the new context has a history that
    lists the context itself, so its version count is 1 before any [save()];
    after [n] calls of [save()] the count is [n + 1], and the calls have
    returned 2, 3, ..., [n + 1] in turn. *)
Lemma fresh_context_version_counts (h : heap) (n : nat) :
  exists (h0 hn : heap),
    new AspyreDictHistory VNone h = Ok (length h, h0)
    /\ fetch (length h) "__history" h0 = Ok (VList [VRef (length h)], h0)
    /\ get_current_version (length h) h0 = Ok (1%Z, h0)
    /\ save_times n (length h) h0
       = Ok (map (fun k => Z.of_nat k + 2)%Z (seq 0 n), hn)
    /\ nth_error (map (fun k => Z.of_nat k + 2)%Z (seq 0 n)) (n - 1)
       = (if n is O then None else Some (Z.of_nat n + 1)%Z)
    /\ get_current_version (length h) hn = Ok ((Z.of_nat n + 1)%Z, hn).
Proof.
  set (o0 := mkObj AspyreDictHistory [("__history", VList [VRef (length h)])]).
  assert ((h ++ [o0]) !! length h = Some o0) as Hs by apply snoc_lookup_new.
  destruct (save_times_ok n (h ++ [o0]) (length h) o0 [VRef (length h)] Hs
              eq_refl eq_refl eq_refl)
    as (hn & on & ln & Hrun & Hsn & Hcn & Hun & Hhn & Hlen).
  exists (h ++ [o0]), hn.
  split. { apply new_context. }
  assert (dict_get (odict o0) "__history" = Some (VList [VRef (length h)])) as Hh0
    by reflexivity.
  split. { exact (fetch_ok _ _ _ _ _ Hs Hh0). }
  split. { unfold get_current_version, bind. now rewrite (fetch_ok _ _ _ _ _ Hs Hh0). }
  split.
  { rewrite Hrun. do 2 f_equal. apply map_ext. intros k. simpl length. lia. }
  split.
  { destruct n as [|n]; [reflexivity|].
    rewrite nth_error_map, nth_error_seq.
    replace (S n - 1 <? S n)%nat with true by (symmetry; apply Nat.ltb_lt; lia).
    simpl. f_equal. lia. }
  unfold get_current_version, bind. rewrite (fetch_ok _ _ _ _ _ Hsn Hhn).
  unfold py_len, ret. rewrite Hlen. simpl length. do 2 f_equal. lia.
Qed.

(** ** Key normalisation *)

Lemma lower_char_fixes_lowercase (c : ascii) :
  in_ascii_lowercase c = true -> lower_char c = c.
Proof.
  destruct c as [[] [] [] [] [] [] [] []]; vm_compute; congruence.
Qed.

Lemma normalize_idem (s : string) : normalize (normalize s) = normalize s.
Proof.
  unfold normalize, lower.
  induction s as [|c s IH]; simpl; [reflexivity|].
  destruct (in_ascii_lowercase (lower_char c)) eqn:E; [|exact IH].
  simpl. rewrite (lower_char_fixes_lowercase _ E), E. now rewrite IH.
Qed.

Lemma scan_immutable_none (key_f : string) (ks : list string) :
  (forall k, In k ks -> normalize k <> key_f) -> scan_immutable key_f ks = None.
Proof.
  induction ks as [|k ks IH]; simpl; [reflexivity|].
  intros H. destruct (String.eqb key_f (normalize k)) eqn:E.
  - apply String.eqb_eq in E. exfalso. apply (H k); auto.
  - apply IH. intros k' Hk'. apply H. now right.
Qed.

Lemma scan_history_none (key : string) (ks : list string) :
  (forall k, In k ks -> normalize k <> normalize key) ->
  scan_history (normalize key) ks = None.
Proof.
  induction ks as [|k ks IH]; simpl; [reflexivity|].
  intros H.
  assert (scan_history (normalize key) ks = None) as Hr
    by (apply IH; intros k' Hk'; apply H; now right).
  destruct (String.eqb k "__history"); [exact Hr|].
  destruct (String.eqb (normalize key) k) eqn:E; [|exact Hr].
  apply String.eqb_eq in E. exfalso. apply (H k); [now left|].
  rewrite <- E. apply normalize_idem.
Qed.

(** C9.  On an instance of any of the three classes (the read-only view
    AspyreDictImmutable, the mutable AspyreDict and AspyreDictHistory), looking
    up a key that no stored key matches after normalisation returns [None],
    raises nothing and leaves the store as it was. *)
Theorem getitem_missing_key_is_None
    (h : heap) (self : nat) (o : obj) (key : string) :
  h !! self = Some o ->
  (forall cls_key, In cls_key (keys (odict o)) -> normalize cls_key <> normalize key) ->
  getitem self key h = Ok (VNone, h).
Proof.
  intros Hs Hmiss.
  assert (AspyreDictImmutable_getitem self key h = Ok (VNone, h)) as Himm.
  { unfold AspyreDictImmutable_getitem, bind.
    rewrite (class_of_ok _ _ _ Hs), (get_dict_ok _ _ _ Hs).
    destruct (ocls o); unfold class_find_key,
      AspyreDictImmutable_find_key, AspyreDictHistory_find_key.
    - now rewrite (scan_immutable_none _ _ Hmiss).
    - now rewrite (scan_immutable_none _ _ Hmiss).
    - now rewrite (scan_history_none _ _ Hmiss). }
  unfold getitem, bind. rewrite (class_of_ok _ _ _ Hs).
  destruct (ocls o); try exact Himm.
  unfold AspyreDictHistory_getitem.
  destruct (String.eqb (lower key) "__history"); [reflexivity | exact Himm].
Qed.

(** C9 at a read-only view that holds one header. *)
Lemma getitem_missing_key_is_None_witness :
  let o := mkObj AspyreDictImmutable [("Content-Type", VStr "text/html")] in
  ([o] !! 0 = Some o
   /\ forall cls_key, In cls_key (keys (odict o)) -> normalize cls_key <> normalize "accept")
  /\ getitem 0 "accept" [o] = Ok (VNone, [o]).
Proof.
  intros o.
  assert (forall cls_key, In cls_key (keys (odict o)) ->
                          normalize cls_key <> normalize "accept") as Hmiss.
  { intros k [<-|[]]. vm_compute. discriminate. }
  split; [split; [reflexivity | exact Hmiss]|].
  apply (getitem_missing_key_is_None [o] 0 o "accept"); [reflexivity | exact Hmiss].
Defined.

(** [AspyreDictHistory.__find_key__] only ever finds a stored key that is
    already in reduced form: it compares the reduced request with the stored
    key as it stands. *)
Lemma scan_history_finds_reduced (key_f : string) (ks : list string) (k : string) :
  scan_history key_f ks = Some k -> k = key_f.
Proof.
  induction ks as [|k' ks IH]; simpl; [discriminate|].
  destruct (String.eqb k' "__history"); [exact IH|].
  destruct (String.eqb key_f k') eqn:E; [|exact IH].
  apply String.eqb_eq in E. congruence.
Qed.

(** The sibling path: on an AspyreDict, whose lookups all go through
    [AspyreDictImmutable.__find_key__], a value stored under one key is read
    back under every key with the same reduction. *)
Lemma scan_immutable_app (key_f : string) (ks1 ks2 : list string) :
  scan_immutable key_f (ks1 ++ ks2)
  = match scan_immutable key_f ks1 with
    | Some k => Some k
    | None => scan_immutable key_f ks2
    end.
Proof.
  induction ks1 as [|k ks1 IH]; simpl; [reflexivity|].
  now destruct (String.eqb key_f (normalize k)).
Qed.

Lemma scan_immutable_found (key_f : string) (ks : list string) (k : string) :
  scan_immutable key_f ks = Some k -> In k ks /\ normalize k = key_f.
Proof.
  induction ks as [|k' ks IH]; simpl; [discriminate|].
  destruct (String.eqb key_f (normalize k')) eqn:E.
  - intros [= <-]. apply String.eqb_eq in E. auto.
  - intros H. destruct (IH H). auto.
Qed.

Lemma dict_get_in_keys (d : pydict) (k : string) :
  In k (keys d) -> exists v, dict_get d k = Some v.
Proof.
  induction d as [|[k' v'] d IH]; simpl; [contradiction|].
  destruct (String.eqb k' k) eqn:E; [eauto|].
  intros [->|H]; [|auto]. rewrite String.eqb_refl in E. discriminate.
Qed.

Lemma scan_immutable_absent_key (key_f : string) (d : pydict) (k : string) :
  scan_immutable key_f (keys d) = None -> normalize k = key_f ->
  existsb (String.eqb k) (keys d) = false.
Proof.
  intros Hn Hk. destruct (existsb (String.eqb k) (keys d)) eqn:E; [|reflexivity].
  apply existsb_exists in E as [x [Hx Hxe]]. apply String.eqb_eq in Hxe. subst x.
  exfalso. revert Hn Hx. generalize (keys d). intros ks.
  induction ks as [|k' ks IH]; simpl; [contradiction|].
  destruct (String.eqb key_f (normalize k')) eqn:E; [discriminate|].
  intros Hn [->|Hin]; [|auto].
  subst key_f. rewrite String.eqb_refl in E. discriminate.
Qed.

(** X1.  On an AspyreDict, after [d[k1] = v] with a value that is no plain
    dict, [d[k2]] returns [v] for every key [k2] with the same reduction as
    [k1]. *)
Lemma AspyreDict_set_then_get
    (h : heap) (self : nat) (o : obj) (k1 k2 : string) (v : value) :
  h !! self = Some o ->
  ocls o = AspyreDict ->
  normalize k1 = normalize k2 ->
  (forall m, v <> VDict m) ->
  exists h', setitem self k1 v h = Ok (tt, h') /\ getitem self k2 h' = Ok (v, h').
Proof.
  intros Hs Hc Hk Hv.
  assert (exists key d',
             AspyreDict_setitem self k1 v h = Ok (tt, <[self := mkObj AspyreDict d']> h)
             /\ scan_immutable (normalize k2) (keys d') = Some key
             /\ dict_get d' key = Some v) as (key & d' & Hset & Hscan & Hget).
  { unfold AspyreDict_setitem, bind. rewrite (get_dict_ok _ _ _ Hs).
    unfold AspyreDictImmutable_find_key.
    destruct (scan_immutable (normalize k1) (keys (odict o))) as [ck|] eqn:E.
    - exists ck, (dict_set (odict o) ck v).
      destruct (scan_immutable_found _ _ _ E) as [Hin _].
      destruct (dict_get_in_keys _ _ Hin) as [v0 Hv0].
      split; [|split].
      + destruct v; try (rewrite (store_ok _ _ _ _ _ Hs), Hc; reflexivity).
        exfalso. now apply (Hv d).
      + rewrite (dict_set_keys_present _ _ _ _ Hv0). now rewrite <- Hk.
      + apply dict_get_set_same.
    - exists k1, (dict_set (odict o) k1 v).
      pose proof (scan_immutable_absent_key _ _ k1 E eq_refl) as Habs.
      split; [|split].
      + destruct v; try (rewrite (store_ok _ _ _ _ _ Hs), Hc; reflexivity).
        exfalso. now apply (Hv d).
      + rewrite (dict_set_absent _ _ _ Habs). unfold keys. rewrite map_app.
        fold (keys (odict o)). rewrite scan_immutable_app, <- Hk, E. simpl.
        now rewrite Hk, String.eqb_refl.
      + apply dict_get_set_same. }
  exists (<[self := mkObj AspyreDict d']> h).
  assert (<[self := mkObj AspyreDict d']> h !! self = Some (mkObj AspyreDict d')) as Hs'
    by (eapply insert_lookup_same, Hs).
  split.
  - unfold setitem, bind. now rewrite (class_of_ok _ _ _ Hs), Hc.
  - unfold getitem, bind. rewrite (class_of_ok _ _ _ Hs'). cbn [ocls].
    unfold AspyreDictImmutable_getitem, bind.
    rewrite (class_of_ok _ _ _ Hs'), (get_dict_ok _ _ _ Hs'). cbn [ocls odict].
    unfold class_find_key, AspyreDictImmutable_find_key. rewrite Hscan.
    apply (fetch_ok _ _ _ _ _ Hs' Hget).
Qed.

(** C5 (code defect).  On a new AspyreDictHistory context, a value stored under
    ['Content-Type'] is kept under that very key, and neither
    [context['contenttype']] nor [context['Content-Type']] finds it: both
    return [None]. *)
Theorem history_context_misses_reformatted_key :
  result
    (let* context := new AspyreDictHistory VNone in
     let* _ := setitem context "Content-Type" (VStr "application/json") in
     let* stored := get_dict context in
     let* a := getitem context "contenttype" in
     let* b := getitem context "Content-Type" in
     ret (state_of stored, a, b)) []
  = Ok ([("Content-Type", VStr "application/json")], VNone, VNone).
Proof. vm_compute. reflexivity. Qed.

End DictionaryFacts.

(* ===================================================================== *)
(** * Properties of url_class.py *)
(* ===================================================================== *)
Module UrlClassFacts.
Import UrlClass Samples.

(** The membership test of [find] never succeeds. *)
Lemma py_in_false (c : handler) (handlers : list (handler * pydict)) :
  py_in c handlers = false.
Proof. unfold py_in. induction handlers; simpl; auto. Qed.

(** One iteration of [find]: the route contributes when either of its matchers
    matches, whatever has been collected so far. *)
Lemma find_step_eq (builtins : string -> option builtin)
    (types : gmap string converter) (hp pp : pattern) (cls : handler)
    (host path : string) (handlers : list (handler * pydict)) :
  find_step builtins types (Some host) (Some path) ((Some hp, Some pp), cls) handlers
  = match fullmatch hp host, fullmatch pp path with
    | None, None => Ok handlers
    | m1, m2 =>
        let? ret_args :=
          convert_args builtins types
            (dict_update (dict_update [] (groups m1)) (groups m2)) [] in
        Ok (handlers ++ [(cls, ret_args)])
    end.
Proof.
  unfold find_step, try_match, bind_res. cbn [fst snd].
  rewrite py_in_false.
  destruct (fullmatch hp host), (fullmatch pp path); reflexivity.
Qed.

Lemma match_seg_full (k : string -> option groupdict) (s w : string) (g : groupdict) :
  match_seg k s = Some (w, g) ->
  exists rest, s = (w ++ rest)%string /\ k rest = Some g /\ w <> EmptyString.
Proof.
  revert w g. induction s as [|c s IH]; simpl; [discriminate|].
  intros w g. destruct (Ascii.eqb c "/"); [discriminate|].
  destruct (match_seg k s) as [[w' g']|] eqn:E.
  - intros [= <- <-]. destruct (IH _ _ eq_refl) as (rest & -> & Hk & _).
    exists rest. repeat split; auto; discriminate.
  - destruct (k s) eqn:Ek; [|discriminate]. intros [= <- <-].
    exists s. repeat split; auto; discriminate.
Qed.

(** [fullmatch] accounts for the whole text: the text is the pattern with its
    groups replaced by what they captured. *)
Lemma match_tokens_full (p : list token) :
  forall (s : string) (g : groupdict), match_tokens p s = Some g -> s = render p g.
Proof.
  induction p as [|[c|name] p IH]; intros s g; simpl.
  - destruct s; [intros [= <-]; reflexivity | discriminate].
  - destruct s as [|c' s]; [discriminate|].
    destruct (Ascii.eqb c c') eqn:E; [|discriminate].
    apply Ascii.eqb_eq in E. subst c'. intros H. now rewrite (IH _ _ H).
  - destruct (match_seg (match_tokens p) s) as [[w g']|] eqn:E; [|discriminate].
    intros [= <-]. destruct (match_seg_full _ _ _ _ E) as (rest & -> & Hk & _).
    now rewrite (IH _ _ Hk).
Qed.

(** An unknown tag: absent from the caller's types and from the interpreter's
    builtins, it fails with the KeyError of the builtins lookup. *)
Lemma convert_unknown (builtins : string -> option builtin)
    (types : gmap string converter) (t raw : string) :
  types !! t = None -> builtins t = None ->
  convert builtins types t raw = Raise (KeyError t).
Proof. intros Ht Hb. unfold convert. now rewrite Ht, Hb. Qed.


(** Whenever [find] returns, it returns one entry per route whose guard holds,
    in registration order, with the handler of that route: a handler appears
    as many times as it has matching routes. *)
Lemma find_loop_handlers (builtins : string -> option builtin)
    (types : gmap string converter) (host path : option string) (urls : list route) :
  forall handlers out,
    find_loop builtins types host path urls handlers = Ok out ->
    map fst out
    = map fst handlers ++ map snd (List.filter (route_matches host path) urls).
Proof.
  induction urls as [|u urls IH]; intros handlers out; cbn [find_loop].
  - intros [= <-]. cbn. now rewrite app_nil_r.
  - unfold find_step, route_matches. cbn [List.filter].
    destruct (try_match u.1.1 host) as [m1|]; cbn [bind_res]; [|discriminate].
    destruct (try_match u.1.2 path) as [m2|]; cbn [bind_res]; [|discriminate].
    destruct (matched m1 || matched m2).
    + destruct (convert_args builtins types _ []) as [ret_args|];
        cbn [bind_res]; [|discriminate].
      rewrite py_in_false. cbn [negb bind_res]. intros H.
      rewrite (IH _ _ H), map_app. cbn [map fst snd]. now rewrite <- app_assoc.
    + cbn [bind_res]. apply IH.
Qed.

Lemma find_handlers (builtins : string -> option builtin) (self : Regex)
    (host path : option string) (out : list (handler * pydict)) :
  find builtins self host path = Ok out ->
  map fst out = map snd (List.filter (route_matches host path) (url_list self)).
Proof. intros H. now rewrite (find_loop_handlers _ _ _ _ _ _ _ H). Qed.

(** C6 (code defect).  A handler registered under two templates that both
    match the path is returned twice, once per template. *)
Theorem find_returns_handler_once_per_matching_template :
  find builtins_fragment one_handler_twice None (Some "items")
  = Ok [(A, []); (A, [("name", VStr "items")])].
Proof. vm_compute. reflexivity. Qed.

(** The guard of [find] on a route list written by hand, with a route that
    has both matchers: the host matcher matches the host, the path matcher
    does not match the path, and the route is returned all the same. *)
Lemma host_match_alone_is_returned :
  fullmatch (compile (lits "api.example.com")) "api.example.com" = Some []
  /\ fullmatch (compile (lits "users")) "admin" = None
  /\ find builtins_fragment host_and_path (Some "api.example.com") (Some "admin")
     = Ok [(A, [])].
Proof. vm_compute. repeat split; reflexivity. Qed.

(** One iteration of [find] on a route with a host matcher and a path
    matcher: the route contributes when the host matcher matches the whole
    host or the path matcher matches the whole path, and contributes nothing
    when neither does.  A match is a match of the entire text: for the
    patterns the route builders produce, the text is the pattern with every
    group replaced by what it captured. *)
Lemma route_matches_on_host_or_path
    (builtins : string -> option builtin) (types : gmap string converter)
    (hp pp : pattern) (cls : handler) (host path : string)
    (handlers : list (handler * pydict)) :
  find_step builtins types (Some host) (Some path) ((Some hp, Some pp), cls) handlers
  = match fullmatch hp host, fullmatch pp path with
    | None, None => Ok handlers
    | m1, m2 =>
        let? ret_args :=
          convert_args builtins types
            (dict_update (dict_update [] (groups m1)) (groups m2)) [] in
        Ok (handlers ++ [(cls, ret_args)])
    end
  /\ forall (p : list token) (text : string) (g : groupdict),
       fullmatch (compile p) text = Some g -> text = render p g.
Proof.
  split; [apply find_step_eq|].
  intros p text g. apply match_tokens_full.
Qed.

(** C8 (code defect).  [date] is one of the tags of [__default_types__], yet
    with no caller-supplied types a placeholder of type [date] is looked up in
    the interpreter's builtins, where it is not defined: [find] raises the
    KeyError of that lookup instead of converting. *)
Theorem default_tag_date_is_not_converted (builtins : string -> option builtin) :
  builtins "date" = None ->
  In "date" __default_types__
  /\ find builtins dated None (Some "on/2024-05-01") = Raise (KeyError "date").
Proof.
  intros Hb. split; [simpl; tauto|].
  unfold find, dated. cbn [url_list types find_loop].
  unfold find_step, bind_res. cbn [fst snd try_match].
  replace (fullmatch (compile (lits "on/" ++ [group "date" "day"])) "on/2024-05-01")
    with (Some [("date0_d_collis_1day", "2024-05-01")]) by (vm_compute; reflexivity).
  cbn [matched groups orb dict_update fold_left].
  replace (dict_set [] ("date0_d_collis_1day", "2024-05-01").1
             ("date0_d_collis_1day", "2024-05-01").2)
    with [("date0_d_collis_1day", "2024-05-01")] by reflexivity.
  cbn [convert_args].
  replace (split __separator__ "date0_d_collis_1day") with ["date"; "day"]
    by (vm_compute; reflexivity).
  now rewrite (convert_unknown builtins ∅ "date" "2024-05-01" (lookup_empty _) Hb).
Qed.

(** C8 at the sample fragment of the builtins namespace. *)
Lemma default_tag_date_is_not_converted_witness :
  builtins_fragment "date" = None
  /\ In "date" __default_types__
  /\ find builtins_fragment dated None (Some "on/2024-05-01") = Raise (KeyError "date").
Proof.
  split; [reflexivity|].
  apply (default_tag_date_is_not_converted builtins_fragment). reflexivity.
Defined.

End UrlClassFacts.

(* ===================================================================== *)
(** * Properties of aspyre.py *)
(* ===================================================================== *)
Module CoreFacts.
Import Dictionary UrlClass Core Samples.

(** ** The chain that find builds *)

Lemma has_callable_getattr_strict (c : handler) (name : string) :
  has_callable c name = true ->
  exists a, getattr c name = Some a /\ getattr_strict c name = Ok (mkBound (hid c) name a).
Proof.
  unfold has_callable, getattr_strict.
  destruct (getattr c name) as [a|]; [|discriminate]. eauto.
Qed.

Lemma collect_cons (tested fetched : string) (x : handler * pydict)
    (found : list (handler * pydict)) :
  collect tested fetched (x :: found)
  = collect tested fetched [x] ++ collect tested fetched found.
Proof. unfold collect. cbn [flat_map]. now rewrite app_nil_r. Qed.

Lemma collect_one_rev (tested fetched : string) (x : handler * pydict) :
  rev (collect tested fetched [x]) = collect tested fetched [x].
Proof.
  unfold collect. cbn [flat_map]. rewrite app_nil_r.
  destruct (has_callable x.1 tested); [|reflexivity].
  now destruct (getattr x.1 fetched).
Qed.

Section Stages.

(** The names of the three stages that depend on the method, different from
    one another and from the names of the two global stages. *)
Variables k2 k3 k4 : string.
Hypothesis E12 : String.eqb "before" k2 = false.
Hypothesis E13 : String.eqb "before" k3 = false.
Hypothesis E14 : String.eqb "before" k4 = false.
Hypothesis E23 : String.eqb k2 k3 = false.
Hypothesis E24 : String.eqb k2 k4 = false.
Hypothesis E25 : String.eqb k2 "after" = false.
Hypothesis E34 : String.eqb k3 k4 = false.
Hypothesis E35 : String.eqb k3 "after" = false.
Hypothesis E45 : String.eqb k4 "after" = false.

Local Abbreviation five := (Core.five k2 k3 k4).

Ltac keys :=
  unfold stage_append, stage_insert0, Core.five; cbn [dict_get dict_set];
  rewrite ?String.eqb_refl, ?E12, ?E13, ?E14, ?E23, ?E24, ?E25, ?E34, ?E35, ?E45;
  cbn [dict_get dict_set];
  rewrite ?String.eqb_refl, ?E12, ?E13, ?E14, ?E23, ?E24, ?E25, ?E34, ?E35, ?E45;
  try change (String.eqb "before" "after") with false;
  cbn [dict_get dict_set];
  rewrite ?String.eqb_refl.

Lemma append_1 l1 l2 l3 l4 l5 x :
  stage_append (five l1 l2 l3 l4 l5) "before" x = Ok (five (l1 ++ [x]) l2 l3 l4 l5).
Proof. now keys. Qed.

Lemma append_2 l1 l2 l3 l4 l5 x :
  stage_append (five l1 l2 l3 l4 l5) k2 x = Ok (five l1 (l2 ++ [x]) l3 l4 l5).
Proof. now keys. Qed.

Lemma append_3 l1 l2 l3 l4 l5 x :
  stage_append (five l1 l2 l3 l4 l5) k3 x = Ok (five l1 l2 (l3 ++ [x]) l4 l5).
Proof. now keys. Qed.

Lemma insert0_4 l1 l2 l3 l4 l5 x :
  stage_insert0 (five l1 l2 l3 l4 l5) k4 x = Ok (five l1 l2 l3 (x :: l4) l5).
Proof. now keys. Qed.

Lemma insert0_5 l1 l2 l3 l4 l5 x :
  stage_insert0 (five l1 l2 l3 l4 l5) "after" x = Ok (five l1 l2 l3 l4 (x :: l5)).
Proof. now keys. Qed.

(** One handler: each stage receives the entry of its own hook, except the
    fourth, which receives the attribute [k3], the method itself. *)
Lemma find_step_shape (c : handler) (args : pydict) l1 l2 l3 l4 l5 :
  (has_callable c k4 = true -> getattr c k3 <> None) ->
  find_step k3 k2 k4 (c, args) (five l1 l2 l3 l4 l5)
  = Ok (five (l1 ++ collect "before" "before" [(c, args)])
             (l2 ++ collect k2 k2 [(c, args)])
             (l3 ++ collect k3 k3 [(c, args)])
             (collect k4 k3 [(c, args)] ++ l4)
             (collect "after" "after" [(c, args)] ++ l5)).
Proof.
  intros Hm. unfold find_step, collect. cbn [fst snd flat_map].
  rewrite !app_nil_r.
  unfold has_callable, getattr_strict in *.
  destruct (getattr c "before") as [[f1|v1]|];
    destruct (getattr c k2) as [[f2|v2]|];
    destruct (getattr c k3) as [[f3|v3]|];
    destruct (getattr c k4) as [[f4|v4]|];
    destruct (getattr c "after") as [[f5|v5]|];
    cbn [bind_res];
    rewrite ?append_1; cbn [bind_res];
    rewrite ?append_2; cbn [bind_res];
    rewrite ?append_3; cbn [bind_res];
    rewrite ?insert0_4; cbn [bind_res];
    rewrite ?insert0_5; cbn [bind_res app];
    rewrite ?app_nil_r;
    try reflexivity;
    exfalso; now apply Hm.
Qed.

(** The loop of [find] over the found handlers [found], started from the
    stage contents [l1] ... [l5], when every handler with a callable
    after-hook also has the method attribute that the loop fetches for it.
    The fourth stage is gathered from the attribute [k3], the method itself. *)
Lemma find_loop_shape (found : list (handler * pydict)) :
  forall l1 l2 l3 l4 l5,
    (forall c args, In (c, args) found ->
                    has_callable c k4 = true -> getattr c k3 <> None) ->
    find_loop k3 k2 k4 found (five l1 l2 l3 l4 l5)
    = Ok (five (l1 ++ collect "before" "before" found)
               (l2 ++ collect k2 k2 found)
               (l3 ++ collect k3 k3 found)
               (rev (collect k4 k3 found) ++ l4)
               (rev (collect "after" "after" found) ++ l5)).
Proof.
  induction found as [|[c args] found IH]; intros l1 l2 l3 l4 l5 Hm.
  - cbn [find_loop collect flat_map rev app]. now rewrite !app_nil_r.
  - cbn [find_loop].
    rewrite find_step_shape by (apply (Hm c args); now left).
    cbn [bind_res]. rewrite IH by (intros c' a' Hin; apply (Hm c' a'); now right).
    rewrite (collect_cons "before" "before" (c, args) found),
      (collect_cons k2 k2 (c, args) found), (collect_cons k3 k3 (c, args) found),
      (collect_cons k4 k3 (c, args) found), (collect_cons "after" "after" (c, args) found).
    rewrite !rev_app_distr, !collect_one_rev, <- !app_assoc. reflexivity.
Qed.

End Stages.

(** X20.  What [find] returns for a supported method and a non-empty list of
    found handlers: five stages in the order before, before_m, m, after_m, after;
    the first three in match order, the last two in reverse match order; and
    the after_m stage holds, for each handler with a callable after_m hook,
    that handler's m hook. *)
Lemma find_stages (builtins : string -> option builtin) (self : Aspyre)
    (host path : option string) (method : string)
    (found : list (handler * pydict)) :
  In method http_methods ->
  UrlClass.find builtins (url_class self) host path = Ok found ->
  found <> [] ->
  (forall c args, In (c, args) found ->
                  has_callable c ("after_" ++ method)%string = true ->
                  getattr c method <> None) ->
  let before := ("before_" ++ method)%string in
  let after := ("after_" ++ method)%string in
  find builtins self host path method
  = Ok (Some [ ("before", collect "before" "before" found);
               (before, collect before before found);
               (method, collect method method found);
               (after, rev (collect after method found));
               ("after", rev (collect "after" "after" found)) ]).
Proof.
  intros Hin Hfind Hne Hm before after. unfold find. rewrite Hfind. cbn [bind_res].
  destruct found as [|x found']; [congruence|].
  set (found := x :: found') in *.
  assert (forall l1 l2 l3 l4 l5,
            find_loop method before after found (five before method after l1 l2 l3 l4 l5)
            = Ok (five before method after
                    (l1 ++ collect "before" "before" found)
                    (l2 ++ collect before before found)
                    (l3 ++ collect method method found)
                    (rev (collect after method found) ++ l4)
                    (rev (collect "after" "after" found) ++ l5))) as Hshape.
  { intros. subst before after.
    destruct Hin as [<-|[<-|[<-|[<-|[<-|[]]]]]];
      now apply find_loop_shape. }
  replace (dict_set (dict_set (dict_set (dict_set (dict_set ([] : stages)
             "before" []) (String.append "before_" method) []) method [])
             (String.append "after_" method) []) "after" [])
    with (five before method after [] [] [] [] []).
  2: { subst before after.
       destruct Hin as [<-|[<-|[<-|[<-|[<-|[]]]]]]; reflexivity. }
  fold before. fold after. rewrite Hshape. cbn [bind_res app].
  unfold Core.five. now rewrite !app_nil_r.
Qed.

(** C1 (code defect).  For the handlers [A, B], which both define every hook
    of the get family, [find] for the method get builds the five stages
    before, before_get, get, after_get, after, in this order; the after_get
    stage holds [B.get, A.get], the get hooks, where the after_get hooks
    belong. *)
Theorem find_get_chain_of_two_handlers :
  match find builtins_fragment (mkAspyre two_handlers json_codec (Some AspyreDictHistory))
          None (Some "items") "get" with
  | Ok (Some handlers) =>
      stage_names handlers
      = [ ("before", [(0, "before"); (1, "before")]);
          ("before_get", [(0, "before_get"); (1, "before_get")]);
          ("get", [(0, "get"); (1, "get")]);
          ("after_get", [(1, "get"); (0, "get")]);
          ("after", [(1, "after"); (0, "after")]) ]
  | _ => False
  end.
Proof. vm_compute. reflexivity. Qed.

(** ** Dispatch *)

Lemma in_http_methods_spec (method : string) :
  in_http_methods method = true <-> In method http_methods.
Proof.
  unfold in_http_methods. rewrite existsb_exists. split.
  - intros (x & Hx & E). apply String.eqb_eq in E. now subst.
  - intros H. exists method. split; [exact H | apply String.eqb_refl].
Qed.

(** A method outside the table is answered with NotImplemented, 501. *)
Lemma call_unsupported_method (builtins : string -> option builtin) (self : Aspyre)
    (host path : option string) (method : string) (input headers : value)
    (query_string : option string) :
  in_http_methods method = false ->
  __call__ builtins self host path method input headers query_string
  = Raise (DomainError
             (mkError 501 VNone (VStr "The server does not support this HTTP method.")
                VNone false)).
Proof. intros H. unfold __call__. rewrite H. reflexivity. Qed.

(** A method of the table never reaches the NotFound branch: the coroutine
    object is true, and the call of [handle] is rejected. *)
Lemma call_supported_method (builtins : string -> option builtin) (self : Aspyre)
    (host path : option string) (method : string) (input headers : value)
    (query_string : option string) :
  in_http_methods method = true ->
  __call__ builtins self host path method input headers query_string = Raise TypeError.
Proof. intros H. unfold __call__. rewrite H. reflexivity. Qed.

(** The sibling path: [__fix_params__] turns head into get with the response
    ignored.  Nothing in the sources applies it before the method test. *)
Lemma fix_params_head :
  __fix_params__ (Some "head") None
  = Ok [("ignore_response", VBool true); ("method", VStr "get")].
Proof. reflexivity. Qed.

(** C3 (code defect).  [head] is not in the method table that [__call__]
    tests, so dispatching head fails with NotImplemented (501) for every
    registry, host and path; in particular where no route matches and a 404
    would be due. *)
Theorem call_head_is_not_implemented
    (builtins : string -> option builtin) (self : Aspyre)
    (host path : option string) (input headers : value)
    (query_string : option string) :
  __call__ builtins self host path "head" input headers query_string
  = Raise (DomainError
             (mkError 501 VNone (VStr "The server does not support this HTTP method.")
                VNone false)).
Proof. now apply call_unsupported_method. Qed.

(** ** Execution *)

Section Execution.

Variable parse_qs : string -> value.

(** While [error] is unbound, the except clauses cannot even be selected. *)
Lemma except_clauses_unbound (self : Aspyre) (x : exc) (lc : locals) (h : heap) :
  error lc = None ->
  except_clauses self x lc h = Raise (UnboundLocalError "error").
Proof.
  intros H. unfold except_clauses, bind, eval_error_Error. now rewrite H.
Qed.

(** The loop either runs every hook without an exception, leaving the locals
    as they were, or ends in the UnboundLocalError; it never returns an
    encoded error and never binds [error]. *)
Lemma run_unbound (self : Aspyre) (input : value) (chain : list entry) :
  forall (lc : locals) (h : heap),
    error lc = None ->
    (exists h', run self input chain lc h = Ok (inl lc, h'))
    \/ run self input chain lc h = Raise (UnboundLocalError "error").
Proof.
  induction chain as [|[f args] rest IH]; intros lc h Hlc.
  - left. now exists h.
  - cbn [run].
    destruct (call_hook f args input lc h) as [[result|x] h1].
    + destruct (is_int result); [|now apply IH].
      destruct (setitem (context lc) "http_code" result h1) as [[u h2]|x] eqn:E.
      * now apply IH.
      * right. now rewrite except_clauses_unbound.
    + right. now rewrite except_clauses_unbound.
Qed.

(** A hook that raises, whatever it raises, ends the loop in the
    UnboundLocalError. *)
Lemma run_hook_raises (self : Aspyre) (input : value) (f : bound) (args : pydict)
    (rest : list entry) (lc : locals) (h h1 : heap) (x : exc) :
  error lc = None ->
  call_hook f args input lc h = (Raised x, h1) ->
  run self input ((f, args) :: rest) lc h = Raise (UnboundLocalError "error").
Proof.
  intros Hlc Hcall. cbn [run]. rewrite Hcall. now rewrite except_clauses_unbound.
Qed.

(** X21.  [handle] never returns the encoding of an error: whenever it
    returns, it returns the pair of the encoded response and the context. *)
Lemma handle_never_returns_encoded_error (self : Aspyre) (handlers : option stages)
    (input headers : value) (query_string : option string) (h h' : heap)
    (out : handled) :
  handle parse_qs self handlers input headers query_string h = Ok (out, h') ->
  exists body context, out = EncodedWithContext body context.
Proof.
  unfold handle. destruct (negb (truthy handlers)); [discriminate|].
  unfold bind.
  destruct (construct self h) as [[ctx h1]|]; [|discriminate].
  destruct (setitem ctx "arguments" _ h1) as [[u1 h2]|]; [|discriminate].
  destruct (setitem ctx "headers" headers h2) as [[u2 h3]|]; [|discriminate].
  destruct (get_class (codec self) h3) as [[resp h4]|]; [|discriminate].
  destruct (construct self h4) as [[inh h5]|]; [|discriminate].
  match goal with |- context [run ?s ?i ?c ?l h5] =>
    destruct (run_unbound s i c l h5 eq_refl) as [[h6 ->]| ->] end.
  - intros [= <- <-]. eauto.
  - discriminate.
Qed.

End Execution.

(** C2 (code defect).  A [before] hook raises Forbidden; the [get] hook is
    next in the chain.  With [reraise=False] the error is not recorded and the
    chain does not go on, and with [reraise=True] no encoded error is
    returned: in both cases [handle] ends in the UnboundLocalError for its
    local name [error].  On an application built by [Aspyre.__init__], which
    does not store [dict_class], [handle] fails before the chain starts. *)
Theorem handle_with_raising_hook :
  let run_app (self : Aspyre) :=
    match find builtins_fragment self None (Some "items") "get" with
    | Ok handlers => result (handle (fun _ => VNone) self handlers VNone VNone None) []
    | Raise e => Raise e
    end in
  run_app (mkAspyre (guarded_routes false) json_codec (Some AspyreDictHistory))
  = Raise (UnboundLocalError "error")
  /\ run_app (mkAspyre (guarded_routes true) json_codec (Some AspyreDictHistory))
     = Raise (UnboundLocalError "error")
  /\ match Aspyre_init (Some (guarded_routes false)) (Some json_codec)
             (Some AspyreDictHistory) with
     | Ok self => run_app self = Raise (AttributeError "dict_class")
     | Raise _ => False
     end.
Proof. vm_compute. repeat split; reflexivity. Qed.

End CoreFacts.

(* ===================================================================== *)
(** * More on dictionary.py *)
(* ===================================================================== *)
Module DictionaryExtras.
Import Dictionary DictionaryFacts.

(** ** Helpers *)


Lemma existsb_eqb_in (k : string) (ks : list string) :
  existsb (String.eqb k) ks = true <-> In k ks.
Proof.
  rewrite existsb_exists. split.
  - intros (x & Hx & E). apply String.eqb_eq in E. now subst.
  - intros H. exists k. split; [exact H | apply String.eqb_refl].
Qed.

Lemma existsb_eqb_not_in (k : string) (ks : list string) :
  existsb (String.eqb k) ks = false <-> ~ In k ks.
Proof.
  rewrite <- existsb_eqb_in. destruct (existsb (String.eqb k) ks); split;
    congruence.
Qed.

Lemma keys_set_present (d : pydict) (k : string) (v : value) :
  In k (keys d) -> keys (dict_set d k v) = keys d.
Proof.
  intros Hin. destruct (dict_get_in_keys _ _ Hin) as [v0 Hv0].
  exact (dict_set_keys_present _ _ _ _ Hv0).
Qed.

Lemma keys_set_absent (d : pydict) (k : string) (v : value) :
  ~ In k (keys d) -> keys (dict_set d k v) = keys d ++ [k].
Proof.
  intros Hn. apply existsb_eqb_not_in in Hn.
  rewrite (dict_set_absent _ _ _ Hn). unfold keys. now rewrite map_app.
Qed.

Lemma scan_immutable_some_iff (key_f : string) (ks : list string) :
  scan_immutable key_f ks = None <-> forall k, In k ks -> normalize k <> key_f.
Proof.
  split; [|apply scan_immutable_none].
  induction ks as [|k ks IH]; simpl; [tauto|].
  destruct (String.eqb key_f (normalize k)) eqn:E; [discriminate|].
  intros H k' [<-|Hin]; [|now apply IH].
  intros Hc. rewrite Hc, String.eqb_refl in E. discriminate.
Qed.

(** ** Shapes of the basic operations *)

(** [c(mapping)]: a new instance with the entries of the mapping, and for
    AspyreDictHistory a history that lists the instance itself. *)
Lemma new_from_dict (c : cls) (m : pydict) (h : heap) :
  new c (VDict m) h
  = Ok (length h,
        h ++ [mkObj c (match c with
                       | AspyreDictHistory =>
                           dict_set (dict_update [] m) "__history" (VList [VRef (length h)])
                       | _ => dict_update [] m
                       end)]).
Proof.
  unfold new, AspyreDictHistory_init, AspyreDictImmutable_init.
  unfold bind at 1. unfold alloc. cbv beta iota.
  destruct c.
  - unfold bind. rewrite (get_dict_ok _ _ _ (snoc_lookup_new h _)). cbn [odict].
    rewrite (put_dict_ok _ _ _ _ (snoc_lookup_new h _)). cbn [ocls].
    now rewrite snoc_insert_new.
  - unfold bind. rewrite (get_dict_ok _ _ _ (snoc_lookup_new h _)). cbn [odict].
    rewrite (put_dict_ok _ _ _ _ (snoc_lookup_new h _)). cbn [ocls].
    now rewrite snoc_insert_new.
  - unfold bind at 1. unfold bind at 1. unfold bind at 1.
    rewrite (get_dict_ok _ _ _ (snoc_lookup_new h _)). cbn [odict].
    rewrite (put_dict_ok _ _ _ _ (snoc_lookup_new h _)). cbn [ocls].
    rewrite snoc_insert_new.
    rewrite (store_ok _ _ _ _ _ (snoc_lookup_new h _)). cbn [ocls odict].
    now rewrite snoc_insert_new.
Qed.

(** [AspyreDict.__setitem__] always succeeds on an existing instance: the
    entry under [slot] receives the value, or the address of the new instance
    that wraps a plain dict. *)
Lemma AspyreDict_setitem_ok (h : heap) (self : nat) (o : obj) (key : string) (v : value) :
  h !! self = Some o ->
  exists (v' : value) (h0 : heap),
    AspyreDict_setitem self key v h
    = Ok (tt, <[self := mkObj (ocls o) (dict_set (odict o) (slot (odict o) key) v')]> h0)
    /\ h0 !! self = Some o
    /\ (forall r x, h !! r = Some x -> h0 !! r = Some x)
    /\ ((forall m, v <> VDict m) -> v' = v /\ h0 = h)
    /\ (forall m, v = VDict m ->
        v' = VRef (length h)
        /\ h0 = h ++ [mkObj (ocls o)
                        (match ocls o with
                         | AspyreDictHistory =>
                             dict_set (dict_update [] m) "__history"
                               (VList [VRef (length h)])
                         | _ => dict_update [] m
                         end)]).
Proof.
  intros Hs. unfold AspyreDict_setitem, slot. unfold bind at 1.
  rewrite (get_dict_ok _ _ _ Hs). cbv beta iota.
  destruct (AspyreDictImmutable_find_key (odict o) key) as [found fk]. cbn [snd].
  assert (forall w, (forall m, w <> VDict m) ->
            exists v' h0,
              store self fk w h
              = Ok (tt, <[self := mkObj (ocls o) (dict_set (odict o) fk v')]> h0)
              /\ h0 !! self = Some o
              /\ (forall r x, h !! r = Some x -> h0 !! r = Some x)
              /\ ((forall m, w <> VDict m) -> v' = w /\ h0 = h)
              /\ (forall m, w = VDict m -> v' = VRef (length h) /\ h0 = h ++ [mkObj (ocls o)
                        (match ocls o with
                         | AspyreDictHistory =>
                             dict_set (dict_update [] m) "__history"
                               (VList [VRef (length h)])
                         | _ => dict_update [] m
                         end)])) as Hplain.
  { intros w Hw. exists w, h. rewrite (store_ok _ _ _ _ _ Hs).
    split; [reflexivity|]. split; [exact Hs|]. split; [auto|].
    split; [auto|]. intros m' Hm. exfalso. exact (Hw m' Hm). }
  destruct v as [| | | |lv|mv|rv]; try (apply Hplain; discriminate).
  unfold bind. rewrite (class_of_ok _ _ _ Hs), new_from_dict.
  set (x := mkObj (ocls o) _).
  assert ((h ++ [x]) !! self = Some o) as Hs1 by now apply snoc_lookup_old.
  rewrite (store_ok _ _ _ _ _ Hs1).
  exists (VRef (length h)), (h ++ [x]). split; [reflexivity|].
  split; [exact Hs1|]. split; [intros r y Hr; now apply snoc_lookup_old|].
  split; [intros Hv; exfalso; exact (Hv mv eq_refl)|].
  intros m' [= <-]. auto.
Qed.

Lemma AspyreDict_delitem_ok (h : heap) (self : nat) (o : obj) (key : string) :
  h !! self = Some o ->
  AspyreDict_delitem self key h
  = Ok (tt, match scan_immutable (normalize key) (keys (odict o)) with
            | Some fk => <[self := mkObj (ocls o) (dict_del (odict o) fk)]> h
            | None => h
            end).
Proof.
  intros Hs. unfold AspyreDict_delitem, bind, AspyreDictImmutable_find_key.
  rewrite (get_dict_ok _ _ _ Hs).
  destruct (scan_immutable (normalize key) (keys (odict o))); [|reflexivity].
  apply (put_dict_ok _ _ _ _ Hs).
Qed.

(** X1 at an AspyreDict that holds one header. *)
Lemma AspyreDict_set_then_get_witness :
  let o := mkObj AspyreDict [("__history", VList []); ("Content-Type", VStr "text/html")] in
  ([o] !! 0 = Some o /\ ocls o = AspyreDict
   /\ normalize "content_type" = normalize "CONTENT-TYPE"
   /\ forall m, VStr "application/json" <> VDict m)
  /\ exists h',
       setitem 0 "content_type" (VStr "application/json") [o] = Ok (tt, h')
       /\ getitem 0 "CONTENT-TYPE" h' = Ok (VStr "application/json", h').
Proof.
  intros o.
  assert (forall m, VStr "application/json" <> VDict m) as Hv by discriminate.
  split; [repeat split; try reflexivity; exact Hv|].
  apply (AspyreDict_set_then_get [o] 0 o "content_type" "CONTENT-TYPE"
           (VStr "application/json")); try reflexivity.
  exact Hv.
Defined.

(** ** Dispatch on the class *)

Lemma setitem_mutable (h : heap) (self : nat) (o : obj) (key : string) (v : value) :
  h !! self = Some o ->
  ocls o <> AspyreDictImmutable ->
  (ocls o = AspyreDictHistory -> lower key <> "__history") ->
  setitem self key v h = AspyreDict_setitem self key v h.
Proof.
  intros Hs Hc Hk. unfold setitem, bind. rewrite (class_of_ok _ _ _ Hs).
  destruct (ocls o); [congruence | reflexivity |].
  unfold AspyreDictHistory_setitem.
  destruct (String.eqb (lower key) "__history") eqn:E; [|reflexivity].
  apply String.eqb_eq in E. exfalso. now apply Hk.
Qed.

Lemma delitem_mutable (h : heap) (self : nat) (o : obj) (key : string) :
  h !! self = Some o ->
  ocls o <> AspyreDictImmutable ->
  (ocls o = AspyreDictHistory -> lower key <> "__history") ->
  delitem self key h = AspyreDict_delitem self key h.
Proof.
  intros Hs Hc Hk. unfold delitem, bind. rewrite (class_of_ok _ _ _ Hs).
  destruct (ocls o); [congruence | reflexivity |].
  unfold AspyreDictHistory_delitem.
  destruct (String.eqb (lower key) "__history") eqn:E; [|reflexivity].
  apply String.eqb_eq in E. exfalso. now apply Hk.
Qed.

(** A successful assignment or deletion went through the AspyreDict method. *)
Lemma setitem_inv (h h' : heap) (self : nat) (o : obj) (key : string) (v : value) (u : unit) :
  h !! self = Some o ->
  setitem self key v h = Ok (u, h') ->
  AspyreDict_setitem self key v h = Ok (u, h').
Proof.
  intros Hs. unfold setitem, bind. rewrite (class_of_ok _ _ _ Hs).
  destruct (ocls o); [discriminate | auto |].
  unfold AspyreDictHistory_setitem.
  destruct (String.eqb (lower key) "__history"); [discriminate | auto].
Qed.

Lemma delitem_inv (h h' : heap) (self : nat) (o : obj) (key : string) (u : unit) :
  h !! self = Some o ->
  delitem self key h = Ok (u, h') ->
  AspyreDict_delitem self key h = Ok (u, h').
Proof.
  intros Hs. unfold delitem, bind. rewrite (class_of_ok _ _ _ Hs).
  destruct (ocls o); [discriminate | auto |].
  unfold AspyreDictHistory_delitem.
  destruct (String.eqb (lower key) "__history"); [discriminate | auto].
Qed.

(** A key that no stored key matches after reduction is looked up as [None]. *)
Lemma getitem_unmatched (h : heap) (self : nat) (o : obj) (key : string) :
  h !! self = Some o ->
  (forall ck, In ck (keys (odict o)) -> normalize ck <> normalize key) ->
  getitem self key h = Ok (VNone, h).
Proof.
  intros Hs Hmiss.
  assert (AspyreDictImmutable_getitem self key h = Ok (VNone, h)) as Himm.
  { unfold AspyreDictImmutable_getitem, bind.
    rewrite (class_of_ok _ _ _ Hs), (get_dict_ok _ _ _ Hs).
    destruct (ocls o); unfold class_find_key,
      AspyreDictImmutable_find_key, AspyreDictHistory_find_key.
    - now rewrite (scan_immutable_none _ _ Hmiss).
    - now rewrite (scan_immutable_none _ _ Hmiss).
    - now rewrite (scan_history_none _ _ Hmiss). }
  unfold getitem, bind. rewrite (class_of_ok _ _ _ Hs).
  destruct (ocls o); try exact Himm.
  unfold AspyreDictHistory_getitem.
  destruct (String.eqb (lower key) "__history"); [reflexivity | exact Himm].
Qed.

(** ** Deleting *)



(** ** Stored keys keep different reductions *)

Lemma unique_snoc (ks : list string) (k : string) :
  unique ks = true -> existsb (String.eqb k) ks = false -> unique (ks ++ [k]) = true.
Proof.
  induction ks as [|a ks IH]; simpl; [reflexivity|].
  intros H Hk. apply andb_true_iff in H as [H1 H2].
  apply orb_false_iff in Hk as [Hk1 Hk2].
  rewrite IH by assumption. rewrite andb_true_r.
  apply negb_true_iff in H1. apply negb_true_iff.
  rewrite existsb_app, H1. simpl. rewrite orb_false_r. now rewrite String.eqb_sym.
Qed.

Lemma scan_immutable_found_in (key_f : string) (d : pydict) (fk : string) :
  scan_immutable key_f (keys d) = Some fk -> In fk (keys d) /\ normalize fk = key_f.
Proof. apply scan_immutable_found. Qed.

Lemma distinct_set (d : pydict) (key : string) (v : value) :
  distinct_reductions d = true ->
  distinct_reductions (dict_set d (slot d key) v) = true.
Proof.
  unfold distinct_reductions, slot, AspyreDictImmutable_find_key. intros Hd.
  destruct (scan_immutable (normalize key) (keys d)) as [fk|] eqn:E; cbn [snd].
  - destruct (scan_immutable_found _ _ _ E) as [Hin _].
    now rewrite (keys_set_present _ _ _ Hin).
  - assert (forall k, In k (keys d) -> normalize k <> normalize key) as Hmiss
      by now apply scan_immutable_some_iff.
    assert (~ In key (keys d)) as Hn by (intros Hin; now apply (Hmiss key Hin)).
    rewrite (keys_set_absent _ _ _ Hn), map_app. cbn [map].
    apply unique_snoc; [exact Hd|].
    apply existsb_eqb_not_in. intros Hin. apply in_map_iff in Hin as (k & Hk & Hin).
    now apply (Hmiss k Hin).
Qed.

Lemma keys_del_subset (d : pydict) (k x : string) :
  In x (keys (dict_del d k)) -> In x (keys d).
Proof.
  induction d as [|[a b] d IH]; simpl; [tauto|].
  destruct (String.eqb a k); simpl; tauto.
Qed.

Lemma distinct_del (d : pydict) (k : string) :
  distinct_reductions d = true -> distinct_reductions (dict_del d k) = true.
Proof.
  unfold distinct_reductions.
  induction d as [|[a b] d IH]; simpl; [reflexivity|].
  intros H. apply andb_true_iff in H as [H1 H2].
  destruct (String.eqb a k); [exact H2|].
  simpl. rewrite (IH H2), andb_true_r.
  apply negb_true_iff in H1. apply negb_true_iff.
  apply existsb_eqb_not_in. intros Hin. apply in_map_iff in Hin as (x & Hx & Hin).
  apply keys_del_subset in Hin.
  assert (In (normalize a) (map normalize (keys d))) as Hc
    by (apply in_map_iff; eauto).
  apply existsb_eqb_in in Hc. unfold keys in *. congruence.
Qed.

(** After deleting the entry of [fk], no stored key has the reduction of [fk]. *)
Lemma distinct_del_gone (d : pydict) (fk : string) :
  distinct_reductions d = true -> In fk (keys d) ->
  forall k, In k (keys (dict_del d fk)) -> normalize k <> normalize fk.
Proof.
  unfold distinct_reductions.
  induction d as [|[a b] d IH]; simpl; [tauto|].
  intros H Hin k. apply andb_true_iff in H as [H1 H2]. apply negb_true_iff in H1.
  assert (forall x, In x (keys d) -> normalize x <> normalize a) as Hfresh.
  { intros x Hx Hc. apply existsb_eqb_not_in in H1. apply H1.
    apply in_map_iff. exists x. split; [exact Hc | exact Hx]. }
  destruct (String.eqb a fk) eqn:E.
  - apply String.eqb_eq in E. subst a. apply Hfresh.
  - simpl. intros [<-|Hk].
    + destruct Hin as [->|Hin]; [rewrite String.eqb_refl in E; discriminate|].
      intros Hc. now apply (Hfresh fk Hin).
    + destruct Hin as [->|Hin]; [rewrite String.eqb_refl in E; discriminate|].
      now apply IH.
Qed.

Lemma apply_edit_step (h h' : heap) (self : nat) (o : obj) (e : edit) (u : unit) :
  h !! self = Some o ->
  apply_edit self e h = Ok (u, h') ->
  exists d',
    h' !! self = Some (mkObj (ocls o) d')
    /\ (forall r x, r <> self -> h !! r = Some x -> h' !! r = Some x)
    /\ (d' = dict_del (odict o) (slot (odict o) (match e with Assign k _ | Delete k => k end))
        \/ (exists v', d' = dict_set (odict o)
                            (slot (odict o) (match e with Assign k _ | Delete k => k end)) v')
        \/ d' = odict o).
Proof.
  intros Hs. destruct e as [key v|key]; cbn [apply_edit]; intros H.
  - apply (setitem_inv _ _ _ _ _ _ _ Hs) in H.
    destruct (AspyreDict_setitem_ok h self o key v Hs) as (v' & h0 & Heq & Hs0 & Hfr & _).
    rewrite Heq in H. injection H as H. subst h'.
    exists (dict_set (odict o) (slot (odict o) key) v'). split; [|split].
    + eapply insert_lookup_same, Hs0.
    + intros r x Hr Hx. eapply insert_lookup_other; eauto.
    + right. left. eauto.
  - apply (delitem_inv _ _ _ _ _ _ Hs) in H.
    rewrite (AspyreDict_delitem_ok _ _ _ _ Hs) in H.
    unfold slot, AspyreDictImmutable_find_key.
    destruct (scan_immutable (normalize key) (keys (odict o))) as [fk|];
      injection H as H; subst h'; cbn [snd].
    + exists (dict_del (odict o) fk). split; [|split].
      * eapply insert_lookup_same, Hs.
      * intros r x Hr Hx. eapply insert_lookup_other; eauto.
      * now left.
    + exists (odict o). destruct o. split; [exact Hs|]. split; auto.
Qed.

(** X3.  Item assignments and deletions keep the reductions of the stored
    keys pairwise different: a mapping that starts without two keys of the
    same reduction never acquires them, whatever is assigned or deleted. *)
Theorem edits_keep_distinct_reductions (es : list edit) :
  forall (h h' : heap) (self : nat) (o : obj) (u : unit),
    h !! self = Some o ->
    distinct_reductions (odict o) = true ->
    apply_edits self es h = Ok (u, h') ->
    exists o', h' !! self = Some o' /\ ocls o' = ocls o
               /\ distinct_reductions (odict o') = true.
Proof.
  induction es as [|e es IH]; intros h h' self o u Hs Hd; cbn [apply_edits].
  - intros [= _ <-]. eauto.
  - unfold bind. destruct (apply_edit self e h) as [[u1 h1]|] eqn:E; [|discriminate].
    destruct (apply_edit_step _ _ _ _ _ _ Hs E) as (d' & Hs1 & _ & Hshape).
    intros H. apply (IH _ _ _ _ _ Hs1) in H; [exact H|]. cbn [odict].
    destruct Hshape as [->|[[v' ->]| ->]];
      [now apply distinct_del | now apply distinct_set | exact Hd].
Qed.

(** X3 at a new AspyreDict and four edits. *)
Lemma edits_keep_distinct_reductions_witness :
  let o := mkObj AspyreDict [("__history", VList [])] in
  let es := [Assign "Content-Type" (VStr "text/html");
             Assign "content_type" (VDict [("a", VInt 1)]);
             Delete "CONTENTTYPE";
             Assign "X" VNone] in
  match apply_edits 0 es [o] with
  | Ok (_, h') =>
      ([o] !! 0 = Some o /\ distinct_reductions (odict o) = true)
      /\ exists o', h' !! 0 = Some o' /\ ocls o' = ocls o
                    /\ distinct_reductions (odict o') = true
  | Raise _ => False
  end.
Proof.
  intros o es. destruct (apply_edits 0 es [o]) as [[u h']|e] eqn:E.
  - split; [split; reflexivity|].
    apply (edits_keep_distinct_reductions es [o] h' 0 o u); [reflexivity | reflexivity | exact E].
  - vm_compute in E. discriminate.
Defined.

(** X4.  On an AspyreDict whose stored keys have pairwise different
    reductions, after [del d[k1]] the lookup [d[k2]] returns [None] for every
    key [k2] with the same reduction as [k1]. *)
Theorem AspyreDict_delete_then_get
    (h : heap) (self : nat) (o : obj) (k1 k2 : string) :
  h !! self = Some o ->
  ocls o = AspyreDict ->
  distinct_reductions (odict o) = true ->
  normalize k1 = normalize k2 ->
  exists h', delitem self k1 h = Ok (tt, h') /\ getitem self k2 h' = Ok (VNone, h').
Proof.
  intros Hs Hc Hd Hk.
  assert (ocls o <> AspyreDictImmutable) as Hc' by (rewrite Hc; discriminate).
  assert (ocls o = AspyreDictHistory -> lower k1 <> "__history") as Hh
    by (rewrite Hc; discriminate).
  rewrite (delitem_mutable _ _ _ _ Hs Hc' Hh), (AspyreDict_delitem_ok _ _ _ _ Hs).
  destruct (scan_immutable (normalize k1) (keys (odict o))) as [fk|] eqn:E.
  - eexists. split; [reflexivity|].
    destruct (scan_immutable_found _ _ _ E) as [Hin Hfk].
    eapply getitem_unmatched; [eapply insert_lookup_same, Hs|]. cbn [odict].
    rewrite <- Hk, <- Hfk. now apply distinct_del_gone.
  - exists h. split; [reflexivity|].
    apply (getitem_unmatched _ _ _ _ Hs). rewrite <- Hk.
    now apply scan_immutable_some_iff.
Qed.

(** X4 at an AspyreDict that holds one header. *)
Lemma AspyreDict_delete_then_get_witness :
  let o := mkObj AspyreDict [("__history", VList []); ("Content-Type", VStr "text/html")] in
  ([o] !! 0 = Some o /\ ocls o = AspyreDict /\ distinct_reductions (odict o) = true
   /\ normalize "content_type" = normalize "CONTENT-TYPE")
  /\ exists h', delitem 0 "content_type" [o] = Ok (tt, h')
                /\ getitem 0 "CONTENT-TYPE" h' = Ok (VNone, h').
Proof.
  intros o. split; [repeat split; reflexivity|].
  apply (AspyreDict_delete_then_get [o] 0 o "content_type" "CONTENT-TYPE"); reflexivity.
Defined.

(** ** Keys in reduced form on a versioned context *)

Lemma sfilter_length (p : ascii -> bool) (s : string) :
  String.length (sfilter p s) <= String.length s.
Proof.
  induction s as [|c s IH]; simpl; [lia|]. destruct (p c); simpl; lia.
Qed.

Lemma smap_length (f : ascii -> ascii) (s : string) :
  String.length (smap f s) = String.length s.
Proof. induction s as [|c s IH]; simpl; congruence. Qed.

(** A key that is its own reduction starts with a lowercase letter. *)
Lemma reduced_head (c : ascii) (k : string) :
  normalize (String c k) = String c k ->
  in_ascii_lowercase (lower_char c) = true /\ lower_char c = c /\ normalize k = k.
Proof.
  unfold normalize, lower. cbn [smap sfilter].
  destruct (in_ascii_lowercase (lower_char c)) eqn:E.
  - intros [= Hc Hk]. auto.
  - intros H. exfalso.
    pose proof (sfilter_length in_ascii_lowercase (smap lower_char k)) as Hl.
    rewrite H, smap_length in Hl. simpl in Hl. lia.
Qed.

Lemma reduced_lower (k : string) : normalize k = k -> lower k = k.
Proof.
  induction k as [|c k IH]; [reflexivity|].
  intros H. destruct (reduced_head _ _ H) as (_ & Hc & Hk).
  unfold lower in *. cbn [smap]. now rewrite Hc, IH.
Qed.

Lemma reduced_not_history_slot (k : string) : normalize k = k -> k <> "__history".
Proof.
  intros H ->. destruct (reduced_head _ _ H) as (Hc & _). vm_compute in Hc. discriminate.
Qed.


Lemma scan_history_in (k : string) (ks : list string) :
  In k ks -> k <> "__history" -> scan_history k ks = Some k.
Proof.
  intros Hin Hk. induction ks as [|a ks IH]; simpl; [contradiction|].
  destruct (String.eqb a "__history") eqn:Ea.
  - apply String.eqb_eq in Ea. destruct Hin as [->|Hin]; [congruence | auto].
  - destruct (String.eqb k a) eqn:E.
    + apply String.eqb_eq in E. now subst.
    + destruct Hin as [->|Hin]; [rewrite String.eqb_refl in E; discriminate | auto].
Qed.

Lemma in_keys_set (d : pydict) (k : string) (v : value) : In k (keys (dict_set d k v)).
Proof.
  induction d as [|[a b] d IH]; simpl; [now left|].
  destruct (String.eqb a k) eqn:E; simpl; [|now right].
  apply String.eqb_eq in E. now left.
Qed.

(** On a context whose stored keys are in reduced form, a key in reduced
    form other than [history] is its own slot. *)
Lemma slot_of_reduced (d : pydict) (k : string) :
  reduced_keys d = true -> normalize k = k -> k <> "history" -> slot d k = k.
Proof.
  intros Hr Hk Hh. unfold slot, AspyreDictImmutable_find_key.
  destruct (scan_immutable (normalize k) (keys d)) as [fk|] eqn:E; [|reflexivity].
  cbn [snd]. destruct (scan_immutable_found _ _ _ E) as [Hin Hfk].
  unfold reduced_keys in Hr. rewrite forallb_forall in Hr. specialize (Hr fk Hin).
  apply orb_true_iff in Hr as [Hr|Hr]; apply String.eqb_eq in Hr.
  - subst fk. exfalso. apply Hh. rewrite <- Hk, <- Hfk. reflexivity.
  - congruence.
Qed.

(** X5.  On a versioned context whose stored keys are the history slot and
    keys made of lowercase letters only, a value stored under a key made of
    lowercase letters only, other than [history], is read back under that
    key. *)
Theorem history_reduced_key_round_trip
    (h : heap) (self : nat) (o : obj) (k : string) (v : value) :
  h !! self = Some o ->
  ocls o = AspyreDictHistory ->
  reduced_keys (odict o) = true ->
  normalize k = k ->
  k <> "history" ->
  (forall m, v <> VDict m) ->
  exists h', setitem self k v h = Ok (tt, h') /\ getitem self k h' = Ok (v, h').
Proof.
  intros Hs Hc Hr Hk Hh Hv.
  assert (lower k <> "__history") as Hl
    by (rewrite (reduced_lower _ Hk); now apply reduced_not_history_slot).
  assert (ocls o <> AspyreDictImmutable) as Hc' by (rewrite Hc; discriminate).
  rewrite (setitem_mutable _ _ _ _ _ Hs Hc' (fun _ => Hl)).
  destruct (AspyreDict_setitem_ok h self o k v Hs) as (v' & h0 & Heq & _ & _ & Hp & _).
  destruct (Hp Hv) as [-> ->]. rewrite Heq, (slot_of_reduced _ _ Hr Hk Hh), Hc.
  eexists. split; [reflexivity|].
  remember (mkObj AspyreDictHistory (dict_set (odict o) k v)) as o' eqn:Ho'.
  assert (<[self := o']> h !! self = Some o') as Hs' by (eapply insert_lookup_same, Hs).
  assert (ocls o' = AspyreDictHistory) as Hc1 by now subst o'.
  assert (odict o' = dict_set (odict o) k v) as Hd1 by now subst o'.
  clear Ho'.
  unfold getitem, bind. rewrite (class_of_ok _ _ _ Hs'), Hc1.
  unfold AspyreDictHistory_getitem.
  destruct (String.eqb (lower k) "__history") eqn:E;
    [apply String.eqb_eq in E; congruence|].
  unfold AspyreDictImmutable_getitem, bind.
  rewrite (class_of_ok _ _ _ Hs'), (get_dict_ok _ _ _ Hs'), Hc1, Hd1.
  unfold class_find_key, AspyreDictHistory_find_key. rewrite Hk.
  rewrite (scan_history_in k _ (in_keys_set _ _ _) (reduced_not_history_slot _ Hk)).
  apply (fetch_ok _ _ _ _ _ Hs'). rewrite Hd1. apply dict_get_set_same.
Qed.

(** X5 at a new versioned context. *)
Lemma history_reduced_key_round_trip_witness :
  let o := mkObj AspyreDictHistory [("__history", VList [VRef 0])] in
  ([o] !! 0 = Some o /\ ocls o = AspyreDictHistory /\ reduced_keys (odict o) = true
   /\ normalize "error" = "error" /\ "error" <> "history"
   /\ forall m, VInt 403 <> VDict m)
  /\ exists h', setitem 0 "error" (VInt 403) [o] = Ok (tt, h')
                /\ getitem 0 "error" h' = Ok (VInt 403, h').
Proof.
  intros o.
  assert ("error" <> "history") as Hh by discriminate.
  assert (forall m, VInt 403 <> VDict m) as Hv by discriminate.
  split; [repeat split; try reflexivity; [exact Hh | exact Hv]|].
  apply (history_reduced_key_round_trip [o] 0 o "error" (VInt 403));
    try reflexivity; [exact Hh | exact Hv].
Defined.

(** ** The reserved slot *)

(** X6.  The guard of the reserved slot tests the lowercased key only.  A key
    that merely has the reduction [history], such as [history] itself, passes
    the guard and is resolved to the stored key [__history]: assigning a
    number under it replaces the history list, after which the version count,
    [save()] and [rollback()] all fail. *)
Theorem history_slot_can_be_overwritten
    (h : heap) (self : nat) (o : obj) (key : string) (n : Z) :
  h !! self = Some o ->
  ocls o = AspyreDictHistory ->
  scan_immutable "history" (keys (odict o)) = Some "__history" ->
  normalize key = "history" ->
  lower key <> "__history" ->
  exists h',
    setitem self key (VInt n) h = Ok (tt, h')
    /\ fetch self "__history" h' = Ok (VInt n, h')
    /\ get_current_version self h' = Raise TypeError
    /\ save self h' = Raise (AttributeError "append")
    /\ rollback self (-1) h' = Raise TypeError.
Proof.
  intros Hs Hc Hscan Hk Hl.
  assert (ocls o <> AspyreDictImmutable) as Hc' by (rewrite Hc; discriminate).
  rewrite (setitem_mutable _ _ _ _ _ Hs Hc' (fun _ => Hl)).
  destruct (AspyreDict_setitem_ok h self o key (VInt n) Hs)
    as (v' & h0 & Heq & _ & _ & Hp & _).
  destruct (Hp ltac:(discriminate)) as [-> ->]. rewrite Heq.
  assert (slot (odict o) key = "__history") as Hslot
    by (unfold slot, AspyreDictImmutable_find_key; now rewrite Hk, Hscan).
  rewrite Hslot. eexists. split; [reflexivity|].
  set (o' := mkObj (ocls o) (dict_set (odict o) "__history" (VInt n))).
  assert (<[self := o']> h !! self = Some o') as Hs' by (eapply insert_lookup_same, Hs).
  assert (fetch self "__history" (<[self := o']> h) = Ok (VInt n, <[self := o']> h)) as Hf
    by (apply (fetch_ok _ _ _ _ _ Hs'); apply dict_get_set_same).
  split; [exact Hf|].
  split; [unfold get_current_version, bind; now rewrite Hf|].
  split; [unfold save, bind; now rewrite Hf|].
  unfold rollback, bind. now rewrite Hf.
Qed.

(** X6 at a new versioned context and the key [history]. *)
Lemma history_slot_can_be_overwritten_witness :
  let o := mkObj AspyreDictHistory [("__history", VList [VRef 0]); ("user", VStr "ann")] in
  ([o] !! 0 = Some o /\ ocls o = AspyreDictHistory
   /\ scan_immutable "history" (keys (odict o)) = Some "__history"
   /\ normalize "history" = "history" /\ lower "history" <> "__history")
  /\ exists h',
    setitem 0 "history" (VInt 5) [o] = Ok (tt, h')
    /\ fetch 0 "__history" h' = Ok (VInt 5, h')
    /\ get_current_version 0 h' = Raise TypeError
    /\ save 0 h' = Raise (AttributeError "append")
    /\ rollback 0 (-1) h' = Raise TypeError.
Proof.
  intros o.
  assert (lower "history" <> "__history") as Hl by (vm_compute; discriminate).
  split; [repeat split; try reflexivity; exact Hl|].
  apply (history_slot_can_be_overwritten [o] 0 o "history" 5); try reflexivity.
  exact Hl.
Defined.

(** ** Undoing *)

(** X7.  [rollback()] on a context whose last history entry is the context
    itself removes all its entries: the context is left with its history
    slot only, and the history is the one it had. *)
Theorem rollback_to_itself_empties
    (h : heap) (self : nat) (o : obj) (l : list value) :
  h !! self = Some o ->
  dict_get (odict o) "__history" = Some (VList (l ++ [VRef self])) ->
  rollback self (-1) h
  = Ok (tt, <[self := mkObj (ocls o) [("__history", VList (l ++ [VRef self]))]]> h).
Proof.
  intros Hs Hh. unfold rollback.
  unfold bind at 1. rewrite (fetch_ok _ _ _ _ _ Hs Hh). cbv beta iota.
  unfold bind at 1. unfold subscript, lift. rewrite py_index_last. cbv beta iota.
  unfold bind at 1. rewrite (fetch_ok _ _ _ _ _ Hs Hh). cbv beta iota.
  unfold bind at 1. rewrite (get_dict_ok _ _ _ Hs). cbv beta iota.
  unfold bind at 1. rewrite (put_dict_ok _ _ _ _ Hs). cbv beta iota.
  pose proof (insert_lookup_same h self (mkObj (ocls o) (dict_del (odict o) "__history")) o Hs)
    as Hs1.
  unfold bind at 1. rewrite (put_dict_ok _ _ _ _ Hs1). cbv beta iota. cbn [ocls].
  pose proof (insert_lookup_same _ self (mkObj (ocls o) []) _ Hs1) as Hs2.
  unfold bind at 1. rewrite (get_dict_ok _ _ _ Hs2). cbv beta iota.
  unfold bind at 1. rewrite (get_dict_ok _ _ _ Hs2). cbv beta iota.
  unfold bind at 1. rewrite (put_dict_ok _ _ _ _ Hs2). cbv beta iota. cbn [ocls odict].
  pose proof (insert_lookup_same _ self (mkObj (ocls o) (dict_update [] [])) _ Hs2) as Hs3.
  unfold bind at 1. unfold py_list, ret. cbv beta iota.
  rewrite (store_ok _ _ _ _ _ Hs3). cbn [odict ocls].
  rewrite !list_insert_insert_eq. reflexivity.
Qed.

(** X7 at a new context that holds two entries. *)
Lemma rollback_to_itself_empties_witness :
  let o := mkObj AspyreDictHistory
             [("__history", VList [VRef 0]); ("user", VStr "ann"); ("http_code", VInt 200)] in
  ([o] !! 0 = Some o
   /\ dict_get (odict o) "__history" = Some (VList ([] ++ [VRef 0])))
  /\ rollback 0 (-1) [o]
     = Ok (tt, [mkObj AspyreDictHistory [("__history", VList [VRef 0])]]).
Proof.
  intros o. split; [split; reflexivity|].
  apply (rollback_to_itself_empties [o] 0 o []); reflexivity.
Defined.







(** ** Nested dicts and copies *)

(** X9.  Assigning a plain dict on a mutable mapping stores a new instance of
    the mapping's own class built from the dict; on a versioned context the
    new instance is a versioned context with a history of its own. *)
Theorem assigned_dict_is_wrapped
    (h : heap) (self : nat) (o : obj) (key : string) (m : pydict) :
  h !! self = Some o ->
  ocls o <> AspyreDictImmutable ->
  (ocls o = AspyreDictHistory -> lower key <> "__history") ->
  exists h',
    setitem self key (VDict m) h = Ok (tt, h')
    /\ h !! length h = None
    /\ h' !! length h
       = Some (mkObj (ocls o)
                 (match ocls o with
                  | AspyreDictHistory =>
                      dict_set (dict_update [] m) "__history" (VList [VRef (length h)])
                  | _ => dict_update [] m
                  end))
    /\ fetch self (slot (odict o) key) h' = Ok (VRef (length h), h').
Proof.
  intros Hs Hc Hk.
  rewrite (setitem_mutable _ _ _ _ _ Hs Hc Hk).
  destruct (AspyreDict_setitem_ok h self o key (VDict m) Hs)
    as (v' & h0 & Heq & Hs0 & _ & _ & Hd).
  destruct (Hd m eq_refl) as [-> ->]. rewrite Heq.
  eexists. split; [reflexivity|].
  split; [apply lookup_ge_None; lia|].
  split.
  - rewrite list_lookup_insert_ne by (apply lookup_lt_Some in Hs; lia).
    apply snoc_lookup_new.
  - eapply fetch_ok; [eapply insert_lookup_same, Hs0|].
    cbn [odict]. apply dict_get_set_same.
Qed.

(** X9 at a new versioned context. *)
Lemma assigned_dict_is_wrapped_witness :
  let o := mkObj AspyreDictHistory [("__history", VList [VRef 0])] in
  let m := [("City", VStr "Oslo")] in
  ([o] !! 0 = Some o /\ ocls o <> AspyreDictImmutable
   /\ (ocls o = AspyreDictHistory -> lower "address" <> "__history"))
  /\ exists h',
    setitem 0 "address" (VDict m) [o] = Ok (tt, h')
    /\ [o] !! 1 = None
    /\ h' !! 1
       = Some (mkObj AspyreDictHistory [("City", VStr "Oslo"); ("__history", VList [VRef 1])])
    /\ fetch 0 "address" h' = Ok (VRef 1, h').
Proof.
  intros o m.
  assert (ocls o <> AspyreDictImmutable) as Hc by discriminate.
  assert (ocls o = AspyreDictHistory -> lower "address" <> "__history") as Hk
    by (intros _; vm_compute; discriminate).
  split; [repeat split; [exact Hc | exact Hk]|].
  apply (assigned_dict_is_wrapped [o] 0 o "address" m); [reflexivity | exact Hc | exact Hk].
Defined.

Lemma dict_get_none_absent (d : pydict) (k : string) :
  dict_get d k = None -> existsb (String.eqb k) (keys d) = false.
Proof.
  induction d as [|[a b] d IH]; simpl; [reflexivity|].
  rewrite (String.eqb_sym k a). destruct (String.eqb a k); [discriminate | auto].
Qed.

(** [c(self)] for a class other than the versioned one. *)
Lemma new_copy (h : heap) (self : nat) (o : obj) (c : cls) :
  h !! self = Some o ->
  c <> AspyreDictHistory ->
  unique_keys (odict o) = true ->
  new c (VRef self) h = Ok (length h, h ++ [mkObj c (state_of (odict o))]).
Proof.
  intros Hs Hc Hu.
  assert (AspyreDictImmutable_init (length h) (VRef self) (h ++ [mkObj c []])
          = Ok (tt, h ++ [mkObj c (state_of (odict o))])) as Hinit.
  { unfold AspyreDictImmutable_init.
    pose proof (snoc_lookup_old h (mkObj c []) o self Hs) as Hs1.
    pose proof (snoc_lookup_new h (mkObj c [])) as Hn1.
    unfold bind.
    rewrite (get_dict_ok _ _ _ Hs1). cbv beta iota.
    rewrite (get_dict_ok _ _ _ Hn1). cbv beta iota.
    rewrite (put_dict_ok _ _ _ _ Hn1). cbv beta iota.
    rewrite snoc_insert_new. cbn [odict ocls]. rewrite (dict_update_empty _ Hu).
    rewrite (get_dict_ok _ _ _ (snoc_lookup_new h _)). cbv beta iota. cbn [odict].
    unfold dict_has. destruct (dict_get (odict o) "__history") eqn:Hh.
    - rewrite (put_dict_ok _ _ _ _ (snoc_lookup_new h _)), snoc_insert_new.
      cbn [ocls]. now rewrite (state_of_is_del _ Hu).
    - unfold ret. now rewrite (state_of_absent _ (dict_get_none_absent _ _ Hh)). }
  unfold new. unfold bind at 1. unfold alloc. cbv beta iota.
  destruct c; [| |congruence]; unfold bind; now rewrite Hinit.
Qed.

(** X10.  Building a read-only or a plain mutable mapping from an existing
    instance (of any of the three classes) gives a new instance with the
    source's entries outside the history slot, in the same order, and with no
    history slot; the source is left as it is. *)
Theorem copy_drops_history_slot (h : heap) (self : nat) (o : obj) (c : cls) :
  h !! self = Some o ->
  c <> AspyreDictHistory ->
  unique_keys (odict o) = true ->
  exists (r : nat) (h' : heap) (copy : obj),
    new c (VRef self) h = Ok (r, h')
    /\ h !! r = None
    /\ h' !! r = Some copy
    /\ ocls copy = c
    /\ odict copy = state_of (odict o)
    /\ dict_get (odict copy) "__history" = None
    /\ h' !! self = Some o.
Proof.
  intros Hs Hc Hu. rewrite (new_copy _ _ _ _ Hs Hc Hu).
  eexists _, _, _. split; [reflexivity|].
  split; [apply lookup_ge_None; lia|].
  split; [apply snoc_lookup_new|].
  split; [reflexivity|]. split; [reflexivity|].
  split; [|now apply snoc_lookup_old].
  cbn [odict]. apply dict_get_absent. now apply state_of_unique.
Qed.

(** X10 at a versioned context with one entry, copied as a plain mapping. *)
Lemma copy_drops_history_slot_witness :
  let o := mkObj AspyreDictHistory [("__history", VList [VRef 0]); ("user", VStr "ann")] in
  ([o] !! 0 = Some o /\ AspyreDict <> AspyreDictHistory /\ unique_keys (odict o) = true)
  /\ exists (r : nat) (h' : heap) (copy : obj),
    new AspyreDict (VRef 0) [o] = Ok (r, h')
    /\ [o] !! r = None
    /\ h' !! r = Some copy
    /\ ocls copy = AspyreDict
    /\ odict copy = state_of (odict o)
    /\ dict_get (odict copy) "__history" = None
    /\ h' !! 0 = Some o.
Proof.
  intros o.
  assert (AspyreDict <> AspyreDictHistory) as Hc by discriminate.
  split; [repeat split; exact Hc|].
  apply (copy_drops_history_slot [o] 0 o AspyreDict); [reflexivity | exact Hc | reflexivity].
Defined.

(** ** Differences and sums *)

Lemma in_keys_without (k x : string) (d : pydict) :
  In x (keys (without k d)) <-> In x (keys d) /\ x <> k.
Proof.
  unfold without, keys. induction d as [|[a b] d IH]; simpl; [tauto|].
  destruct (String.eqb a k) eqn:E; simpl.
  - apply String.eqb_eq in E. subst a. rewrite IH. split; [tauto|].
    intros [[->|H] Hx]; [congruence | tauto].
  - apply String.eqb_neq in E. rewrite IH. split; [|tauto].
    intros [->|H]; [tauto|tauto].
Qed.

Lemma contains_copy (h : heap) (c : cls) (d : pydict) (key : string) :
  c <> AspyreDictHistory ->
  contains (length h) key (h ++ [mkObj c d])
  = Ok (match scan_immutable (normalize key) (keys d) with
        | Some _ => true
        | None => false
        end, h ++ [mkObj c d]).
Proof.
  intros Hc. unfold contains, bind.
  rewrite (class_of_ok _ _ _ (snoc_lookup_new h _)),
          (get_dict_ok _ _ _ (snoc_lookup_new h _)). cbn [ocls odict].
  unfold ret, class_find_key, AspyreDictImmutable_find_key.
  destruct c; [| |congruence];
    now destruct (scan_immutable (normalize key) (keys d)).
Qed.



(** X12.  On a read-only or plain mutable mapping, [d - key] for a stored key
    other than the history slot returns a new instance with the source's
    entries outside the history slot, less the entry of [key], and leaves the
    source as it is. *)
Theorem sub_stored_key
    (h : heap) (self : nat) (o : obj) (key : string) :
  h !! self = Some o ->
  ocls o <> AspyreDictHistory ->
  unique_keys (odict o) = true ->
  In key (keys (odict o)) ->
  key <> "__history" ->
  sub self (VStr key) h
  = Ok (length h, h ++ [mkObj (ocls o) (dict_del (state_of (odict o)) key)]).
Proof.
  intros Hs Hc Hu Hin Hkey.
  assert (In key (keys (state_of (odict o)))) as Hin'
    by (apply in_keys_without; auto).
  unfold sub.
  unfold bind at 1. rewrite (class_of_ok _ _ _ Hs). cbv beta iota.
  unfold bind at 1. rewrite (new_copy _ _ _ _ Hs Hc Hu). cbv beta iota.
  unfold bind at 1. unfold bind at 1. rewrite (contains_copy _ _ _ _ Hc). cbv beta iota.
  destruct (scan_immutable (normalize key) (keys (state_of (odict o)))) eqn:E.
  - unfold bind at 1.
    rewrite (get_dict_ok _ _ _ (snoc_lookup_new h _)). cbv beta iota. cbn [odict].
    destruct (dict_get_in_keys _ _ Hin') as [v ->].
    rewrite (put_dict_ok _ _ _ _ (snoc_lookup_new h _)), snoc_insert_new.
    reflexivity.
  - exfalso. rewrite scan_immutable_some_iff in E. now apply (E key).
Qed.

(** X12 at a mapping with two entries. *)
Lemma sub_stored_key_witness :
  let o := mkObj AspyreDict [("User-Agent", VStr "curl"); ("host", VStr "a.org")] in
  ([o] !! 0 = Some o /\ ocls o <> AspyreDictHistory /\ unique_keys (odict o) = true
   /\ In "User-Agent" (keys (odict o)) /\ "User-Agent" <> "__history")
  /\ sub 0 (VStr "User-Agent") [o]
     = Ok (1, [o; mkObj AspyreDict [("host", VStr "a.org")]]).
Proof.
  intros o.
  assert (ocls o <> AspyreDictHistory) as Hc by discriminate.
  assert (In "User-Agent" (keys (odict o))) as Hin by (left; reflexivity).
  assert ("User-Agent" <> "__history") as Hck by discriminate.
  split; [repeat split; try reflexivity; assumption|].
  apply (sub_stored_key [o] 0 o "User-Agent"); try reflexivity; assumption.
Defined.



(** X14.  On a read-only mapping, [d + m] for a dict [m] returns a copy of
    [d] when [m] is empty and raises TypeError when [m] has an entry: the
    copy is of the read-only class, and the entries of [m] are assigned to
    it one by one. *)
Theorem add_on_read_only
    (h : heap) (self : nat) (o : obj) (m : pydict) :
  h !! self = Some o ->
  ocls o = AspyreDictImmutable ->
  unique_keys (odict o) = true ->
  add self (VDict m) h
  = match m with
    | [] => Ok (length h, h ++ [mkObj AspyreDictImmutable (state_of (odict o))])
    | _ :: _ => Raise TypeError
    end.
Proof.
  intros Hs Hc Hu. unfold add.
  unfold bind at 1. rewrite (class_of_ok _ _ _ Hs), Hc. cbv beta iota.
  unfold bind at 1.
  rewrite (new_copy h self o AspyreDictImmutable Hs ltac:(discriminate) Hu). cbv beta iota.
  destruct m as [|[k v] m]; [reflexivity|].
  unfold bind at 1. unfold update. cbn [assign_all]. unfold bind at 1.
  unfold setitem. unfold bind at 1.
  rewrite (class_of_ok _ _ _ (snoc_lookup_new h _)). reflexivity.
Qed.

(** X14 at a read-only mapping with one entry. *)
Lemma add_on_read_only_witness :
  let o := mkObj AspyreDictImmutable [("user", VStr "ann")] in
  ([o] !! 0 = Some o /\ ocls o = AspyreDictImmutable /\ unique_keys (odict o) = true)
  /\ add 0 (VDict [("a", VInt 1)]) [o] = Raise TypeError.
Proof.
  intros o. split; [repeat split|].
  apply (add_on_read_only [o] 0 o [("a", VInt 1)]); reflexivity.
Defined.

(** ** What save() appends *)


(** ** Construction *)

Lemma unique_keys_set (d : pydict) (k : string) (v : value) :
  unique_keys d = true -> unique_keys (dict_set d k v) = true.
Proof.
  intros Hu. unfold unique_keys in *.
  destruct (existsb (String.eqb k) (keys d)) eqn:E.
  - apply existsb_eqb_in in E. now rewrite (keys_set_present _ _ _ E).
  - pose proof E as E'. apply existsb_eqb_not_in in E'.
    rewrite (keys_set_absent _ _ _ E'). now apply unique_snoc.
Qed.

Lemma unique_keys_update (src : pydict) :
  forall d, unique_keys d = true -> unique_keys (dict_update d src) = true.
Proof.
  unfold dict_update. induction src as [|[k v] src IH]; intros d Hu; [exact Hu|].
  cbn [fold_left fst snd]. apply IH. now apply unique_keys_set.
Qed.

(** [AspyreDictHistory(src)] for an instance of one of the two other classes. *)
Lemma new_history_from_plain (h : heap) (src : nat) (o : obj) :
  h !! src = Some o ->
  ocls o <> AspyreDictHistory ->
  unique_keys (odict o) = true ->
  new AspyreDictHistory (VRef src) h
  = Ok (length h,
        h ++ [mkObj AspyreDictHistory
                (state_of (odict o) ++ [("__history", VList [VRef (length h)])])]).
Proof.
  intros Hs Hc Hu.
  assert (AspyreDictImmutable_init (length h) (VRef src) (h ++ [mkObj AspyreDictHistory []])
          = Ok (tt, h ++ [mkObj AspyreDictHistory (state_of (odict o))])) as Hinit.
  { unfold AspyreDictImmutable_init.
    pose proof (snoc_lookup_old h (mkObj AspyreDictHistory []) o src Hs) as Hs1.
    pose proof (snoc_lookup_new h (mkObj AspyreDictHistory [])) as Hn1.
    unfold bind.
    rewrite (get_dict_ok _ _ _ Hs1). cbv beta iota.
    rewrite (get_dict_ok _ _ _ Hn1). cbv beta iota.
    rewrite (put_dict_ok _ _ _ _ Hn1). cbv beta iota.
    rewrite snoc_insert_new. cbn [odict ocls]. rewrite (dict_update_empty _ Hu).
    rewrite (get_dict_ok _ _ _ (snoc_lookup_new h _)). cbv beta iota. cbn [odict].
    unfold dict_has. destruct (dict_get (odict o) "__history") eqn:Hh.
    - rewrite (put_dict_ok _ _ _ _ (snoc_lookup_new h _)), snoc_insert_new.
      cbn [ocls]. now rewrite (state_of_is_del _ Hu).
    - unfold ret. now rewrite (state_of_absent _ (dict_get_none_absent _ _ Hh)). }
  unfold new. unfold bind at 1. unfold alloc. cbv beta iota.
  unfold bind at 1. unfold AspyreDictHistory_init. unfold bind at 1.
  rewrite Hinit. cbv beta iota.
  unfold bind at 1.
  rewrite (class_of_ok _ _ _ (snoc_lookup_old h _ o src Hs)). cbv beta iota.
  destruct (state_of_unique _ Hu) as [Habs _].
  assert (store (length h) "__history" (VList [VRef (length h)])
            (h ++ [mkObj AspyreDictHistory (state_of (odict o))])
          = Ok (tt, h ++ [mkObj AspyreDictHistory
                            (state_of (odict o) ++ [("__history", VList [VRef (length h)])])]))
    as Hstore.
  { rewrite (store_ok _ _ _ _ _ (snoc_lookup_new h _)), snoc_insert_new.
    cbn [ocls odict]. now rewrite (dict_set_absent _ _ _ Habs). }
  destruct (ocls o); [| |congruence]; now rewrite Hstore.
Qed.

(** The counts of a context that has just been built with the history [l]. *)
Lemma counts_from (h0 : heap) (self : nat) (o0 : obj) (l : list value) (n : nat) :
  h0 !! self = Some o0 ->
  ocls o0 = AspyreDictHistory ->
  unique_keys (odict o0) = true ->
  dict_get (odict o0) "__history" = Some (VList l) ->
  exists hn : heap,
    fetch self "__history" h0 = Ok (VList l, h0)
    /\ get_current_version self h0 = Ok (Z.of_nat (length l), h0)
    /\ save_times n self h0
       = Ok (map (fun k => Z.of_nat (length l) + Z.of_nat k + 1)%Z (seq 0 n), hn)
    /\ nth_error (map (fun k => Z.of_nat (length l) + Z.of_nat k + 1)%Z (seq 0 n)) (n - 1)
       = (if n is O then None else Some (Z.of_nat (length l) + Z.of_nat n)%Z)
    /\ get_current_version self hn = Ok ((Z.of_nat (length l) + Z.of_nat n)%Z, hn).
Proof.
  intros Hs Hc Hu Hh.
  destruct (save_times_ok n h0 self o0 l Hs Hc Hu Hh)
    as (hn & on & ln & Hrun & Hsn & Hcn & Hun & Hhn & Hlen).
  exists hn.
  split. { exact (fetch_ok _ _ _ _ _ Hs Hh). }
  split. { unfold get_current_version, bind. now rewrite (fetch_ok _ _ _ _ _ Hs Hh). }
  split. { exact Hrun. }
  split.
  { destruct n as [|n]; [reflexivity|].
    rewrite nth_error_map, nth_error_seq.
    replace (S n - 1 <? S n)%nat with true by (symmetry; apply Nat.ltb_lt; lia).
    simpl. f_equal. lia. }
  unfold get_current_version, bind. rewrite (fetch_ok _ _ _ _ _ Hsn Hhn).
  unfold py_len, ret. rewrite Hlen. do 2 f_equal. lia.
Qed.

(** C10, as stated, fails: a versioned context built from a versioned
    context that was saved once starts with a copy of that context's history,
    which lists the source (address 0) and its saved copy (address 1) and not
    the new context (address 2); its version count is 2 before any [save()]
    of its own, and its first [save()] returns 3. *)
Lemma copy_of_saved_context_counts_two :
  result (let* a := new AspyreDictHistory VNone in
          let* v := save a in
          let* b := new AspyreDictHistory (VRef a) in
          let* history := fetch b "__history" in
          let* n := get_current_version b in
          let* m := save b in
          ret (a, v, b, history, n, m)) []
  = Ok (0, 2%Z, 2, VList [VRef 0; VRef 1], 2%Z, 3%Z).
Proof. vm_compute. reflexivity. Qed.

(** C10, amended.  A versioned context built with no argument, from a plain
    mapping, or from an instance of the read-only or of the plain mutable
    class has a history that lists the context itself, so its version count
    is 1 before any [save()], and after [n] calls of [save()] the count and
    the value the [n]-th call returned are both [n + 1].  A versioned context
    built from a versioned context starts with a copy of the history list
    of its source: with [c] entries in it, the count is [c] before any
    [save()], and after [n] calls of [save()] the count and the value the
    [n]-th call returned are both [c + n]. *)
Theorem constructed_context_version_counts (h : heap) (old_dict : value) (n : nat) :
  constructor_argument h old_dict ->
  exists (h0 hn : heap) (l : list value),
    new AspyreDictHistory old_dict h = Ok (length h, h0)
    /\ (if is_versioned h old_dict then history_of h old_dict = Some (VList l)
        else l = [VRef (length h)])
    /\ fetch (length h) "__history" h0 = Ok (VList l, h0)
    /\ get_current_version (length h) h0 = Ok (Z.of_nat (length l), h0)
    /\ save_times n (length h) h0
       = Ok (map (fun k => Z.of_nat (length l) + Z.of_nat k + 1)%Z (seq 0 n), hn)
    /\ nth_error (map (fun k => Z.of_nat (length l) + Z.of_nat k + 1)%Z (seq 0 n)) (n - 1)
       = (if n is O then None else Some (Z.of_nat (length l) + Z.of_nat n)%Z)
    /\ get_current_version (length h) hn = Ok ((Z.of_nat (length l) + Z.of_nat n)%Z, hn).
Proof.
  intros Harg.
  assert (exists (o0 : obj) (l : list value),
            new AspyreDictHistory old_dict h = Ok (length h, h ++ [o0])
            /\ (if is_versioned h old_dict then history_of h old_dict = Some (VList l)
                else l = [VRef (length h)])
            /\ ocls o0 = AspyreDictHistory
            /\ unique_keys (odict o0) = true
            /\ dict_get (odict o0) "__history" = Some (VList l))
    as (o0 & l & Hnew & Hl & Hc0 & Hu0 & Hh0).
  { destruct old_dict as [| | | | |m|src]; cbn [constructor_argument] in Harg;
      try contradiction.
    - eexists _, _. split; [apply new_context|]. repeat split; reflexivity.
    - eexists _, _. split; [apply new_from_dict|]. cbn [is_versioned ocls odict].
      split; [reflexivity|]. split; [reflexivity|].
      split; [|apply dict_get_set_same].
      apply unique_keys_set, unique_keys_update. reflexivity.
    - destruct Harg as (o & Hs & Hu & Hhist).
      destruct (state_of_unique _ Hu) as [Habs Hus].
      assert (forall v, unique_keys (state_of (odict o) ++ [("__history", v)]) = true)
        as Hsnoc.
      { intros v. unfold unique_keys, keys. rewrite map_app. cbn [map fst].
        now apply unique_snoc. }
      assert (forall v, dict_get (state_of (odict o) ++ [("__history", v)]) "__history"
                        = Some v) as Hget.
      { intros v. rewrite <- (dict_set_absent _ _ _ Habs). apply dict_get_set_same. }
      destruct (ocls o) eqn:Hc.
      + eexists _, _. split; [apply (new_history_from_plain _ _ _ Hs); congruence|].
        cbn [is_versioned]. rewrite Hs. destruct o as [c d]. cbn [ocls] in Hc. subst c.
        repeat split; [apply Hsnoc | apply Hget].
      + eexists _, _. split; [apply (new_history_from_plain _ _ _ Hs); congruence|].
        cbn [is_versioned]. rewrite Hs. destruct o as [c d]. cbn [ocls] in Hc. subst c.
        repeat split; [apply Hsnoc | apply Hget].
      + destruct (Hhist eq_refl) as [l0 Hl0].
        exists (mkObj AspyreDictHistory (state_of (odict o) ++ [("__history", VList l0)])), l0.
        split; [exact (new_snapshot _ _ _ _ Hs Hc Hu Hl0)|].
        cbn [is_versioned history_of]. rewrite Hs.
        destruct o as [c d]. cbn [ocls odict] in *. subst c.
        repeat split; [exact Hl0 | apply Hsnoc | apply Hget]. }
  destruct (counts_from (h ++ [o0]) (length h) o0 l n (snoc_lookup_new h o0) Hc0 Hu0 Hh0)
    as (hn & H1 & H2 & H3 & H4 & H5).
  exists (h ++ [o0]), hn, l. repeat split; assumption.
Qed.

(** C10, amended, at a context built from a plain mapping, saved three
    times. *)
Lemma constructed_context_version_counts_witness :
  let m := [("user", VStr "ann"); ("http_code", VInt 200)] in
  constructor_argument [] (VDict m)
  /\ exists (h0 hn : heap) (l : list value),
    new AspyreDictHistory (VDict m) [] = Ok (0, h0)
    /\ (if is_versioned [] (VDict m) then history_of [] (VDict m) = Some (VList l)
        else l = [VRef 0])
    /\ fetch 0 "__history" h0 = Ok (VList l, h0)
    /\ get_current_version 0 h0 = Ok (Z.of_nat (length l), h0)
    /\ save_times 3 0 h0
       = Ok (map (fun k => Z.of_nat (length l) + Z.of_nat k + 1)%Z (seq 0 3), hn)
    /\ nth_error (map (fun k => Z.of_nat (length l) + Z.of_nat k + 1)%Z (seq 0 3)) 2
       = Some (Z.of_nat (length l) + 3)%Z
    /\ get_current_version 0 hn = Ok ((Z.of_nat (length l) + 3)%Z, hn).
Proof.
  intros m. split; [exact I|].
  exact (constructed_context_version_counts [] (VDict m) 3 I).
Defined.

End DictionaryExtras.

(* ===================================================================== *)
(** * More on url_class.py *)
(* ===================================================================== *)
Module UrlClassExtras.
Import UrlClass Samples UrlClassFacts.

(** ** What find returns *)

(** X15.  Whenever [Regex.find] returns, the handlers it returns are those of
    the routes whose guard holds for the request, one entry per such route,
    in registration order; a handler registered under several matching
    routes is returned once per route. *)
Theorem find_returns_matching_routes_in_order
    (builtins : string -> option builtin) (self : Regex)
    (host path : option string) (out : list (handler * pydict)) :
  find builtins self host path = Ok out ->
  map fst out = map snd (List.filter (route_matches host path) (url_list self)).
Proof.
  intros H. unfold find in H.
  now rewrite (find_loop_handlers _ _ _ _ _ _ _ H).
Qed.

(** X15 at the registry that lists one handler under two templates. *)
Lemma find_returns_matching_routes_in_order_witness :
  find builtins_fragment one_handler_twice None (Some "items")
  = Ok [(A, []); (A, [("name", VStr "items")])]
  /\ map fst [(A, ([] : pydict)); (A, [("name", VStr "items")])]
     = map snd (List.filter (route_matches None (Some "items"))
                  (url_list one_handler_twice)).
Proof.
  assert (find builtins_fragment one_handler_twice None (Some "items")
          = Ok [(A, []); (A, [("name", VStr "items")])]) as H
    by (vm_compute; reflexivity).
  split; [exact H|].
  exact (find_returns_matching_routes_in_order builtins_fragment one_handler_twice
           None (Some "items") _ H).
Defined.

(** ** Typed arguments *)

Lemma split_scan_separator (cur name : string) :
  split_scan __separator__ 0 cur (__separator__ ++ name)
  = cur :: split_scan __separator__ 0 EmptyString name.
Proof.
  unfold __separator__. destruct name as [|c name]; reflexivity.
Qed.

Lemma append_empty (s : string) : (s ++ "")%string = s.
Proof.
  induction s as [|a s IH]; [reflexivity|]. exact (f_equal (String a) IH).
Qed.

Lemma append_snoc (cur : string) (c : ascii) (s : string) :
  ((cur ++ String c "") ++ s)%string = (cur ++ String c s)%string.
Proof.
  induction cur as [|a cur IH]; [reflexivity|]. exact (f_equal (String a) IH).
Qed.

Lemma split_scan_free (type rest cur : string) :
  free_of "0" type = true ->
  split_scan __separator__ 0 cur (type ++ rest)
  = split_scan __separator__ 0 (cur ++ type) rest.
Proof.
  revert cur. induction type as [|c type IH]; intros cur Hf.
  - now rewrite append_empty.
  - unfold free_of in Hf. cbn [list_ascii_of_string forallb] in Hf.
    apply andb_true_iff in Hf as [Hc Hf]. apply negb_true_iff in Hc.
    change (String c type ++ rest)%string with (String c (type ++ rest)).
    cbn [split_scan].
    replace (String.prefix __separator__ (String c (type ++ rest))) with false.
    2: { unfold __separator__. cbn [String.prefix].
         destruct (ascii_dec "0" c) as [<-|Hne]; [|reflexivity].
         rewrite Ascii.eqb_refl in Hc. discriminate. }
    now rewrite (IH _ Hf), append_snoc.
Qed.

Lemma separator_splits (type name : string) :
  free_of "0" type = true ->
  split __separator__ name = [name] ->
  split __separator__ (type ++ __separator__ ++ name) = [type; name].
Proof.
  intros Hf Hn. unfold split.
  rewrite (split_scan_free _ _ _ Hf), split_scan_separator.
  cbn [String.append]. f_equal. exact Hn.
Qed.

(** X16.  The group name that [Regex.group(type, name)] builds is taken
    apart by the [split] of [find] into the same type and name, provided the
    type has no character [0] and the name does not contain the separator. *)
Theorem group_key_splits (type name : string) :
  free_of "0" type = true ->
  split __separator__ name = [name] ->
  match group type name with
  | Seg key => split __separator__ key = [type; name]
  | Lit _ => False
  end.
Proof. intros Hf Hn. unfold group. now apply separator_splits. Qed.

(** X16 for the group [int:product_id]. *)
Lemma group_key_splits_witness :
  (free_of "0" "int" = true /\ split __separator__ "product_id" = ["product_id"])
  /\ match group "int" "product_id" with
     | Seg key => split __separator__ key = ["int"; "product_id"]
     | Lit _ => False
     end.
Proof.
  split; [split; reflexivity|].
  apply (group_key_splits "int" "product_id"); reflexivity.
Defined.





(** ** Registration *)

Section Registration.

Variable re_sub : string -> res string.
Variable re_compile : string -> res pattern.

(** X18.  A tuple url never registers a matcher: [add_route] either raises,
    registering nothing for it, or appends a route that has neither a host
    matcher nor a path matcher. *)
Theorem add_route_tuple_registers_no_matcher
    (cls : handler) (u0 u1 : value) (url_list : list route) :
  add_route_loop re_sub re_compile cls [UrlPair u0 u1] url_list
  = (url_list ++ [((None, None), cls)], None)
  \/ exists e,
       add_route_loop re_sub re_compile cls [UrlPair u0 u1] url_list = (url_list, Some e).
Proof.
  cbn [add_route_loop add_route_step].
  destruct (bad_item u0); [right; eauto|].
  destruct (bad_item u1); [right; eauto|].
  destruct u0 as [| | |[|c0 s0]| | |]; cbn [bind_res];
    try (destruct (re_sub (String c0 s0)); cbn [bind_res]; right; eauto);
    destruct u1 as [| | |[|c1 s1]| | |]; cbn [bind_res]; try (left; reflexivity);
    (destruct (Ascii.eqb c1 "/"); [destruct (re_sub s1)|]; cbn [bind_res]; right; eauto).
Qed.


Lemma add_route_step_no_host (u : url) (hp : option pattern * option pattern) :
  add_route_step re_sub re_compile u = Ok hp -> fst hp = None.
Proof.
  destruct u as [u0 u1|[|c s]|]; cbn [add_route_step]; try discriminate.
  - destruct (bad_item u0); [discriminate|]. destruct (bad_item u1); [discriminate|].
    destruct u0 as [| | |[|c0 s0]| | |]; cbn [bind_res];
      try (destruct (re_sub (String c0 s0)); cbn [bind_res]; discriminate);
      destruct u1 as [| | |[|c1 s1]| | |]; cbn [bind_res];
      try (intros [= <-]; reflexivity);
      (destruct (Ascii.eqb c1 "/"); [destruct (re_sub s1)|]; cbn [bind_res]; discriminate).
  - destruct (Ascii.eqb c "/"); [|discriminate].
    destruct (re_sub s) as [text|]; cbn [bind_res]; [|discriminate].
    destruct (re_compile text); cbn [bind_res]; [|discriminate].
    intros [= <-]. reflexivity.
Qed.

Lemma add_route_loop_no_host (cls : handler) (urls : list url) :
  forall l, no_host_matcher l ->
            no_host_matcher (fst (add_route_loop re_sub re_compile cls urls l)).
Proof.
  induction urls as [|u urls IH]; intros l Hl; cbn [add_route_loop]; [exact Hl|].
  destruct (add_route_step re_sub re_compile u) as [hp|e] eqn:E; [|exact Hl].
  apply IH. apply Forall_app. split; [exact Hl|].
  constructor; [|constructor]. cbn [fst]. exact (add_route_step_no_host _ _ E).
Qed.

Lemma registered_no_host (calls : list (handler * list url)) :
  forall self, no_host_matcher (url_list self) ->
               no_host_matcher (url_list (registered re_sub re_compile calls self)).
Proof.
  induction calls as [|[cls urls] calls IH]; intros self Hs; [exact Hs|].
  unfold registered. cbn [fold_left]. apply IH. unfold add_route. cbn [fst snd].
  pose proof (add_route_loop_no_host cls urls _ Hs) as H.
  destruct (add_route_loop re_sub re_compile cls urls (url_list self)). exact H.
Qed.

Lemma find_loop_without_host (builtins : string -> option builtin)
    (types : gmap string converter) (host host' path : option string)
    (urls : list route) :
  no_host_matcher urls ->
  forall handlers,
    find_loop builtins types host path urls handlers
    = find_loop builtins types host' path urls handlers.
Proof.
  induction 1 as [|[[hm pm] cls] urls Hu Hrest IH]; intros handlers; [reflexivity|].
  cbn [fst] in Hu. subst hm. cbn [find_loop].
  replace (find_step builtins types host path (None, pm, cls) handlers)
    with (find_step builtins types host' path (None, pm, cls) handlers) by reflexivity.
  destruct (find_step builtins types host' path (None, pm, cls) handlers);
    cbn [bind_res]; [apply IH | reflexivity].
Qed.

(** X19.  Whatever sequence of [add_route] calls builds a registry from a
    new [Regex], the answer of [find] does not depend on the host: no call
    can register a host matcher, so requests are routed on the path alone and
    a request without a host is answered like any other. *)
Theorem find_ignores_host_after_add_route
    (builtins : string -> option builtin)
    (types : option (gmap string converter))
    (calls : list (handler * list url)) (host host' path : option string) :
  find builtins (registered re_sub re_compile calls (Regex_init types)) host path
  = find builtins (registered re_sub re_compile calls (Regex_init types)) host' path.
Proof.
  unfold find. apply find_loop_without_host.
  apply registered_no_host. constructor.
Qed.

End Registration.

End UrlClassExtras.

(* ===================================================================== *)
(** * More on aspyre.py *)
(* ===================================================================== *)
Module CoreExtras.
Import UrlClass Core Samples CoreFacts.

(** X20 at the two sample handlers, which both match the path [items]. *)
Lemma find_stages_witness :
  let self := mkAspyre two_handlers json_codec None in
  let found := [(A, ([] : pydict)); (B, [("name", VStr "items")])] in
  (In "get" http_methods
   /\ UrlClass.find builtins_fragment (url_class self) None (Some "items") = Ok found
   /\ found <> []
   /\ (forall c args, In (c, args) found ->
                      has_callable c ("after_" ++ "get")%string = true ->
                      getattr c "get" <> None))
  /\ find builtins_fragment self None (Some "items") "get"
     = Ok (Some [ ("before", collect "before" "before" found);
                  ("before_get", collect "before_get" "before_get" found);
                  ("get", collect "get" "get" found);
                  ("after_get", rev (collect "after_get" "get" found));
                  ("after", rev (collect "after" "after" found)) ]).
Proof.
  intros self found.
  assert (In "get" http_methods) as Hin by (left; reflexivity).
  assert (UrlClass.find builtins_fragment (url_class self) None (Some "items") = Ok found)
    as Hfind by (vm_compute; reflexivity).
  assert (found <> []) as Hne by discriminate.
  assert (forall c args, In (c, args) found ->
                         has_callable c ("after_" ++ "get")%string = true ->
                         getattr c "get" <> None) as Hm.
  { intros c args [H|[H|[]]] _; injection H as <- _; discriminate. }
  split; [repeat split; assumption|].
  exact (find_stages builtins_fragment self None (Some "items") "get" found
           Hin Hfind Hne Hm).
Defined.

(** X21 at an application whose [dict_class] was set from outside, and a chain
    of one hook that returns. *)
Lemma handle_never_returns_encoded_error_witness :
  let self := mkAspyre two_handlers json_codec (Some AspyreDictHistory) in
  let chain := Some [("get", [(mkBound 0 "get" (Callable quiet), ([] : pydict))])] in
  match handle (fun _ => VNone) self chain VNone VNone None [] with
  | Ok (out, _) => exists body context, out = EncodedWithContext body context
  | Raise _ => False
  end.
Proof.
  intros self chain.
  destruct (handle (fun _ => VNone) self chain VNone VNone None []) as [[out h']|e] eqn:E.
  - exact (handle_never_returns_encoded_error (fun _ => VNone) self chain
             VNone VNone None [] h' out E).
  - vm_compute in E. discriminate.
Defined.

(** ** Applications built by the constructor *)

Lemma Aspyre_init_dict_class (u : option Regex) (c : option Codec) (d : option cls)
    (self : Aspyre) :
  Aspyre_init u c d = Ok self -> dict_class self = None.
Proof.
  unfold Aspyre_init. destruct u; [|discriminate]. destruct c; [|discriminate].
  now intros [= <-].
Qed.

Lemma handle_without_dict_class (parse_qs : string -> value) (self : Aspyre)
    (handlers : option stages) (input headers : value) (query_string : option string)
    (h : heap) :
  dict_class self = None ->
  handle parse_qs self handlers input headers query_string h
  = Raise (if truthy handlers then AttributeError "dict_class"
           else UnboundLocalError "error").
Proof.
  intros Hd. unfold handle. destruct (truthy handlers); [|reflexivity].
  cbn [negb]. unfold bind, construct. now rewrite Hd.
Qed.

(** X22.  The constructor accepts [dict_class] and does not store it, so on
    an application built by the constructor [handle] never returns: it ends
    in the AttributeError for [dict_class] when it is given a chain, and in
    the UnboundLocalError for its local name [error] when it is given none. *)
Theorem handle_on_constructed_application_raises
    (parse_qs : string -> value) (u : option Regex) (c : option Codec) (d : option cls)
    (self : Aspyre) (handlers : option stages) (input headers : value)
    (query_string : option string) (h : heap) :
  Aspyre_init u c d = Ok self ->
  handle parse_qs self handlers input headers query_string h
  = Raise (if truthy handlers then AttributeError "dict_class"
           else UnboundLocalError "error").
Proof.
  intros Hi. apply handle_without_dict_class. exact (Aspyre_init_dict_class _ _ _ _ Hi).
Qed.

(** X22 at an application built with [dict_class=AspyreDictHistory]. *)
Lemma handle_on_constructed_application_raises_witness :
  let self := mkAspyre two_handlers json_codec None in
  let chain := Some [("get", [(mkBound 0 "get" (Callable quiet), ([] : pydict))])] in
  Aspyre_init (Some two_handlers) (Some json_codec) (Some AspyreDictHistory) = Ok self
  /\ handle (fun _ => VNone) self chain VNone VNone None []
     = Raise (AttributeError "dict_class").
Proof.
  intros self chain. split; [reflexivity|].
  exact (handle_on_constructed_application_raises (fun _ => VNone)
           (Some two_handlers) (Some json_codec) (Some AspyreDictHistory)
           self chain VNone VNone None [] eq_refl).
Defined.

(** ** The chain that find builds *)

Lemma dict_set_headed (s : stages) (k : string) (l : list entry) :
  headed s -> headed (dict_set s k l).
Proof.
  intros (l0 & rest & ->). cbn [dict_set].
  destruct (String.eqb "before" k); unfold headed; eauto.
Qed.

Lemma stage_append_headed (s out : stages) (k : string) (x : entry) :
  headed s -> stage_append s k x = Ok out -> headed out.
Proof.
  unfold stage_append. intros Hs. destruct (dict_get s k); [|discriminate].
  intros [= <-]. now apply dict_set_headed.
Qed.

Lemma stage_insert0_headed (s out : stages) (k : string) (x : entry) :
  headed s -> stage_insert0 s k x = Ok out -> headed out.
Proof.
  unfold stage_insert0. intros Hs. destruct (dict_get s k); [|discriminate].
  intros [= <-]. now apply dict_set_headed.
Qed.

Lemma guarded_append_headed (s out : stages) (c : handler) (tested fetched k : string)
    (args : pydict) :
  headed s ->
  (if has_callable c tested then
     let? f := getattr_strict c fetched in stage_append s k (f, args)
   else Ok s) = Ok out ->
  headed out.
Proof.
  intros Hs. destruct (has_callable c tested); [|now intros [= <-]].
  destruct (getattr_strict c fetched); cbn [bind_res]; [|discriminate].
  now apply stage_append_headed.
Qed.

Lemma guarded_insert0_headed (s out : stages) (c : handler) (tested fetched k : string)
    (args : pydict) :
  headed s ->
  (if has_callable c tested then
     let? f := getattr_strict c fetched in stage_insert0 s k (f, args)
   else Ok s) = Ok out ->
  headed out.
Proof.
  intros Hs. destruct (has_callable c tested); [|now intros [= <-]].
  destruct (getattr_strict c fetched); cbn [bind_res]; [|discriminate].
  now apply stage_insert0_headed.
Qed.

Lemma find_step_headed (method before after : string) (found : handler * pydict)
    (s out : stages) :
  headed s -> Core.find_step method before after found s = Ok out -> headed out.
Proof.
  intros Hs. unfold Core.find_step.
  destruct (if has_callable found.1 "before" then _ else _) as [s1|] eqn:E1;
    cbn [bind_res]; [|discriminate].
  apply (guarded_append_headed _ _ _ _ _ _ _ Hs) in E1.
  destruct (if has_callable found.1 before then _ else _) as [s2|] eqn:E2;
    cbn [bind_res]; [|discriminate].
  apply (guarded_append_headed _ _ _ _ _ _ _ E1) in E2.
  destruct (if has_callable found.1 method then _ else _) as [s3|] eqn:E3;
    cbn [bind_res]; [|discriminate].
  apply (guarded_append_headed _ _ _ _ _ _ _ E2) in E3.
  destruct (if has_callable found.1 after then _ else _) as [s4|] eqn:E4;
    cbn [bind_res]; [|discriminate].
  apply (guarded_insert0_headed _ _ _ _ _ _ _ E3) in E4.
  now apply guarded_insert0_headed.
Qed.

Lemma find_loop_headed (method before after : string) (found : list (handler * pydict)) :
  forall s out,
    headed s -> Core.find_loop method before after found s = Ok out -> headed out.
Proof.
  induction found as [|x found IH]; intros s out Hs; cbn [Core.find_loop].
  - now intros [= <-].
  - destruct (Core.find_step method before after x s) as [s1|] eqn:E;
      cbn [bind_res]; [|discriminate].
    apply IH. eapply find_step_headed; eauto.
Qed.

(** The chain that [find] returns is never empty: its first stage is
    [before], whether or not any hook was found. *)
Lemma find_headed (builtins : string -> option builtin) (self : Aspyre)
    (host path : option string) (method : string) (s : stages) :
  find builtins self host path method = Ok (Some s) -> headed s.
Proof.
  unfold find.
  destruct (UrlClass.find builtins (url_class self) host path) as [[|x found]|];
    cbn [bind_res]; try discriminate.
  destruct (Core.find_loop _ _ _ _ _) as [out|] eqn:E; cbn [bind_res]; [|discriminate].
  intros [= <-]. eapply find_loop_headed; [|exact E].
  do 4 apply dict_set_headed. cbn [dict_set]. unfold headed. eauto.
Qed.

(** X23.  Whenever [find] returns a chain for a supported method, [__call__]
    ends in a TypeError: [find] is called without [await], the coroutine
    object is true, and [handle] is called with three arguments where it
    takes four. *)
Theorem call_with_chain_raises_TypeError
    (builtins : string -> option builtin) (self : Aspyre)
    (host path : option string) (method : string) (input headers : value)
    (query_string : option string) (s : stages) :
  in_http_methods method = true ->
  find builtins self host path method = Ok (Some s) ->
  __call__ builtins self host path method input headers query_string = Raise TypeError.
Proof.
  intros Hm Hf. unfold __call__. rewrite Hm. reflexivity.
Qed.

(** X23 at a handler without any hook, under a route that matches. *)
Lemma call_with_chain_raises_TypeError_witness :
  let bare := mkHandler 7 [] in
  let self := mkAspyre (mkRegex [((None, Some (compile (lits "items"))), bare)] ∅)
                json_codec None in
  let s : stages := [("before", []); ("before_get", []); ("get", []);
                     ("after_get", []); ("after", [])] in
  (in_http_methods "get" = true
   /\ find builtins_fragment self None (Some "items") "get" = Ok (Some s))
  /\ __call__ builtins_fragment self None (Some "items") "get" VNone VNone None
     = Raise TypeError.
Proof.
  intros bare self s.
  assert (find builtins_fragment self None (Some "items") "get" = Ok (Some s)) as Hf
    by (vm_compute; reflexivity).
  split; [split; [reflexivity | exact Hf]|].
  exact (call_with_chain_raises_TypeError builtins_fragment self None (Some "items")
           "get" VNone VNone None s eq_refl Hf).
Defined.

(** ** __fix_params__ *)

(** X24.  [__fix_params__] fails with an IndexError on every path of one
    character, the root path [/] included: it reads the second character. *)
Theorem fix_params_one_character_path (method : option string) (c : ascii) :
  __fix_params__ method (Some (String c EmptyString)) = Raise IndexError.
Proof. unfold __fix_params__. reflexivity. Qed.

(** X25.  [__fix_params__] removes the leading slash and keeps the rest of
    the path as it is, a trailing slash included, unless the second character
    of the path is a slash. *)
Theorem fix_params_keeps_trailing_slash (c : ascii) (rest : string) :
  Ascii.eqb c "/" = false ->
  __fix_params__ None (Some (String "/" (String c rest)))
  = Ok [("path", VStr (String c rest))].
Proof.
  intros Hc. unfold __fix_params__. cbn [dict_set Ascii.eqb Bool.eqb].
  rewrite Hc. reflexivity.
Qed.

(** X25 at the path [/users/]. *)
Lemma fix_params_keeps_trailing_slash_witness :
  Ascii.eqb "u" "/" = false
  /\ __fix_params__ None (Some "/users/") = Ok [("path", VStr "users/")].
Proof.
  split; [reflexivity|].
  exact (fix_params_keeps_trailing_slash "u" "sers/" eq_refl).
Defined.

(** ** Groups *)

Section Groups.

Variable builtins : string -> option builtin.
Variable parse_qs : string -> value.

(** X26.  [AspyreGroup.__call__] raises TypeError for every group and every
    request, with either finder: the finder is a coroutine function called
    without [await], and the coroutine object cannot be unpacked into a
    chain and an instance.  No request reaches [handle] or the encoded
    NotFound. *)
Theorem group_call_raises_TypeError
    (self : AspyreGroup) (host path : option string)
    (method : string) (input headers : value) (query_string : option string)
    (h : heap) :
  group_call builtins parse_qs self host path method input headers query_string h
  = Raise TypeError.
Proof. unfold group_call. now destruct (group_find self). Qed.

(** X27.  With the finder [Find.best], [AspyreGroup.__call__] never returns,
    whatever the instances and the request: the finder is called without
    [await], and what it returns cannot be unpacked into a chain and an
    instance. *)
Theorem group_call_best_raises
    (insts : list Aspyre) (codec : Codec) (host path : option string)
    (method : string) (input headers : value) (query_string : option string)
    (h : heap) :
  exists e,
    group_call builtins parse_qs (mkAspyreGroup insts Best codec)
      host path method input headers query_string h
    = Raise e.
Proof. exists TypeError. reflexivity. Qed.

(** X28.  A group with the finder [Find.first] whose instances were all
    built by the constructor of [Aspyre] never returns from [__call__]. *)
Theorem group_of_constructed_applications_raises
    (insts : list Aspyre) (codec : Codec) (host path : option string)
    (method : string) (input headers : value) (query_string : option string)
    (h : heap) :
  Forall (fun i => exists u c d, Aspyre_init u c d = Ok i) insts ->
  exists e,
    group_call builtins parse_qs (mkAspyreGroup insts First codec)
      host path method input headers query_string h
    = Raise e.
Proof. intros _. exists TypeError. reflexivity. Qed.

End Groups.

(** X28 at a group of one constructed application and a request it routes. *)
Lemma group_of_constructed_applications_raises_witness :
  let app := mkAspyre two_handlers json_codec None in
  Forall (fun i => exists u c d, Aspyre_init u c d = Ok i) [app]
  /\ exists e,
       group_call builtins_fragment (fun _ => VNone) (mkAspyreGroup [app] First json_codec)
         None (Some "items") "get" VNone VNone None []
       = Raise e.
Proof.
  intros app.
  assert (Forall (fun i => exists u c d, Aspyre_init u c d = Ok i) [app]) as Hall.
  { constructor; [|constructor].
    exists (Some two_handlers), (Some json_codec), (Some AspyreDictHistory). reflexivity. }
  split; [exact Hall|].
  exact (group_of_constructed_applications_raises builtins_fragment (fun _ => VNone)
           [app] json_codec None (Some "items") "get" VNone VNone None [] Hall).
Defined.

End CoreExtras.

(* ===================================================================== *)
(** * More on error.py *)
(* ===================================================================== *)
Module ErrorExtras.
Import Error.

(** ** Class names *)

Lemma letters_app (a b : string) :
  letters (a ++ b) = letters a && letters b.
Proof.
  unfold letters. induction a as [|c a IH]; [reflexivity|].
  change (String c a ++ b)%string with (String c (a ++ b)).
  cbn [list_ascii_of_string forallb]. now rewrite IH, andb_assoc.
Qed.

Lemma prefix_empty (s : string) : String.prefix "" s = true.
Proof. now destruct s. Qed.

(** One step of the scan for the separator of one space. *)
Lemma split_scan_space (cur : string) (c : ascii) (s : string) :
  split_scan " " 0 cur (String c s)
  = if Ascii.eqb c " " then cur :: split_scan " " 0 "" s
    else split_scan " " 0 (cur ++ String c "") s.
Proof.
  cbn [split_scan String.prefix]. rewrite prefix_empty.
  destruct (ascii_dec " " c) as [<-|Hne].
  - reflexivity.
  - destruct (Ascii.eqb c " ") eqn:E; [|reflexivity].
    apply Ascii.eqb_eq in E. congruence.
Qed.

Lemma split_space_letters (s : string) :
  forall cur,
    letters cur = true ->
    forallb (fun c => isalpha c || Ascii.eqb c " ") (list_ascii_of_string s) = true ->
    forallb letters (split_scan " " 0 cur s) = true.
Proof.
  induction s as [|c s IH]; intros cur Hcur Hs.
  - cbn [split_scan forallb]. now rewrite Hcur.
  - cbn [list_ascii_of_string forallb] in Hs. apply andb_true_iff in Hs as [Hc Hs].
    rewrite split_scan_space. destruct (Ascii.eqb c " ") eqn:E.
    + cbn [forallb]. rewrite Hcur. cbn [andb]. now apply IH.
    + apply IH; [|exact Hs]. rewrite letters_app, Hcur. cbn [andb].
      unfold letters. cbn [list_ascii_of_string forallb].
      rewrite orb_false_r in Hc. now rewrite Hc.
Qed.

Lemma sfilter_keeps (p : ascii -> bool) (s : string) :
  forallb p (list_ascii_of_string (sfilter p s)) = true.
Proof.
  induction s as [|c s IH]; [reflexivity|]. cbn [sfilter].
  destruct (p c) eqn:E; [|exact IH].
  cbn [list_ascii_of_string forallb]. now rewrite E.
Qed.

Lemma upper_char_letter (c : ascii) : isalpha c = true -> isalpha (upper_char c) = true.
Proof.
  destruct c as [[] [] [] [] [] [] [] []]; vm_compute; congruence.
Qed.

Lemma lower_char_letter (c : ascii) : isalpha c = true -> isalpha (lower_char c) = true.
Proof.
  destruct c as [[] [] [] [] [] [] [] []]; vm_compute; congruence.
Qed.

Lemma capitalize_letters (s : string) : letters s = true -> letters (capitalize s) = true.
Proof.
  unfold letters. destruct s as [|c s]; [reflexivity|].
  cbn [capitalize list_ascii_of_string forallb]. intros [Hc Hs]%andb_true_iff.
  rewrite (upper_char_letter _ Hc). cbn [andb].
  unfold lower. induction s as [|c' s IH]; [reflexivity|].
  cbn [list_ascii_of_string forallb smap] in *. apply andb_true_iff in Hs as [Hc' Hs].
  now rewrite (lower_char_letter _ Hc'), IH.
Qed.

Lemma join_letters (parts : list string) :
  forallb letters parts = true -> letters (join parts) = true.
Proof.
  unfold join. induction parts as [|a parts IH]; [reflexivity|].
  cbn [forallb fold_right]. intros [Ha Hp]%andb_true_iff.
  now rewrite letters_app, Ha, IH.
Qed.

(** X29.  The name generated for a status text within ASCII is made of
    letters only, whatever the text: digits, punctuation and the spaces
    between the words are dropped. *)
Theorem class_name_is_made_of_letters (text : string) :
  ascii_only text = true ->
  letters (class_name text) = true.
Proof.
  intros _. unfold class_name. apply join_letters.
  rewrite forallb_forall. intros part Hin. apply in_map_iff in Hin as (p & <- & Hp).
  apply capitalize_letters.
  pose proof (split_space_letters _ "" eq_refl (sfilter_keeps _ text)) as H.
  rewrite forallb_forall in H. now apply H.
Qed.

(** X29 at the text of row 418. *)
Lemma class_name_is_made_of_letters_witness :
  ascii_only "418 I'm a teapot" = true
  /\ class_name "418 I'm a teapot" = "ImATeapot"
  /\ letters (class_name "418 I'm a teapot") = true.
Proof.
  split; [reflexivity|]. split; [reflexivity|].
  exact (class_name_is_made_of_letters "418 I'm a teapot" eq_refl).
Defined.

(** ** The generated classes *)

Lemma lookup_class_in (g : list (string * Z)) (name : string) (c : Z) :
  lookup_class g name = Some c -> In (name, c) g.
Proof.
  induction g as [|[n c'] g IH]; cbn [lookup_class]; [discriminate|].
  destruct (String.eqb n name) eqn:E.
  - apply String.eqb_eq in E. intros [= <-]. left. now subst.
  - intros H. right. now apply IH.
Qed.

(** X30.  Every class that the module generates stands for a row of the
    status table with a code of 300 or more, under the name generated from
    the text of that row; and no class stands for 301, 302 or 303, whose
    rows give the name that row 307 gives after them. *)
Theorem generated_class_stands_for_a_row (name : string) (c : Z) :
  lookup_class module_classes name = Some c ->
  (300 <= c)%Z
  /\ (exists text, In (c, text) HTTPResponses /\ class_name text = name)
  /\ c <> 301%Z /\ c <> 302%Z /\ c <> 303%Z.
Proof.
  intros H. apply lookup_class_in in H.
  assert (forallb (fun nc : string * Z =>
                     (300 <=? snd nc)%Z
                     && existsb (fun row : Z * string =>
                                   (fst row =? snd nc)%Z
                                   && String.eqb (class_name (snd row)) (fst nc))
                          HTTPResponses
                     && negb (snd nc =? 301)%Z && negb (snd nc =? 302)%Z
                     && negb (snd nc =? 303)%Z)
            module_classes = true) as Hall by (vm_compute; reflexivity).
  rewrite forallb_forall in Hall. specialize (Hall _ H). cbn [fst snd] in Hall.
  repeat (apply andb_true_iff in Hall as [Hall ?]).
  split; [lia|]. split; [|repeat split; lia].
  match goal with Hex : existsb _ _ = true |- _ =>
    apply existsb_exists in Hex as ([code text] & Hin & Hrow) end.
  cbn [fst snd] in Hrow. apply andb_true_iff in Hrow as [Hc Hn].
  apply Z.eqb_eq in Hc. apply String.eqb_eq in Hn. subst code.
  exists text. split; [exact Hin | exact Hn].
Qed.

(** X30 at the class [NotFound]. *)
Lemma generated_class_stands_for_a_row_witness :
  lookup_class module_classes "NotFound" = Some 404%Z
  /\ (300 <= 404)%Z
  /\ (exists text, In (404%Z, text) HTTPResponses /\ class_name text = "NotFound")
  /\ 404%Z <> 301%Z /\ 404%Z <> 302%Z /\ 404%Z <> 303%Z.
Proof.
  split; [reflexivity|].
  exact (generated_class_stands_for_a_row "NotFound" 404 eq_refl).
Defined.

End ErrorExtras.
